(** * FLACExtractor: a shallow embedding of media/extractors/flac/FLACExtractor.cpp

    The development follows the source file top to bottom: machine integers,
    the libFLAC and media-framework interface types, the decoding engine seen
    as a tree of callback invocations, the callbacks of [FLACParser], the
    sample copy loops, [FLACParser::init] and [FLACParser::readBuffer], the
    [FLACSource] and [FLACExtractor] facades and the sniffer.  The theorems
    come after the definitions. *)

From Stdlib Require Import ZArith List Bool Lia QArith.
From stdpp Require Import base option list strings gmap.

Local Open Scope Z_scope.

(** ** Machine integers

    C++ integers are values of [Z]; every conversion to a fixed width is
    written out.  Unsigned arithmetic wraps modulo [2^w].  Signed 64-bit
    multiplication is modelled with two's-complement wrap-around, which is
    what the generated multiply instruction computes (the C++ standard leaves
    signed overflow undefined). *)

Module Int.

Definition wrap_unsigned (w x : Z) : Z := x mod 2 ^ w.

Definition wrap_signed (w x : Z) : Z :=
  (x + 2 ^ (w - 1)) mod 2 ^ w - 2 ^ (w - 1).

Definition uint32 : Z -> Z := wrap_unsigned 32.
Definition uint64 : Z -> Z := wrap_unsigned 64.
Definition int16 : Z -> Z := wrap_signed 16.
Definition int32 : Z -> Z := wrap_signed 32.
Definition int64 : Z -> Z := wrap_signed 64.

(** [size_t] on the LP64 builds of the extractor. *)
Definition size_t : Z -> Z := wrap_unsigned 64.

Definition INT64_MAX : Z := 2 ^ 63 - 1.

(** [v << count] for [int v] and [unsigned count].  A count of 32 or more has
    no defined result for a 32-bit left operand; below 32 the result is the
    low 32 bits of the shifted value, read as a signed integer. *)
Definition shl_int (v count : Z) : option Z :=
  if count <? 32 then Some (int32 (Z.shiftl v count)) else None.

End Int.

Import Int.

(** ** Outcomes of a call

    A call either returns, or stops the process on a failed [CHECK], or runs
    into behaviour the language leaves undefined. *)

Inductive outcome (A : Type) : Type :=
| Returns (a : A)
| CheckFailed
| Undefined.

Arguments Returns {A} a.
Arguments CheckFailed {A}.
Arguments Undefined {A}.

Definition obind {A B} (m : outcome A) (f : A -> outcome B) : outcome B :=
  match m with
  | Returns a => f a
  | CheckFailed => CheckFailed
  | Undefined => Undefined
  end.

Definition CHECK {A} (cond : bool) (k : outcome A) : outcome A :=
  if cond then k else CheckFailed.

Definition defined {A} (o : option A) : outcome A :=
  match o with Some a => Returns a | None => Undefined end.

(** ** Sample planes

    A channel plane pointer handed over by the engine is represented by the
    samples it points to for the duration of the drive step. *)

Abbreviation plane := (list Z).

(** ** Copy loops (lines 405-431)

    [for i < nSamples, for c < nChannels: *dst++ = conv (src[c][i])].  A read
    outside the planes, like an over-wide shift, has no defined result. *)

Definition copy_loop {A} (conv : Z -> option A)
    (src : list plane) (nSamples nChannels : Z) : option (list A) :=
  mjoin <$>
    mapM (fun i : nat =>
            mapM (fun c : nat => src !! c ≫= fun p => p !! i ≫= conv)
                 (seq 0 (Z.to_nat nChannels)))
         (seq 0 (Z.to_nat nSamples)).

Definition copyTo16Signed (src : list plane)
    (nSamples nChannels bitsPerSample : Z) : option (list Z) :=
  let leftShift := uint32 (16 - bitsPerSample) in
  copy_loop (fun v => int16 <$> shl_int v leftShift) src nSamples nChannels.

Section CopyToFloat.
(** [float_from_i32] comes from audio_utils/primitives.h; the conversion is a
    parameter of the model. *)
Context {float32 : Type} (float_from_i32 : Z -> float32).

Definition copyToFloat (src : list plane)
    (nSamples nChannels bitsPerSample : Z) : option (list float32) :=
  let leftShift := uint32 (32 - bitsPerSample) in
  copy_loop (fun v => float_from_i32 <$> shl_int v leftShift)
            src nSamples nChannels.
End CopyToFloat.

(** ** Interface types of libFLAC *)

Module StreamInfo.
Record t : Type := Build {
  min_blocksize : Z;
  max_blocksize : Z;
  min_framesize : Z;
  max_framesize : Z;
  sample_rate : Z;
  channels : Z;
  bits_per_sample : Z;
  total_samples : Z;
  md5sum : list Z
}.
(** [memset (&mStreamInfo, 0, sizeof (mStreamInfo))] *)
Definition zero : t := Build 0 0 0 0 0 0 0 0 (replicate 16 0).
(** The members are [unsigned], except [total_samples], a [FLAC__uint64]. *)
Definition well_typed (s : t) : Prop :=
  0 <= min_blocksize s < 2 ^ 32 /\ 0 <= max_blocksize s < 2 ^ 32
  /\ 0 <= min_framesize s < 2 ^ 32 /\ 0 <= max_framesize s < 2 ^ 32
  /\ 0 <= sample_rate s < 2 ^ 32 /\ 0 <= channels s < 2 ^ 32
  /\ 0 <= bits_per_sample s < 2 ^ 32 /\ 0 <= total_samples s < 2 ^ 64.
End StreamInfo.

Inductive FLAC__FrameNumberType : Type :=
| FLAC__FRAME_NUMBER_TYPE_FRAME_NUMBER
| FLAC__FRAME_NUMBER_TYPE_SAMPLE_NUMBER.

Module FrameHeader.
Record t : Type := Build {
  blocksize : Z;
  sample_rate : Z;
  channels : Z;
  channel_assignment : Z;
  bits_per_sample : Z;
  number_type : FLAC__FrameNumberType;
  number : Z;
  crc : Z
}.
(** [memset (&mWriteHeader, 0, sizeof (mWriteHeader))] *)
Definition zero : t :=
  Build 0 0 0 0 0 FLAC__FRAME_NUMBER_TYPE_FRAME_NUMBER 0 0.
End FrameHeader.

Record FLAC__Frame : Type := {
  header : FrameHeader.t
}.

Module VorbisComment_Entry.
Record t : Type := Build {
  length : Z;
  entry : option (list Z)
}.
End VorbisComment_Entry.

Inductive FLAC__StreamMetadata : Type :=
| FLAC__METADATA_TYPE_STREAMINFO (stream_info : StreamInfo.t)
| FLAC__METADATA_TYPE_VORBIS_COMMENT (comments : list VorbisComment_Entry.t)
| FLAC__METADATA_TYPE_PICTURE (data : list Z) (data_length : Z)
| FLAC__METADATA_TYPE_other (type : Z).

Inductive FLAC__StreamDecoderReadStatus : Type :=
| FLAC__STREAM_DECODER_READ_STATUS_CONTINUE
| FLAC__STREAM_DECODER_READ_STATUS_END_OF_STREAM
| FLAC__STREAM_DECODER_READ_STATUS_ABORT.

Inductive FLAC__StreamDecoderSeekStatus : Type :=
| FLAC__STREAM_DECODER_SEEK_STATUS_OK.

Inductive FLAC__StreamDecoderTellStatus : Type :=
| FLAC__STREAM_DECODER_TELL_STATUS_OK.

Inductive FLAC__StreamDecoderLengthStatus : Type :=
| FLAC__STREAM_DECODER_LENGTH_STATUS_OK
| FLAC__STREAM_DECODER_LENGTH_STATUS_UNSUPPORTED.

Inductive FLAC__StreamDecoderWriteStatus : Type :=
| FLAC__STREAM_DECODER_WRITE_STATUS_CONTINUE
| FLAC__STREAM_DECODER_WRITE_STATUS_ABORT.

(** ** The decoding engine

    libFLAC is not part of this repository.  One drive step of the engine
    ([process_until_end_of_metadata], [process_single], [seek_absolute]) is a
    tree: at each node the engine invokes one of the eight registered
    callbacks and continues according to what the callback hands back; at a
    leaf it returns its [FLAC__bool] together with its own next state. *)

Inductive Drive (E : Type) : Type :=
| Finish (ok : bool) (e : E)
| CallRead (requested : Z)
    (k : FLAC__StreamDecoderReadStatus -> Z -> list Z -> Drive E)
| CallSeek (absolute_byte_offset : Z)
    (k : FLAC__StreamDecoderSeekStatus -> Drive E)
| CallTell (k : FLAC__StreamDecoderTellStatus -> Z -> Drive E)
| CallLength (k : FLAC__StreamDecoderLengthStatus -> option Z -> Drive E)
| CallEof (k : bool -> Drive E)
| CallWrite (frame : FLAC__Frame) (buffer : list plane)
    (k : FLAC__StreamDecoderWriteStatus -> Drive E)
| CallMetadata (metadata : FLAC__StreamMetadata) (k : Drive E)
| CallError (status : Z) (k : Drive E).

Arguments Finish {E} ok e.
Arguments CallRead {E} requested k.
Arguments CallSeek {E} absolute_byte_offset k.
Arguments CallTell {E} k.
Arguments CallLength {E} k.
Arguments CallEof {E} k.
Arguments CallWrite {E} frame buffer k.
Arguments CallMetadata {E} metadata k.
Arguments CallError {E} status k.

(** The contract of libFLAC for a callback that answers "abort": the engine
    gives up the drive step and reports failure.  [gives_up d] says that
    every way through [d] ends in failure; [honours_abort d] says that the
    engine gives up after any abort answer. *)

Inductive gives_up {E : Type} : Drive E -> Prop :=
| gives_up_Finish e : gives_up (Finish false e)
| gives_up_Read requested k :
    (forall status bytes buffer, gives_up (k status bytes buffer)) ->
    gives_up (CallRead requested k)
| gives_up_Seek offset k :
    (forall status, gives_up (k status)) -> gives_up (CallSeek offset k)
| gives_up_Tell k :
    (forall status offset, gives_up (k status offset)) ->
    gives_up (CallTell k)
| gives_up_Length k :
    (forall status len, gives_up (k status len)) -> gives_up (CallLength k)
| gives_up_Eof k :
    (forall eof, gives_up (k eof)) -> gives_up (CallEof k)
| gives_up_Write frame buffer k :
    (forall status, gives_up (k status)) ->
    gives_up (CallWrite frame buffer k)
| gives_up_Metadata metadata k :
    gives_up k -> gives_up (CallMetadata metadata k)
| gives_up_Error status k :
    gives_up k -> gives_up (CallError status k).

Inductive honours_abort {E : Type} : Drive E -> Prop :=
| honours_Finish ok e : honours_abort (Finish ok e)
| honours_Read requested k :
    (forall bytes buffer,
        gives_up (k FLAC__STREAM_DECODER_READ_STATUS_ABORT bytes buffer)) ->
    (forall status bytes buffer, honours_abort (k status bytes buffer)) ->
    honours_abort (CallRead requested k)
| honours_Seek offset k :
    (forall status, honours_abort (k status)) ->
    honours_abort (CallSeek offset k)
| honours_Tell k :
    (forall status offset, honours_abort (k status offset)) ->
    honours_abort (CallTell k)
| honours_Length k :
    (forall status len, honours_abort (k status len)) ->
    honours_abort (CallLength k)
| honours_Eof k :
    (forall eof, honours_abort (k eof)) -> honours_abort (CallEof k)
| honours_Write frame buffer k :
    gives_up (k FLAC__STREAM_DECODER_WRITE_STATUS_ABORT) ->
    (forall status, honours_abort (k status)) ->
    honours_abort (CallWrite frame buffer k)
| honours_Metadata metadata k :
    honours_abort k -> honours_abort (CallMetadata metadata k)
| honours_Error status k :
    honours_abort k -> honours_abort (CallError status k).

Inductive FLAC__MetadataType : Type :=
| METADATA_STREAMINFO
| METADATA_PICTURE
| METADATA_VORBIS_COMMENT.

Record Engine (E : Type) : Type := {
  FLAC__stream_decoder_new : option E;
  FLAC__stream_decoder_set_md5_checking : E -> bool -> E;
  FLAC__stream_decoder_set_metadata_ignore_all : E -> E;
  FLAC__stream_decoder_set_metadata_respond : E -> FLAC__MetadataType -> E;
  (** [true] stands for [FLAC__STREAM_DECODER_INIT_STATUS_OK] *)
  FLAC__stream_decoder_init_stream : E -> bool * E;
  FLAC__stream_decoder_process_until_end_of_metadata : E -> Drive E;
  FLAC__stream_decoder_process_single : E -> Drive E;
  FLAC__stream_decoder_seek_absolute : E -> Z -> Drive E
}.

Arguments FLAC__stream_decoder_new {E} _.
Arguments FLAC__stream_decoder_set_md5_checking {E} _ _ _.
Arguments FLAC__stream_decoder_set_metadata_ignore_all {E} _ _.
Arguments FLAC__stream_decoder_set_metadata_respond {E} _ _ _.
Arguments FLAC__stream_decoder_init_stream {E} _ _.
Arguments FLAC__stream_decoder_process_until_end_of_metadata {E} _ _.
Arguments FLAC__stream_decoder_process_single {E} _ _.
Arguments FLAC__stream_decoder_seek_absolute {E} _ _ _.

(** ** Interface types of the media framework *)

(** [status_t] *)
Definition OK : Z := 0.
Definition NO_INIT : Z := -19.

Inductive media_status_t : Type :=
| AMEDIA_OK
| AMEDIA_ERROR_UNKNOWN
| AMEDIA_ERROR_INVALID_PARAMETER
| AMEDIA_ERROR_END_OF_STREAM.

(** private/android_filesystem_config.h *)
Definition AID_MEDIA : Z := 1013.

(** media/stagefright/MediaDefs.h *)
Definition kAudioEncodingPcm16bit : Z := 2.
Definition kAudioEncodingPcmFloat : Z := 4.
Definition MEDIA_MIMETYPE_AUDIO_RAW : string := "audio/raw".
Definition MEDIA_MIMETYPE_AUDIO_FLAC : string := "audio/flac".

(** system/audio.h *)
Definition FCC_8 : Z := 8.

(** [AMediaFormat]: a map from keys to typed values. *)
Inductive AMediaValue : Type :=
| VString (s : string)
| VInt32 (v : Z)
| VInt64 (v : Z)
| VBuffer (bytes : list Z).

Abbreviation AMediaFormat := (gmap string AMediaValue).

Definition AMEDIAFORMAT_KEY_MIME : string := "mime".
Definition AMEDIAFORMAT_KEY_CHANNEL_COUNT : string := "channel-count".
Definition AMEDIAFORMAT_KEY_SAMPLE_RATE : string := "sample-rate".
Definition AMEDIAFORMAT_KEY_BITS_PER_SAMPLE : string := "bits-per-sample".
Definition AMEDIAFORMAT_KEY_DURATION : string := "durationUs".
Definition AMEDIAFORMAT_KEY_PCM_ENCODING : string := "pcm-encoding".
Definition AMEDIAFORMAT_KEY_ALBUMART : string := "albumart".

Definition AMediaFormat_new : AMediaFormat := ∅.

Definition AMediaFormat_setString (m : AMediaFormat) (k v : string)
  : AMediaFormat := <[k := VString v]> m.
Definition AMediaFormat_setInt32 (m : AMediaFormat) (k : string) (v : Z)
  : AMediaFormat := <[k := VInt32 (int32 v)]> m.
Definition AMediaFormat_setInt64 (m : AMediaFormat) (k : string) (v : Z)
  : AMediaFormat := <[k := VInt64 (int64 v)]> m.
Definition AMediaFormat_setBuffer (m : AMediaFormat) (k : string)
    (data : list Z) (size : Z) : AMediaFormat :=
  <[k := VBuffer (take (Z.to_nat size) data)]> m.

(** [AMediaFormat_copy (to, from)]: a null pointer on either side is refused,
    otherwise the destination becomes a copy of the source. *)
Definition AMediaFormat_copy (to from : option AMediaFormat)
  : media_status_t * option AMediaFormat :=
  match to, from with
  | Some _, Some m => (AMEDIA_OK, Some m)
  | _, _ => (AMEDIA_ERROR_INVALID_PARAMETER, to)
  end.

(** [DataSourceHelper]: [readAt offset size] gives the [ssize_t] result and
    the bytes stored in the caller's buffer; [getSize] is [None] when the
    source cannot tell its size. *)
Record DataSourceHelper : Type := {
  readAt : Z -> Z -> Z * list Z;
  getSize : option Z
}.

(** A byte string held in memory, read from like a file. *)
Definition memory_source (bytes : list Z) : DataSourceHelper :=
  {| readAt := fun offset size =>
       let chunk :=
         take (Z.to_nat size) (drop (Z.to_nat offset) bytes) in
       if (offset <? 0) || (size <? 0) then (-1, [])
       else (Z.of_nat (length chunk), chunk);
     getSize := Some (Z.of_nat (length bytes)) |}.

(** [MediaBufferBase] as handed to the caller. *)
Inductive pcm (float32 : Type) : Type :=
| Pcm16 (samples : list Z)
| PcmFloat (samples : list float32).

Arguments Pcm16 {float32} samples.
Arguments PcmFloat {float32} samples.

Record MediaBufferBase (float32 : Type) : Type := {
  range_length : Z;
  buffer_data : pcm float32;
  kKeyTime : Z;
  kKeyIsSyncFrame : Z
}.

Arguments range_length {float32} _.
Arguments buffer_data {float32} _.
Arguments kKeyTime {float32} _.
Arguments kKeyIsSyncFrame {float32} _.

(** [MediaBufferGroup] with its single buffer of [capacity] bytes;
    [acquire_buffer] is the status the next acquisition gives. *)
Record MediaBufferGroup : Type := {
  capacity : Z;
  acquire_buffer : Z
}.

(** Functions of this repository and of its libraries that the file calls
    but does not define: the decoding engine, the integer-to-float scaling of
    audio_utils and the tag parser of MetaDataUtils. *)
Record Externals (E float32 : Type) : Type := {
  engine : Engine E;
  float_from_i32 : Z -> float32;
  parseVorbisComment : AMediaFormat -> list Z -> Z -> AMediaFormat
}.

Arguments engine {E float32} _.
Arguments float_from_i32 {E float32} _ _.
Arguments parseVorbisComment {E float32} _ _ _ _.

(** Lines 49-52; the calling uid is the one of the binder transaction in
    which the function runs. *)
Definition shouldExtractorOutputFloat (callingUid bitsPerSample : Z) : bool :=
  (bitsPerSample >? 16) && (callingUid =? AID_MEDIA).

(** ** FLACParser *)

Module FLACParser.
Section WithExternals.
Context {E float32 : Type} (ext : Externals E float32).

Definition kMaxChannels : Z := FCC_8.

Record t : Type := Build {
  mDataSource : DataSourceHelper;
  mOutputFloat : bool;
  mFileMetadata : option AMediaFormat;
  mTrackMetadata : option AMediaFormat;
  mInitCheck : bool;
  mMaxBufferSize : Z;
  mGroup : option MediaBufferGroup;
  mDecoder : option E;
  mCurrentPos : Z;
  mEOF : bool;
  mStreamInfo : StreamInfo.t;
  mStreamInfoValid : bool;
  mWriteRequested : bool;
  mWriteCompleted : bool;
  mWriteHeader : FrameHeader.t;
  mWriteBuffer : list plane;
  mErrorStatus : Z
}.

Definition set_mFileMetadata (v : option AMediaFormat) (p : t) : t :=
  Build (mDataSource p) (mOutputFloat p) v (mTrackMetadata p)
    (mInitCheck p) (mMaxBufferSize p) (mGroup p) (mDecoder p)
    (mCurrentPos p) (mEOF p) (mStreamInfo p) (mStreamInfoValid p)
    (mWriteRequested p) (mWriteCompleted p) (mWriteHeader p)
    (mWriteBuffer p) (mErrorStatus p).
Definition set_mTrackMetadata (v : option AMediaFormat) (p : t) : t :=
  Build (mDataSource p) (mOutputFloat p) (mFileMetadata p) v
    (mInitCheck p) (mMaxBufferSize p) (mGroup p) (mDecoder p)
    (mCurrentPos p) (mEOF p) (mStreamInfo p) (mStreamInfoValid p)
    (mWriteRequested p) (mWriteCompleted p) (mWriteHeader p)
    (mWriteBuffer p) (mErrorStatus p).
Definition set_mInitCheck (v : bool) (p : t) : t :=
  Build (mDataSource p) (mOutputFloat p) (mFileMetadata p)
    (mTrackMetadata p) v (mMaxBufferSize p) (mGroup p) (mDecoder p)
    (mCurrentPos p) (mEOF p) (mStreamInfo p) (mStreamInfoValid p)
    (mWriteRequested p) (mWriteCompleted p) (mWriteHeader p)
    (mWriteBuffer p) (mErrorStatus p).
Definition set_mMaxBufferSize (v : Z) (p : t) : t :=
  Build (mDataSource p) (mOutputFloat p) (mFileMetadata p)
    (mTrackMetadata p) (mInitCheck p) v (mGroup p) (mDecoder p)
    (mCurrentPos p) (mEOF p) (mStreamInfo p) (mStreamInfoValid p)
    (mWriteRequested p) (mWriteCompleted p) (mWriteHeader p)
    (mWriteBuffer p) (mErrorStatus p).
Definition set_mGroup (v : option MediaBufferGroup) (p : t) : t :=
  Build (mDataSource p) (mOutputFloat p) (mFileMetadata p)
    (mTrackMetadata p) (mInitCheck p) (mMaxBufferSize p) v (mDecoder p)
    (mCurrentPos p) (mEOF p) (mStreamInfo p) (mStreamInfoValid p)
    (mWriteRequested p) (mWriteCompleted p) (mWriteHeader p)
    (mWriteBuffer p) (mErrorStatus p).
Definition set_mDecoder (v : option E) (p : t) : t :=
  Build (mDataSource p) (mOutputFloat p) (mFileMetadata p)
    (mTrackMetadata p) (mInitCheck p) (mMaxBufferSize p) (mGroup p) v
    (mCurrentPos p) (mEOF p) (mStreamInfo p) (mStreamInfoValid p)
    (mWriteRequested p) (mWriteCompleted p) (mWriteHeader p)
    (mWriteBuffer p) (mErrorStatus p).
Definition set_mCurrentPos (v : Z) (p : t) : t :=
  Build (mDataSource p) (mOutputFloat p) (mFileMetadata p)
    (mTrackMetadata p) (mInitCheck p) (mMaxBufferSize p) (mGroup p)
    (mDecoder p) v (mEOF p) (mStreamInfo p) (mStreamInfoValid p)
    (mWriteRequested p) (mWriteCompleted p) (mWriteHeader p)
    (mWriteBuffer p) (mErrorStatus p).
Definition set_mEOF (v : bool) (p : t) : t :=
  Build (mDataSource p) (mOutputFloat p) (mFileMetadata p)
    (mTrackMetadata p) (mInitCheck p) (mMaxBufferSize p) (mGroup p)
    (mDecoder p) (mCurrentPos p) v (mStreamInfo p) (mStreamInfoValid p)
    (mWriteRequested p) (mWriteCompleted p) (mWriteHeader p)
    (mWriteBuffer p) (mErrorStatus p).
Definition set_mStreamInfo (v : StreamInfo.t) (p : t) : t :=
  Build (mDataSource p) (mOutputFloat p) (mFileMetadata p)
    (mTrackMetadata p) (mInitCheck p) (mMaxBufferSize p) (mGroup p)
    (mDecoder p) (mCurrentPos p) (mEOF p) v (mStreamInfoValid p)
    (mWriteRequested p) (mWriteCompleted p) (mWriteHeader p)
    (mWriteBuffer p) (mErrorStatus p).
Definition set_mStreamInfoValid (v : bool) (p : t) : t :=
  Build (mDataSource p) (mOutputFloat p) (mFileMetadata p)
    (mTrackMetadata p) (mInitCheck p) (mMaxBufferSize p) (mGroup p)
    (mDecoder p) (mCurrentPos p) (mEOF p) (mStreamInfo p) v
    (mWriteRequested p) (mWriteCompleted p) (mWriteHeader p)
    (mWriteBuffer p) (mErrorStatus p).
Definition set_mWriteRequested (v : bool) (p : t) : t :=
  Build (mDataSource p) (mOutputFloat p) (mFileMetadata p)
    (mTrackMetadata p) (mInitCheck p) (mMaxBufferSize p) (mGroup p)
    (mDecoder p) (mCurrentPos p) (mEOF p) (mStreamInfo p)
    (mStreamInfoValid p) v (mWriteCompleted p) (mWriteHeader p)
    (mWriteBuffer p) (mErrorStatus p).
Definition set_mWriteCompleted (v : bool) (p : t) : t :=
  Build (mDataSource p) (mOutputFloat p) (mFileMetadata p)
    (mTrackMetadata p) (mInitCheck p) (mMaxBufferSize p) (mGroup p)
    (mDecoder p) (mCurrentPos p) (mEOF p) (mStreamInfo p)
    (mStreamInfoValid p) (mWriteRequested p) v (mWriteHeader p)
    (mWriteBuffer p) (mErrorStatus p).
Definition set_mWriteHeader (v : FrameHeader.t) (p : t) : t :=
  Build (mDataSource p) (mOutputFloat p) (mFileMetadata p)
    (mTrackMetadata p) (mInitCheck p) (mMaxBufferSize p) (mGroup p)
    (mDecoder p) (mCurrentPos p) (mEOF p) (mStreamInfo p)
    (mStreamInfoValid p) (mWriteRequested p) (mWriteCompleted p) v
    (mWriteBuffer p) (mErrorStatus p).
Definition set_mWriteBuffer (v : list plane) (p : t) : t :=
  Build (mDataSource p) (mOutputFloat p) (mFileMetadata p)
    (mTrackMetadata p) (mInitCheck p) (mMaxBufferSize p) (mGroup p)
    (mDecoder p) (mCurrentPos p) (mEOF p) (mStreamInfo p)
    (mStreamInfoValid p) (mWriteRequested p) (mWriteCompleted p)
    (mWriteHeader p) v (mErrorStatus p).
Definition set_mErrorStatus (v : Z) (p : t) : t :=
  Build (mDataSource p) (mOutputFloat p) (mFileMetadata p)
    (mTrackMetadata p) (mInitCheck p) (mMaxBufferSize p) (mGroup p)
    (mDecoder p) (mCurrentPos p) (mEOF p) (mStreamInfo p)
    (mStreamInfoValid p) (mWriteRequested p) (mWriteCompleted p)
    (mWriteHeader p) (mWriteBuffer p) v.

Definition initCheck (p : t) : Z := if mInitCheck p then 1 else 0.

Definition getMaxBlockSize (p : t) : Z := StreamInfo.max_blocksize (mStreamInfo p).
Definition getSampleRate (p : t) : Z := StreamInfo.sample_rate (mStreamInfo p).
Definition getChannels (p : t) : Z := StreamInfo.channels (mStreamInfo p).
Definition getBitsPerSample (p : t) : Z := StreamInfo.bits_per_sample (mStreamInfo p).
Definition getTotalSamples (p : t) : Z := StreamInfo.total_samples (mStreamInfo p).

Definition getOutputSampleSize (p : t) : Z := if mOutputFloat p then 4 else 2.

(** *** Callbacks (lines 290-400)

    The [assert] of [readCallback] is compiled out and is not modelled.
    [memmove] in [writeCallback] copies [getChannels ()] pointers, at most
    [kMaxChannels] for a parser that passed [init]. *)

Definition readCallback (requested : Z) (p : t)
  : FLAC__StreamDecoderReadStatus * Z * list Z * t :=
  let '(actual, buffer) := readAt (mDataSource p) (mCurrentPos p) requested in
  if 0 >? actual then
    (FLAC__STREAM_DECODER_READ_STATUS_ABORT, 0, [], p)
  else if 0 =? actual then
    (FLAC__STREAM_DECODER_READ_STATUS_END_OF_STREAM, 0, [], set_mEOF true p)
  else
    (FLAC__STREAM_DECODER_READ_STATUS_CONTINUE, actual, buffer,
     set_mCurrentPos (int64 (mCurrentPos p + actual)) p).

Definition seekCallback (absolute_byte_offset : Z) (p : t)
  : FLAC__StreamDecoderSeekStatus * t :=
  (FLAC__STREAM_DECODER_SEEK_STATUS_OK,
   set_mEOF false (set_mCurrentPos (int64 absolute_byte_offset) p)).

Definition tellCallback (p : t) : FLAC__StreamDecoderTellStatus * Z :=
  (FLAC__STREAM_DECODER_TELL_STATUS_OK, uint64 (mCurrentPos p)).

Definition lengthCallback (p : t)
  : FLAC__StreamDecoderLengthStatus * option Z :=
  match getSize (mDataSource p) with
  | Some size => (FLAC__STREAM_DECODER_LENGTH_STATUS_OK, Some (uint64 size))
  | None => (FLAC__STREAM_DECODER_LENGTH_STATUS_UNSUPPORTED, None)
  end.

Definition eofCallback (p : t) : bool := mEOF p.

(** [memmove (mWriteBuffer, buffer, sizeof (pointer) * getChannels ())] *)
Definition memmove_planes (dst src : list plane) (n : Z) : list plane :=
  take (Z.to_nat n) src ++ drop (Z.to_nat n) dst.

Definition writeCallback (frame : FLAC__Frame) (buffer : list plane) (p : t)
  : FLAC__StreamDecoderWriteStatus * t :=
  if mWriteRequested p then
    let p := set_mWriteRequested false p in
    let p := set_mWriteHeader (header frame) p in
    let p := set_mWriteBuffer
               (memmove_planes (mWriteBuffer p) buffer (getChannels p)) p in
    let p := set_mWriteCompleted true p in
    (FLAC__STREAM_DECODER_WRITE_STATUS_CONTINUE, p)
  else
    (FLAC__STREAM_DECODER_WRITE_STATUS_ABORT, p).

Definition metadataCallback (metadata : FLAC__StreamMetadata) (p : t) : t :=
  match metadata with
  | FLAC__METADATA_TYPE_STREAMINFO stream_info =>
      if negb (mStreamInfoValid p) then
        set_mStreamInfoValid true (set_mStreamInfo stream_info p)
      else p
  | FLAC__METADATA_TYPE_VORBIS_COMMENT comments =>
      fold_left
        (fun p vce =>
           match mFileMetadata p, VorbisComment_Entry.entry vce with
           | Some m, Some e =>
               set_mFileMetadata
                 (Some (parseVorbisComment ext m e
                          (VorbisComment_Entry.length vce))) p
           | _, _ => p
           end)
        comments p
  | FLAC__METADATA_TYPE_PICTURE data data_length =>
      match mFileMetadata p with
      | Some m =>
          set_mFileMetadata
            (Some (AMediaFormat_setBuffer m AMEDIAFORMAT_KEY_ALBUMART
                     data data_length)) p
      | None => p
      end
  | FLAC__METADATA_TYPE_other _ => p
  end.

Definition errorCallback (status : Z) (p : t) : t := set_mErrorStatus status p.

(** One drive step of the engine against the parser: every node of the tree
    runs the callback of the same name. *)
Fixpoint run (d : Drive E) (p : t) : bool * E * t :=
  match d with
  | Finish ok e => (ok, e, p)
  | CallRead requested k =>
      let '(status, bytes, buffer, p) := readCallback requested p in
      run (k status bytes buffer) p
  | CallSeek absolute_byte_offset k =>
      let '(status, p) := seekCallback absolute_byte_offset p in
      run (k status) p
  | CallTell k =>
      let '(status, absolute_byte_offset) := tellCallback p in
      run (k status absolute_byte_offset) p
  | CallLength k =>
      let '(status, stream_length) := lengthCallback p in
      run (k status stream_length) p
  | CallEof k => run (k (eofCallback p)) p
  | CallWrite frame buffer k =>
      let '(status, p) := writeCallback frame buffer p in
      run (k status) p
  | CallMetadata metadata k => run k (metadataCallback metadata p)
  | CallError status k => run k (errorCallback status p)
  end.

(** *** [FLACParser::init] (lines 470-563) *)

Definition supported_bits_per_sample (bits : Z) : bool :=
  (bits =? 8) || (bits =? 16) || (bits =? 24).

Definition supported_sample_rate (rate : Z) : bool :=
  (rate =? 8000) || (rate =? 11025) || (rate =? 12000) || (rate =? 16000)
  || (rate =? 22050) || (rate =? 24000) || (rate =? 32000) || (rate =? 44100)
  || (rate =? 48000) || (rate =? 88200) || (rate =? 96000).

Definition populate_track_metadata (p : t) : t :=
  match mTrackMetadata p with
  | Some m =>
      let m := AMediaFormat_setString m
                 AMEDIAFORMAT_KEY_MIME MEDIA_MIMETYPE_AUDIO_RAW in
      let m := AMediaFormat_setInt32 m
                 AMEDIAFORMAT_KEY_CHANNEL_COUNT (getChannels p) in
      let m := AMediaFormat_setInt32 m
                 AMEDIAFORMAT_KEY_SAMPLE_RATE (getSampleRate p) in
      let m := AMediaFormat_setInt32 m
                 AMEDIAFORMAT_KEY_BITS_PER_SAMPLE (getBitsPerSample p) in
      let m := AMediaFormat_setInt64 m
                 AMEDIAFORMAT_KEY_DURATION
                 (uint64 (getTotalSamples p * 1000000) / getSampleRate p) in
      set_mTrackMetadata (Some m) p
  | None => p
  end.

Definition populate_file_metadata (p : t) : t :=
  match mFileMetadata p with
  | Some m =>
      set_mFileMetadata
        (Some (AMediaFormat_setString m
                 AMEDIAFORMAT_KEY_MIME MEDIA_MIMETYPE_AUDIO_FLAC)) p
  | None => p
  end.

(** The part of [init] that follows the metadata phase (lines 506-562). *)
Definition check_stream_info (p : t) : Z * t :=
  if mStreamInfoValid p then
    if (getChannels p =? 0) || (getChannels p >? kMaxChannels) then
      (NO_INIT, p)
    else if negb (supported_bits_per_sample (getBitsPerSample p)) then
      (NO_INIT, p)
    else if negb (supported_sample_rate (getSampleRate p)) then
      (NO_INIT, p)
    else
      (OK, populate_file_metadata (populate_track_metadata p))
  else
    (NO_INIT, p).

(** The part of [init] up to the end of the metadata phase (lines 473-505);
    [false] when it returns [NO_INIT]. *)
Definition parse_metadata (p : t) : bool * t :=
  let eng := engine ext in
  match FLAC__stream_decoder_new eng with
  | None => (false, set_mDecoder None p)
  | Some d =>
      let d := FLAC__stream_decoder_set_md5_checking eng d false in
      let d := FLAC__stream_decoder_set_metadata_ignore_all eng d in
      let d := FLAC__stream_decoder_set_metadata_respond eng d
                 METADATA_STREAMINFO in
      let d := FLAC__stream_decoder_set_metadata_respond eng d
                 METADATA_PICTURE in
      let d := FLAC__stream_decoder_set_metadata_respond eng d
                 METADATA_VORBIS_COMMENT in
      let '(initStatus, d) := FLAC__stream_decoder_init_stream eng d in
      let p := set_mDecoder (Some d) p in
      if negb initStatus then (false, p)
      else
        let '(ok, d, p) :=
          run (FLAC__stream_decoder_process_until_end_of_metadata eng d) p in
        let p := set_mDecoder (Some d) p in
        if negb ok then (false, p) else (true, p)
  end.

Definition init (p : t) : Z * t :=
  let '(parsed, p) := parse_metadata p in
  if negb parsed then (NO_INIT, p) else check_stream_info p.

(** The member initialisers of the constructor (lines 440-457). *)
Definition fresh (dataSource : DataSourceHelper) (outputFloat : bool)
    (fileMetadata trackMetadata : option AMediaFormat) : t :=
    {| mDataSource := dataSource;
       mOutputFloat := outputFloat;
       mFileMetadata := fileMetadata;
       mTrackMetadata := trackMetadata;
       mInitCheck := false;
       mMaxBufferSize := 0;
       mGroup := None;
       mDecoder := None;
       mCurrentPos := 0;
       mEOF := false;
       mStreamInfo := StreamInfo.zero;
       mStreamInfoValid := false;
       mWriteRequested := false;
       mWriteCompleted := false;
       mWriteHeader := FrameHeader.zero;
       mWriteBuffer := replicate (Z.to_nat kMaxChannels) [];
       mErrorStatus := -1 |}.

(** The constructor (lines 435-459).  [mInitCheck] is a [bool] member that
    receives the [status_t] of [init]: any non-zero status becomes [true]. *)
Definition new (dataSource : DataSourceHelper) (outputFloat : bool)
    (fileMetadata trackMetadata : option AMediaFormat) : t :=
  let '(status, p) :=
    init (fresh dataSource outputFloat fileMetadata trackMetadata) in
  set_mInitCheck (negb (status =? 0)) p.

(** *** Media buffers (lines 565-578)

    [acquire] is the status with which the new group will answer
    [acquire_buffer]. *)

Definition allocateBuffers (acquire : Z) (p : t) : outcome t :=
  CHECK (bool_decide (mGroup p = None))
    (let size :=
       size_t (uint32 (getMaxBlockSize p * getChannels p)
               * getOutputSampleSize p) in
     Returns
       (set_mGroup (Some {| capacity := size; acquire_buffer := acquire |})
          (set_mMaxBufferSize size p))).

Definition releaseBuffers (p : t) : outcome t :=
  CHECK (negb (bool_decide (mGroup p = None))) (Returns (set_mGroup None p)).

(** *** [FLACParser::readBuffer] (lines 580-647) *)

(** Lines 582-596: arm the one-shot flag and drive the engine once.  The
    result is the engine's [FLAC__bool]; a null decoder handle cannot be
    driven. *)
Definition drive (doSeek : bool) (sample : Z) (p : t) : option bool * t :=
  let p := set_mWriteRequested true p in
  let p := set_mWriteCompleted false p in
  match mDecoder p with
  | None => (None, p)
  | Some d =>
      let '(ok, d, p) :=
        run (if doSeek
             then FLAC__stream_decoder_seek_absolute (engine ext) d sample
             else FLAC__stream_decoder_process_single (engine ext) d) p in
      (Some ok, set_mDecoder (Some d) p)
  end.

(** Lines 601-614: the block header keeps the promises made by STREAMINFO. *)
Definition invalid_blocksize (p : t) : bool :=
  let blocksize := FrameHeader.blocksize (mWriteHeader p) in
  (blocksize =? 0) || (blocksize >? getMaxBlockSize p).

Definition changed_parameters (p : t) : bool :=
  negb (FrameHeader.sample_rate (mWriteHeader p) =? getSampleRate p)
  || negb (FrameHeader.channels (mWriteHeader p) =? getChannels p)
  || negb (FrameHeader.bits_per_sample (mWriteHeader p) =? getBitsPerSample p).

(** Lines 615-646: acquire the buffer, copy with interleaving, stamp. *)
Definition fill_buffer (p : t) : outcome (option (MediaBufferBase float32)) :=
  let blocksize := FrameHeader.blocksize (mWriteHeader p) in
  match mGroup p with
  | None => CheckFailed
  | Some group =>
      if negb (acquire_buffer group =? OK) then Returns None
      else
        let bufferSize :=
          size_t (uint32 (blocksize * getChannels p)
                  * getOutputSampleSize p) in
        CHECK (bufferSize <=? mMaxBufferSize p)
          (let bitsPerSample := getBitsPerSample p in
           obind
             (defined
                (if mOutputFloat p then
                   PcmFloat <$>
                     copyToFloat (float_from_i32 ext) (mWriteBuffer p)
                       blocksize (getChannels p) bitsPerSample
                 else
                   Pcm16 <$>
                     copyTo16Signed (mWriteBuffer p)
                       blocksize (getChannels p) bitsPerSample))
             (fun data =>
                CHECK (match FrameHeader.number_type (mWriteHeader p) with
                       | FLAC__FRAME_NUMBER_TYPE_SAMPLE_NUMBER => true
                       | FLAC__FRAME_NUMBER_TYPE_FRAME_NUMBER => false
                       end)
                  (let sampleNumber := FrameHeader.number (mWriteHeader p) in
                   if getSampleRate p =? 0 then Undefined
                   else
                     let timeUs :=
                       int64 (uint64 (1000000 * sampleNumber)
                              / getSampleRate p) in
                     Returns
                       (Some {| range_length := bufferSize;
                                buffer_data := data;
                                kKeyTime := timeUs;
                                kKeyIsSyncFrame := 1 |}))))
  end.

Definition readBuffer (doSeek : bool) (sample : Z) (p : t)
  : outcome (option (MediaBufferBase float32)) * t :=
  match drive doSeek sample p with
  | (None, p) => (Undefined, p)
  | (Some ok, p) =>
      if negb ok then (Returns None, p)
      else if negb (mWriteCompleted p) then (Returns None, p)
      else if invalid_blocksize p then (Returns None, p)
      else if changed_parameters p then (Returns None, p)
      else (fill_buffer p, p)
  end.

(** *** What happens during a drive step

    [trace] lists, in order, what each callback handed back to the engine
    while [run] went through the tree. *)

Inductive callback_result : Type :=
| ReadResult (status : FLAC__StreamDecoderReadStatus)
| SeekResult (status : FLAC__StreamDecoderSeekStatus)
| TellResult (status : FLAC__StreamDecoderTellStatus)
| LengthResult (status : FLAC__StreamDecoderLengthStatus)
| EofResult (eof : bool)
| WriteResult (armed : bool) (frame : FLAC__Frame)
    (status : FLAC__StreamDecoderWriteStatus)
| MetadataResult
| ErrorResult.

Fixpoint trace (d : Drive E) (p : t) : list callback_result :=
  match d with
  | Finish _ _ => []
  | CallRead requested k =>
      let '(status, bytes, buffer, p) := readCallback requested p in
      ReadResult status :: trace (k status bytes buffer) p
  | CallSeek absolute_byte_offset k =>
      let '(status, p) := seekCallback absolute_byte_offset p in
      SeekResult status :: trace (k status) p
  | CallTell k =>
      let '(status, absolute_byte_offset) := tellCallback p in
      TellResult status :: trace (k status absolute_byte_offset) p
  | CallLength k =>
      let '(status, stream_length) := lengthCallback p in
      LengthResult status :: trace (k status stream_length) p
  | CallEof k => EofResult (eofCallback p) :: trace (k (eofCallback p)) p
  | CallWrite frame buffer k =>
      let '(status, p') := writeCallback frame buffer p in
      WriteResult (mWriteRequested p) frame status :: trace (k status) p'
  | CallMetadata metadata k =>
      MetadataResult :: trace k (metadataCallback metadata p)
  | CallError status k => ErrorResult :: trace k (errorCallback status p)
  end.

(** The tree of the drive step that [readBuffer] runs, and the parser it
    runs against (flag armed). *)
Definition armed (p : t) : t :=
  set_mWriteCompleted false (set_mWriteRequested true p).

Definition drive_tree (doSeek : bool) (sample : Z) (d : E) : Drive E :=
  if doSeek
  then FLAC__stream_decoder_seek_absolute (engine ext) d sample
  else FLAC__stream_decoder_process_single (engine ext) d.

End WithExternals.
End FLACParser.

(** ** FLACSource (lines 651-731) *)

(** [ReadOptions]: [getSeekTo] yields the requested time when a seek was
    set. *)
Record ReadOptions : Type := {
  getSeekTo : option Z
}.

Module FLACSource.
Section WithExternals.
Context {E float32 : Type} (ext : Externals E float32).

Record t : Type := Build {
  mDataSource : DataSourceHelper;
  mTrackMetadata : option AMediaFormat;
  mOutputFloat : bool;
  mParser : FLACParser.t (E := E);
  mInitCheck : bool;
  mStarted : bool
}.

Definition set_mParser (v : FLACParser.t) (s : t) : t :=
  Build (mDataSource s) (mTrackMetadata s) (mOutputFloat s) v
        (mInitCheck s) (mStarted s).
Definition set_mStarted (v : bool) (s : t) : t :=
  Build (mDataSource s) (mTrackMetadata s) (mOutputFloat s) (mParser s)
        (mInitCheck s) v.

Definition new (dataSource : DataSourceHelper)
    (trackMetadata : option AMediaFormat) (outputFloat : bool) : t :=
  let parser := FLACParser.new ext dataSource outputFloat None None in
  {| mDataSource := dataSource;
     mTrackMetadata := trackMetadata;
     mOutputFloat := outputFloat;
     mParser := parser;
     mInitCheck := negb (FLACParser.initCheck parser =? 0);
     mStarted := false |}.

Definition start (acquire : Z) (s : t) : outcome (media_status_t * t) :=
  CHECK (negb (mStarted s))
    (obind (FLACParser.allocateBuffers acquire (mParser s))
       (fun parser =>
          Returns (AMEDIA_OK, set_mStarted true (set_mParser parser s)))).

Definition stop (s : t) : outcome (media_status_t * t) :=
  CHECK (mStarted s)
    (obind (FLACParser.releaseBuffers (mParser s))
       (fun parser =>
          Returns (AMEDIA_OK, set_mStarted false (set_mParser parser s)))).

Definition getFormat (meta : option AMediaFormat) (s : t)
  : media_status_t * option AMediaFormat :=
  let '(status, meta) := AMediaFormat_copy meta (mTrackMetadata s) in
  match status, meta with
  | AMEDIA_OK, Some m =>
      (status,
       Some (AMediaFormat_setInt32 m AMEDIAFORMAT_KEY_PCM_ENCODING
               (if mOutputFloat s then kAudioEncodingPcmFloat
                else kAudioEncodingPcm16bit)))
  | _, _ => (status, meta)
  end.

(** Lines 713-723: the sample a seek request asks for.  The product
    [seekTimeUs * getSampleRate ()] is formed in 64 signed bits.  As long as
    it fits, the value below is the value of the C++ expression.  When it
    does not fit, C++ defines no value for it and builds differ in what
    they compute; the value below is then the one of a build that keeps the
    low 64 bits and divides them as a signed number.  Properties that
    depend on the value are stated for products that fit, or for a request
    on which the signed and the unsigned division of the low 64 bits
    agree. *)
Definition seek_sample (seekTimeUs : Z) (s : t) : Z :=
  if seekTimeUs <=? 0 then 0
  else
    let sample :=
      uint64 (int64 (seekTimeUs * FLACParser.getSampleRate (mParser s))
              `quot` 1000000) in
    if sample >=? FLACParser.getTotalSamples (mParser s)
    then FLACParser.getTotalSamples (mParser s)
    else sample.

Definition read (options : option ReadOptions) (s : t)
  : outcome (option (MediaBufferBase float32) * media_status_t) * t :=
  let '(buffer, parser) :=
    match options ≫= getSeekTo with
    | Some seekTimeUs =>
        FLACParser.readBuffer ext true (seek_sample seekTimeUs s) (mParser s)
    | None =>
        FLACParser.readBuffer ext false 0 (mParser s)
    end in
  (obind buffer
     (fun buffer =>
        Returns (buffer,
                 match buffer with
                 | Some _ => AMEDIA_OK
                 | None => AMEDIA_ERROR_END_OF_STREAM
                 end)),
   set_mParser parser s).

(** The destructor (lines 665-672): a started track is stopped, then the
    parser is deleted.  The result says whether the [CHECK]s on the way
    hold. *)
Definition destructor (s : t) : outcome unit :=
  if mStarted s
  then obind (stop s) (fun _ => Returns tt)
  else Returns tt.

End WithExternals.
End FLACSource.

(** ** FLACExtractor (lines 735-791) *)

Module FLACExtractor.
Section WithExternals.
Context {E float32 : Type} (ext : Externals E float32).

(** The two formats are allocated by the extractor and filled in by the
    parser through the pointers it was given; the fields below hold what the
    pointers refer to once the parser is constructed. *)
Record t : Type := Build {
  mDataSource : DataSourceHelper;
  mParser : FLACParser.t (E := E);
  mInitCheck : Z;
  mFileMetadata : option AMediaFormat;
  mTrackMetadata : option AMediaFormat
}.

Definition new (dataSource : DataSourceHelper) : t :=
  let parser :=
    FLACParser.new ext dataSource false
      (Some AMediaFormat_new) (Some AMediaFormat_new) in
  {| mDataSource := dataSource;
     mParser := parser;
     mInitCheck := FLACParser.initCheck parser;
     mFileMetadata := FLACParser.mFileMetadata parser;
     mTrackMetadata := FLACParser.mTrackMetadata parser |}.

Definition countTracks (x : t) : Z :=
  if mInitCheck x =? OK then 1 else 0.

Definition getTrack (callingUid index : Z) (x : t)
  : option (FLACSource.t (E := E)) :=
  if negb (mInitCheck x =? OK) || (index >? 0) then None
  else
    Some (FLACSource.new ext (mDataSource x) (mTrackMetadata x)
            (shouldExtractorOutputFloat callingUid
               (int32 (FLACParser.getBitsPerSample (mParser x))))).

Definition getTrackMetaData (callingUid : Z) (meta : option AMediaFormat)
    (index : Z) (x : t) : media_status_t * option AMediaFormat :=
  if negb (mInitCheck x =? OK) || (index >? 0) then
    (AMEDIA_ERROR_UNKNOWN, meta)
  else
    let '(status, meta) := AMediaFormat_copy meta (mTrackMetadata x) in
    match status, meta with
    | AMEDIA_OK, Some m =>
        (status,
         Some (AMediaFormat_setInt32 m AMEDIAFORMAT_KEY_PCM_ENCODING
                 (if shouldExtractorOutputFloat callingUid
                       (int32 (FLACParser.getBitsPerSample (mParser x)))
                  then kAudioEncodingPcmFloat
                  else kAudioEncodingPcm16bit)))
    | _, _ => (status, meta)
    end.

Definition getMetaData (meta : option AMediaFormat) (x : t)
  : media_status_t * option AMediaFormat :=
  AMediaFormat_copy meta (mFileMetadata x).

End WithExternals.
End FLACExtractor.

(** ** Sniffer (lines 795-811) *)

(** ["fLaC\0\0\0\042"] *)
Definition flac_signature : list Z := [102; 76; 97; 67; 0; 0; 0; 34].

(** [memcmp (a, b, n)] is zero exactly when the first [n] bytes agree. *)
Definition memcmp_differs (a b : list Z) (n : nat) : bool :=
  negb (bool_decide (take n a = take n b)).

(** The second component is the value of [*confidence] after the call. *)
Definition SniffFLAC (source : DataSourceHelper) (confidence : Q) : bool * Q :=
  let '(n, header) := readAt source 0 (4 + 4) in
  if negb (size_t n =? 4 + 4) || memcmp_differs flac_signature header (4 + 4)
  then (false, confidence)
  else (true, 1 # 2).

(** ** Scripted engines

    Concrete engines for the examples: the metadata phase delivers a fixed
    list of blocks, a decode step and a seek each follow a fixed tree. *)

Definition metadata_script {E : Type}
    (blocks : list FLAC__StreamMetadata) (ok : bool) (e : E) : Drive E :=
  foldr CallMetadata (Finish ok e) blocks.

Definition scripted_engine (blocks : list FLAC__StreamMetadata)
    (metadata_ok : bool) (single : Drive unit) (seek : Z -> Drive unit)
  : Engine unit :=
  {| FLAC__stream_decoder_new := Some tt;
     FLAC__stream_decoder_set_md5_checking := fun e _ => e;
     FLAC__stream_decoder_set_metadata_ignore_all := fun e => e;
     FLAC__stream_decoder_set_metadata_respond := fun e _ => e;
     FLAC__stream_decoder_init_stream := fun e => (true, e);
     FLAC__stream_decoder_process_until_end_of_metadata :=
       fun e => metadata_script blocks metadata_ok e;
     FLAC__stream_decoder_process_single := fun _ => single;
     FLAC__stream_decoder_seek_absolute := fun _ sample => seek sample |}.

(** The engine pushes one frame and reports what the push allows. *)
Definition push_frame (frame : FLAC__Frame) (buffer : list plane)
  : Drive unit :=
  CallWrite frame buffer
    (fun status =>
       match status with
       | FLAC__STREAM_DECODER_WRITE_STATUS_CONTINUE => Finish true tt
       | FLAC__STREAM_DECODER_WRITE_STATUS_ABORT => Finish false tt
       end).

(** Externals with exact rational samples for the float output. *)
Definition scripted (eng : Engine unit) : Externals unit Q :=
  {| engine := eng;
     float_from_i32 := fun i => i # 2 ^ 31;
     parseVorbisComment := fun m _ _ => m |}.

Definition stream_info (rate channels bits total max_block : Z)
  : StreamInfo.t :=
  {| StreamInfo.min_blocksize := 16;
     StreamInfo.max_blocksize := max_block;
     StreamInfo.min_framesize := 0;
     StreamInfo.max_framesize := 0;
     StreamInfo.sample_rate := rate;
     StreamInfo.channels := channels;
     StreamInfo.bits_per_sample := bits;
     StreamInfo.total_samples := total;
     StreamInfo.md5sum := replicate 16 0 |}.

Definition frame_of (si : StreamInfo.t) (blocksize sample_number : Z)
  : FLAC__Frame :=
  {| header :=
       {| FrameHeader.blocksize := blocksize;
          FrameHeader.sample_rate := StreamInfo.sample_rate si;
          FrameHeader.channels := StreamInfo.channels si;
          FrameHeader.channel_assignment := 0;
          FrameHeader.bits_per_sample := StreamInfo.bits_per_sample si;
          FrameHeader.number_type := FLAC__FRAME_NUMBER_TYPE_SAMPLE_NUMBER;
          FrameHeader.number := sample_number;
          FrameHeader.crc := 0 |} |}.

(** An engine that delivers [blocks] in its metadata phase and never
    produces a frame. *)
Definition silent (blocks : list FLAC__StreamMetadata) (metadata_ok : bool)
  : Externals unit Q :=
  scripted (scripted_engine blocks metadata_ok
              (Finish true tt) (fun _ => Finish false tt)).

(** An engine for a stream with parameters [si]: every decode step pushes
    one frame of [blocksize] samples taken from [planes]; a seek pushes the
    frame of the requested sample, and fails at or beyond the end. *)
Definition player (si : StreamInfo.t) (planes : list plane) (blocksize : Z)
  : Externals unit Q :=
  scripted
    (scripted_engine [FLAC__METADATA_TYPE_STREAMINFO si] true
       (push_frame (frame_of si blocksize 0) planes)
       (fun sample =>
          if sample <? StreamInfo.total_samples si
          then push_frame (frame_of si blocksize sample) planes
          else Finish false tt)).

(** The track of a stream, obtained by a caller with uid [callingUid] and
    started. *)
Definition open_track {E float32 : Type} (ext : Externals E float32)
    (callingUid : Z) (dataSource : DataSourceHelper)
  : option (FLACSource.t (E := E)) :=
  track ← FLACExtractor.getTrack ext callingUid 0
             (FLACExtractor.new ext dataSource);
  match FLACSource.start OK track with
  | Returns (_, started) => Some started
  | _ => None
  end.

Definition seek_to (seekTimeUs : Z) : option ReadOptions :=
  Some {| getSeekTo := Some seekTimeUs |}.

(** [open_track] for a stream that is known to initialise. *)
Definition the_track {E float32 : Type} (ext : Externals E float32)
    (callingUid : Z) (dataSource : DataSourceHelper)
  : FLACSource.t (E := E) :=
  default (FLACSource.new ext dataSource None false)
          (open_track ext callingUid dataSource).

(** An engine step that pushes two frames in a row. *)
Definition double_push (first second : FLAC__Frame) (buffer : list plane)
  : Drive unit :=
  CallWrite first buffer
    (fun status =>
       match status with
       | FLAC__STREAM_DECODER_WRITE_STATUS_CONTINUE =>
           push_frame second buffer
       | FLAC__STREAM_DECODER_WRITE_STATUS_ABORT => Finish false tt
       end).

(** Like [player], with a decode step that pushes twice. *)
Definition stutterer (si : StreamInfo.t) (planes : list plane)
    (blocksize : Z) : Externals unit Q :=
  scripted
    (scripted_engine [FLAC__METADATA_TYPE_STREAMINFO si] true
       (double_push (frame_of si blocksize 0)
                    (frame_of si blocksize blocksize) planes)
       (fun _ => Finish false tt)).

(** ** Vocabulary of the specification *)

Definition supported_bit_depths : list Z := [8; 16; 24].

Definition canonical_sample_rates : list Z :=
  [8000; 11025; 12000; 16000; 22050; 24000; 32000; 44100; 48000; 88200;
   96000].

(** The parser holds no stream-parameters block, or one that [init] does not
    accept. *)
Definition rejected {E : Type} (p : FLACParser.t (E := E)) : Prop :=
  FLACParser.mStreamInfoValid p = false
  \/ FLACParser.getChannels p = 0
  \/ FLACParser.getChannels p > 8
  \/ FLACParser.getBitsPerSample p ∉ supported_bit_depths
  \/ FLACParser.getSampleRate p ∉ canonical_sample_rates.

(** The metadata blocks with every stream-parameters block after the first
    one left out. *)
Definition is_stream_info (block : FLAC__StreamMetadata) : bool :=
  match block with FLAC__METADATA_TYPE_STREAMINFO _ => true | _ => false end.

Fixpoint first_stream_info_only (blocks : list FLAC__StreamMetadata)
  : list FLAC__StreamMetadata :=
  match blocks with
  | [] => []
  | block :: rest =>
      if is_stream_info block
      then block :: filter (fun b => is_stream_info b = false) rest
      else block :: first_stream_info_only rest
  end.

(** A callback answered "abort" to the engine. *)
Definition answered_abort (r : FLACParser.callback_result) : bool :=
  match r with
  | FLACParser.ReadResult FLAC__STREAM_DECODER_READ_STATUS_ABORT => true
  | FLACParser.WriteResult _ _ FLAC__STREAM_DECODER_WRITE_STATUS_ABORT => true
  | _ => false
  end.

(** The frame-push callback fired while the one-shot flag was clear. *)
Definition unarmed_push (r : FLACParser.callback_result) : bool :=
  match r with
  | FLACParser.WriteResult false _ _ => true
  | _ => false
  end.

(** The read callback met an I/O error of the data source. *)
Definition io_error (r : FLACParser.callback_result) : bool :=
  match r with
  | FLACParser.ReadResult FLAC__STREAM_DECODER_READ_STATUS_ABORT => true
  | _ => false
  end.

(** What [FLACSource::read] asks of the parser: [readBuffer (sample)] for a
    seek request, [readBuffer ()] otherwise. *)
Definition request {E : Type} (options : option ReadOptions)
    (s : FLACSource.t (E := E)) : bool * Z :=
  match options ≫= getSeekTo with
  | Some seekTimeUs => (true, FLACSource.seek_sample seekTimeUs s)
  | None => (false, 0)
  end.

(** Two parsers that agree on everything the callbacks answer from: all
    members but the output mode, the two metadata pointers and the buffer
    group. *)
Definition same_stream {E : Type} (p q : FLACParser.t (E := E)) : Prop :=
  FLACParser.mDataSource p = FLACParser.mDataSource q
  /\ FLACParser.mCurrentPos p = FLACParser.mCurrentPos q
  /\ FLACParser.mEOF p = FLACParser.mEOF q
  /\ FLACParser.mStreamInfo p = FLACParser.mStreamInfo q
  /\ FLACParser.mStreamInfoValid p = FLACParser.mStreamInfoValid q
  /\ FLACParser.mWriteRequested p = FLACParser.mWriteRequested q
  /\ FLACParser.mWriteCompleted p = FLACParser.mWriteCompleted q
  /\ FLACParser.mWriteHeader p = FLACParser.mWriteHeader q
  /\ FLACParser.mWriteBuffer p = FLACParser.mWriteBuffer q.

(** ** Further vocabulary *)

(** The end-of-stream flag as the answers of a drive step leave it: a read
    of zero bytes sets it, a seek clears it. *)
Definition eof_after (answers : list FLACParser.callback_result)
    (eof : bool) : bool :=
  fold_left
    (fun eof r =>
       match r with
       | FLACParser.ReadResult
           FLAC__STREAM_DECODER_READ_STATUS_END_OF_STREAM => true
       | FLACParser.SeekResult _ => false
       | _ => eof
       end)
    answers eof.

(** A push that the write callback accepted. *)
Definition accepted_push (r : FLACParser.callback_result) : bool :=
  match r with
  | FLACParser.WriteResult _ _ FLAC__STREAM_DECODER_WRITE_STATUS_CONTINUE =>
      true
  | _ => false
  end.

(** The frame of the first push of a drive step. *)
Fixpoint first_push (answers : list FLACParser.callback_result)
  : option FLAC__Frame :=
  match answers with
  | [] => None
  | FLACParser.WriteResult _ frame _ :: _ => Some frame
  | _ :: rest => first_push rest
  end.

(** The started flag of a track and the buffer group of its parser go
    together. *)
Definition in_sync {E : Type} (s : FLACSource.t (E := E)) : Prop :=
  FLACSource.mStarted s = true
  <-> is_Some (FLACParser.mGroup (FLACSource.mParser s)).

(** The track after a series of reads. *)
Definition after_reads {E float32 : Type} (ext : Externals E float32)
    (requests : list (option ReadOptions)) (s : FLACSource.t (E := E))
  : FLACSource.t (E := E) :=
  fold_left (fun s options => (FLACSource.read ext options s).2) requests s.

(** Number of samples and bytes per sample of the data of a buffer. *)
Definition pcm_samples {float32 : Type} (data : pcm float32) : nat :=
  match data with
  | Pcm16 samples => length samples
  | PcmFloat samples => length samples
  end.

Definition pcm_width {float32 : Type} (data : pcm float32) : Z :=
  match data with Pcm16 _ => 2 | PcmFloat _ => 4 end.

(** A metadata block that the callback stores in the file format. *)
Definition touches_file_metadata (block : FLAC__StreamMetadata) : bool :=
  match block with
  | FLAC__METADATA_TYPE_VORBIS_COMMENT _ => true
  | FLAC__METADATA_TYPE_PICTURE _ _ => true
  | _ => false
  end.

(** The product [seekTimeUs * getSampleRate ()] of a seek request with a
    positive time leaves the range of 64 signed bits. *)
Definition seek_overflows {E : Type} (seekTimeUs : Z)
    (s : FLACSource.t (E := E)) : bool :=
  let product :=
    seekTimeUs * FLACParser.getSampleRate (FLACSource.mParser s) in
  (0 <? seekTimeUs) && ((product <? - 2 ^ 63) || (INT64_MAX <? product)).

(** * Properties *)

(** ** Machine integers *)

Lemma int16_small x : - 2 ^ 15 <= x < 2 ^ 15 -> int16 x = x.
Proof.
  intros H. unfold int16, wrap_signed.
  rewrite Z.mod_small by lia. lia.
Qed.

Lemma int32_small x : - 2 ^ 31 <= x < 2 ^ 31 -> int32 x = x.
Proof.
  intros H. unfold int32, wrap_signed.
  rewrite Z.mod_small by lia. lia.
Qed.

Lemma int64_small x : - 2 ^ 63 <= x < 2 ^ 63 -> int64 x = x.
Proof.
  intros H. unfold int64, wrap_signed.
  rewrite Z.mod_small by lia. lia.
Qed.

Lemma uint64_small x : 0 <= x < 2 ^ 64 -> uint64 x = x.
Proof. intros H. unfold uint64, wrap_unsigned. apply Z.mod_small. lia. Qed.

Lemma uint64_range x : 0 <= uint64 x < 2 ^ 64.
Proof. unfold uint64, wrap_unsigned. apply Z.mod_pos_bound. lia. Qed.

Lemma size_t_of_ssize_t n :
  - 2 ^ 63 <= n < 2 ^ 63 -> size_t n = 8 <-> n = 8.
Proof.
  intros H. unfold size_t, wrap_unsigned. split; [|intros ->; reflexivity].
  intros Hm.
  pose proof (Z.div_mod n (2 ^ 64) ltac:(lia)) as Hdiv.
  rewrite Hm in Hdiv. lia.
Qed.

(** ** Sample conversion *)

Lemma int16_int32 x : int16 (int32 x) = int16 x.
Proof.
  unfold int16, int32, wrap_signed. f_equal.
  replace ((x + 2 ^ (32 - 1)) mod 2 ^ 32 - 2 ^ (32 - 1) + 2 ^ (16 - 1))
    with ((x + 2 ^ (32 - 1)) mod 2 ^ 32 + (2 ^ (16 - 1) - 2 ^ (32 - 1)))
    by lia.
  rewrite <- Zplus_mod_idemp_l.
  rewrite Zdiv.Z.mod_mod_divide by (exists (2 ^ 16); reflexivity).
  rewrite Zplus_mod_idemp_l. f_equal. lia.
Qed.

(** One sample on the 16-bit path, for a source of at most 16 bits. *)
Lemma sample_to_16 bits v :
  bits = 8 \/ bits = 16 ->
  int16 <$> shl_int v (uint32 (16 - bits))
  = Some (int16 (Z.shiftl v (16 - bits))).
Proof.
  intros [->| ->].
  - change (int16 <$> Some (int32 (Z.shiftl v 8))
            = Some (int16 (Z.shiftl v 8))).
    cbn [fmap option_fmap option_map]. by rewrite int16_int32.
  - change (int16 <$> Some (int32 (Z.shiftl v 0))
            = Some (int16 (Z.shiftl v 0))).
    cbn [fmap option_fmap option_map]. by rewrite int16_int32.
Qed.

(** On the 16-bit path a 24-bit source asks for a shift by [2^32 - 8]. *)
Lemma sample_to_16_wide v : int16 <$> shl_int v (uint32 (16 - 24)) = None.
Proof. reflexivity. Qed.

(** One sample on the float path. *)
Lemma sample_to_float {float32 : Type} (float_from_i32 : Z -> float32)
    bits v :
  bits ∈ supported_bit_depths ->
  float_from_i32 <$> shl_int v (uint32 (32 - bits))
  = Some (float_from_i32 (int32 (Z.shiftl v (32 - bits)))).
Proof.
  unfold supported_bit_depths. rewrite !elem_of_cons, elem_of_nil.
  intros [->|[->|[->|[]]]]; reflexivity.
Qed.

(** The copy loops interleave: sample [i] of channel [c] lands at index
    [i * nChannels + c]. *)
Lemma copy_loop_lookup {A} (conv : Z -> option A) src nSamples nChannels out
    (i c : nat) :
  copy_loop conv src nSamples nChannels = Some out ->
  (i < Z.to_nat nSamples)%nat -> (c < Z.to_nat nChannels)%nat ->
  exists p v a,
    src !! c = Some p /\ p !! i = Some v /\ conv v = Some a
    /\ out !! (i * Z.to_nat nChannels + c)%nat = Some a.
Proof.
  unfold copy_loop. intros Hcopy Hi Hc.
  apply fmap_Some in Hcopy as (rows & Hrows & ->).
  apply mapM_Some_1 in Hrows.
  assert (Forall (fun row : list A => length row = Z.to_nat nChannels) rows)
    as Hlen.
  { apply Forall_forall. intros row Hrow.
    apply list_elem_of_lookup in Hrow as [j Hj].
    destruct (Forall2_lookup_r _ _ _ _ _ Hrows Hj) as (j' & _ & Hrow).
    apply mapM_Some_1, Forall2_length in Hrow.
    by rewrite length_seq in Hrow. }
  destruct (Forall2_lookup_l _ _ _ i i Hrows) as (row & Hrow & Hmap).
  { by rewrite lookup_seq_lt. }
  apply mapM_Some_1 in Hmap.
  destruct (Forall2_lookup_l _ _ _ c c Hmap) as (a & Ha & Hconv).
  { by rewrite lookup_seq_lt. }
  destruct (src !! c) as [p|] eqn:Hp; [|discriminate Hconv].
  cbn in Hconv. destruct (p !! i) as [v|] eqn:Hv; [|discriminate Hconv].
  cbn in Hconv. exists p, v, a. repeat split; try done.
  apply join_lookup_Some_same_length'; [done..|]. by exists row.
Qed.

(** What the 16-bit path writes for a source of at most 16 bits. *)
Lemma copyTo16Signed_lookup src nSamples nChannels bits out (i c : nat) :
  bits = 8 \/ bits = 16 ->
  copyTo16Signed src nSamples nChannels bits = Some out ->
  (i < Z.to_nat nSamples)%nat -> (c < Z.to_nat nChannels)%nat ->
  exists p v,
    src !! c = Some p /\ p !! i = Some v
    /\ out !! (i * Z.to_nat nChannels + c)%nat
       = Some (int16 (Z.shiftl v (16 - bits))).
Proof.
  intros Hbits Hcopy Hi Hc.
  destruct (copy_loop_lookup _ _ _ _ _ i c Hcopy Hi Hc)
    as (p & v & a & Hp & Hv & Hconv & Hout).
  rewrite sample_to_16 in Hconv by done. injection Hconv as <-.
  by exists p, v.
Qed.

(** What the float path writes for a supported bit depth. *)
Lemma copyToFloat_lookup {float32 : Type} (float_from_i32 : Z -> float32)
    src nSamples nChannels bits out (i c : nat) :
  bits ∈ supported_bit_depths ->
  copyToFloat float_from_i32 src nSamples nChannels bits = Some out ->
  (i < Z.to_nat nSamples)%nat -> (c < Z.to_nat nChannels)%nat ->
  exists p v,
    src !! c = Some p /\ p !! i = Some v
    /\ out !! (i * Z.to_nat nChannels + c)%nat
       = Some (float_from_i32 (int32 (Z.shiftl v (32 - bits)))).
Proof.
  intros Hbits Hcopy Hi Hc.
  destruct (copy_loop_lookup _ _ _ _ _ i c Hcopy Hi Hc)
    as (p & v & a & Hp & Hv & Hconv & Hout).
  rewrite sample_to_float in Hconv by done. injection Hconv as <-.
  by exists p, v.
Qed.

(** The loops have a result when every plane is there, long enough, and
    every sample converts. *)
Lemma copy_loop_defined {A} (conv : Z -> option A) src nSamples nChannels :
  (Z.to_nat nChannels <= length src)%nat ->
  Forall (fun p : plane => (Z.to_nat nSamples <= length p)%nat) src ->
  (forall v, is_Some (conv v)) ->
  is_Some (copy_loop conv src nSamples nChannels).
Proof.
  intros Hsrc Hplanes Hconv. unfold copy_loop. apply fmap_is_Some.
  apply mapM_is_Some, Forall_forall. intros i Hi. cbn.
  apply mapM_is_Some, Forall_forall. intros c Hc. cbn.
  apply elem_of_seq in Hi, Hc.
  destruct (lookup_lt_is_Some_2 src c ltac:(lia)) as [p Hp].
  rewrite Hp. cbn [mbind option_bind].
  assert (p ∈ src) as Hin by (apply list_elem_of_lookup; eauto).
  rewrite Forall_forall in Hplanes. specialize (Hplanes p Hin).
  destruct (lookup_lt_is_Some_2 p i ltac:(lia)) as [v Hv].
  rewrite Hv. cbn [mbind option_bind]. apply Hconv.
Qed.

(** A 24-bit source on the 16-bit path: the first sample already has no
    defined conversion. *)
Lemma copyTo16Signed_wide src nSamples nChannels :
  0 < nSamples -> 0 < nChannels ->
  copyTo16Signed src nSamples nChannels 24 = None.
Proof.
  intros Hs Hc.
  destruct (copyTo16Signed src nSamples nChannels 24) as [out|] eqn:Hcopy;
    [|done].
  destruct (copy_loop_lookup _ _ _ _ _ 0%nat 0%nat Hcopy)
    as (p & v & a & _ & _ & Hconv & _); [lia..|].
  discriminate Hconv.
Qed.

(** ** The parser's callbacks and the drive step *)

Section ParserProperties.
Context {E float32 : Type} (ext : Externals E float32).

Import FLACParser.

Abbreviation parser := (FLACParser.t (E := E)).

(** A property of the parser that every callback keeps is kept by a whole
    drive step. *)
Lemma run_invariant (P : parser -> Prop) :
  (forall requested p, P p -> P (readCallback requested p).2) ->
  (forall offset p, P p -> P (seekCallback offset p).2) ->
  (forall frame buffer p, P p -> P (writeCallback frame buffer p).2) ->
  (forall metadata p, P p -> P (metadataCallback ext metadata p)) ->
  (forall status p, P p -> P (errorCallback status p)) ->
  forall d p, P p -> P (run ext d p).2.
Proof.
  intros Hread Hseek Hwrite Hmeta Herr.
  induction d as [ok e|requested k IH|offset k IH|k IH|k IH|k IH
                 |frame buffer k IH|metadata k IH|status k IH];
    intros p HP; cbn [run].
  - exact HP.
  - specialize (Hread requested p HP).
    destruct (readCallback requested p) as [[[status bytes] buffer] p'].
    apply IH, Hread.
  - specialize (Hseek offset p HP).
    destruct (seekCallback offset p) as [status p']. apply IH, Hseek.
  - destruct (tellCallback p) as [status offset]. apply IH, HP.
  - destruct (lengthCallback p) as [status len]. apply IH, HP.
  - apply IH, HP.
  - specialize (Hwrite frame buffer p HP).
    destruct (writeCallback frame buffer p) as [status p']. apply IH, Hwrite.
  - apply IH, Hmeta, HP.
  - apply IH, Herr, HP.
Qed.

Lemma readCallback_cases requested (p : parser) :
  (readCallback requested p).2 = p
  \/ (readCallback requested p).2 = set_mEOF true p
  \/ exists pos, (readCallback requested p).2 = set_mCurrentPos pos p.
Proof.
  unfold readCallback.
  destruct (readAt (mDataSource p) (mCurrentPos p) requested) as [actual buf].
  destruct (0 >? actual); [by left|].
  destruct (0 =? actual); [by right; left|].
  right; right. by eexists.
Qed.

Lemma fold_comments_fields (comments : list VorbisComment_Entry.t)
    (p : parser) :
  let q :=
    fold_left
      (fun p vce =>
         match mFileMetadata p, VorbisComment_Entry.entry vce with
         | Some m, Some e =>
             set_mFileMetadata
               (Some (parseVorbisComment ext m e
                        (VorbisComment_Entry.length vce))) p
         | _, _ => p
         end) comments p in
  exists m, q = set_mFileMetadata m p.
Proof.
  revert p. induction comments as [|vce comments IH]; intros p; cbn.
  - exists (mFileMetadata p). by destruct p.
  - destruct (mFileMetadata p) as [m|] eqn:Hm;
      [destruct (VorbisComment_Entry.entry vce) as [e|]|]; try apply IH.
    destruct (IH (set_mFileMetadata
                    (Some (parseVorbisComment ext m e
                             (VorbisComment_Entry.length vce))) p))
      as [m' Hm'].
    exists m'. cbn in Hm'. rewrite Hm'. by destruct p.
Qed.

(** A metadata block either installs the stream parameters (only while none
    are installed) or touches the file metadata alone. *)
Lemma metadataCallback_cases metadata (p : parser) :
  (exists si, metadata = FLAC__METADATA_TYPE_STREAMINFO si
      /\ mStreamInfoValid p = false
      /\ metadataCallback ext metadata p
         = set_mStreamInfoValid true (set_mStreamInfo si p))
  \/ exists m, metadataCallback ext metadata p = set_mFileMetadata m p.
Proof.
  destruct metadata as [si|comments|data len|type]; cbn [metadataCallback].
  - destruct (mStreamInfoValid p) eqn:Hv; cbn.
    + right. exists (mFileMetadata p). by destruct p.
    + left. by exists si.
  - right. apply fold_comments_fields.
  - right. destruct (mFileMetadata p) as [m|] eqn:Hm.
    + by eexists.
    + exists None. destruct p; cbn in *; by subst.
  - right. exists (mFileMetadata p). by destruct p.
Qed.

(** Once the stream parameters are installed no drive step changes them. *)
Lemma run_keeps_stream_info d (p : parser) :
  mStreamInfoValid p = true ->
  mStreamInfoValid (run ext d p).2 = true
  /\ mStreamInfo (run ext d p).2 = mStreamInfo p.
Proof.
  intros Hvalid.
  apply (run_invariant
           (fun q => mStreamInfoValid q = true
                     /\ mStreamInfo q = mStreamInfo p)); [..|done].
  - intros requested q HP.
    destruct (readCallback_cases requested q) as [->|[->|[pos ->]]]; done.
  - intros offset q HP. done.
  - intros frame buffer q HP. unfold writeCallback.
    destruct (mWriteRequested q); done.
  - intros metadata q [HP1 HP2].
    destruct (metadataCallback_cases metadata q)
      as [(si & _ & Hq & _)|[m ->]]; [congruence|done].
  - intros status q HP. done.
Qed.

(** The data source and the output mode are fixed at construction. *)
Lemma run_keeps_mode d (p : parser) :
  mOutputFloat (run ext d p).2 = mOutputFloat p
  /\ mDataSource (run ext d p).2 = mDataSource p
  /\ mGroup (run ext d p).2 = mGroup p
  /\ mMaxBufferSize (run ext d p).2 = mMaxBufferSize p
  /\ mTrackMetadata (run ext d p).2 = mTrackMetadata p.
Proof.
  apply (run_invariant
           (fun q => mOutputFloat q = mOutputFloat p
                     /\ mDataSource q = mDataSource p
                     /\ mGroup q = mGroup p
                     /\ mMaxBufferSize q = mMaxBufferSize p
                     /\ mTrackMetadata q = mTrackMetadata p)); [..|done].
  - intros requested q HP.
    destruct (readCallback_cases requested q) as [->|[->|[pos ->]]]; done.
  - intros offset q HP. done.
  - intros frame buffer q HP. unfold writeCallback.
    destruct (mWriteRequested q); done.
  - intros metadata q HP.
    destruct (metadataCallback_cases metadata q)
      as [(si & _ & _ & ->)|[m ->]]; done.
  - intros status q HP. done.
Qed.

(** A scripted metadata phase hands the blocks to the callback in order. *)
Lemma run_metadata_script blocks ok e (p : parser) :
  run ext (metadata_script blocks ok e) p
  = (ok, e, fold_left (fun q block => metadataCallback ext block q) blocks p).
Proof.
  revert p. induction blocks as [|block blocks IH]; intros p; cbn; [done|].
  apply IH.
Qed.

Lemma stream_info_installed si (p : parser) :
  mStreamInfoValid
    (metadataCallback ext (FLAC__METADATA_TYPE_STREAMINFO si) p) = true.
Proof. cbn. by destruct (mStreamInfoValid p) eqn:Hv. Qed.

Lemma later_stream_info_skipped blocks (p : parser) :
  mStreamInfoValid p = true ->
  fold_left (fun q block => metadataCallback ext block q) blocks p
  = fold_left (fun q block => metadataCallback ext block q)
      (filter (fun b => is_stream_info b = false) blocks) p.
Proof.
  revert p. induction blocks as [|block blocks IH]; intros p Hvalid; [done|].
  destruct (is_stream_info block) eqn:Hblock.
  - rewrite filter_cons_False by (rewrite Hblock; done).
    destruct block; try discriminate Hblock.
    cbn [fold_left metadataCallback]. rewrite Hvalid. cbn [negb].
    by apply IH.
  - rewrite filter_cons_True by done. cbn [fold_left]. apply IH.
    destruct (metadataCallback_cases block p)
      as [(si & -> & _)|[m ->]]; [discriminate Hblock|done].
Qed.

(** The parameters a parser ends up with are those of the first
    stream-parameters block of the metadata phase. *)
Lemma first_stream_info_wins pre si rest ok e (p : parser) :
  Forall (fun b => is_stream_info b = false) pre ->
  mStreamInfoValid p = false ->
  let q :=
    (run ext
       (metadata_script
          (pre ++ FLAC__METADATA_TYPE_STREAMINFO si :: rest) ok e) p).2 in
  mStreamInfoValid q = true /\ mStreamInfo q = si.
Proof.
  intros Hpre Hfresh q. subst q. rewrite run_metadata_script. cbn [snd].
  rewrite fold_left_app. cbn [fold_left].
  set (p1 := fold_left (fun q block => metadataCallback ext block q) pre p).
  assert (mStreamInfoValid p1 = false) as Hp1.
  { subst p1. revert p Hfresh.
    induction Hpre as [|block pre Hblock _ IH]; intros p Hfresh; [done|].
    cbn [fold_left]. apply IH.
    destruct (metadataCallback_cases block p)
      as [(si' & -> & _)|[m ->]]; [discriminate Hblock|done]. }
  set (p2 := metadataCallback ext (FLAC__METADATA_TYPE_STREAMINFO si) p1).
  assert (mStreamInfoValid p2 = true /\ mStreamInfo p2 = si) as [Hv Hsi].
  { subst p2. cbn [metadataCallback]. by rewrite Hp1. }
  pose proof (run_keeps_stream_info (metadata_script rest ok e) p2 Hv)
    as [Hv' Hsi'].
  rewrite run_metadata_script in Hv', Hsi'. cbn [snd] in Hv', Hsi'.
  split; congruence.
Qed.

(** C4 (as amended).  A second stream-parameters block is ignored: the
    callback leaves the parser as it is once a block is installed, every
    block installs itself or finds one installed, and a metadata phase with
    later stream-parameters blocks ends in the same parser, with the same
    engine result, as the phase without them. *)
Theorem duplicate_stream_info_ignored :
  (forall si (p : parser),
      mStreamInfoValid p = true ->
      metadataCallback ext (FLAC__METADATA_TYPE_STREAMINFO si) p = p)
  /\ (forall si (p : parser),
        mStreamInfoValid
          (metadataCallback ext (FLAC__METADATA_TYPE_STREAMINFO si) p) = true)
  /\ (forall blocks ok e (p : parser),
        run ext (metadata_script blocks ok e) p
        = run ext (metadata_script (first_stream_info_only blocks) ok e) p).
Proof.
  split; [|split].
  - intros si p Hvalid. cbn. by rewrite Hvalid.
  - apply stream_info_installed.
  - intros blocks ok e p. rewrite !run_metadata_script. f_equal.
    revert p. induction blocks as [|block blocks IH]; intros p; [done|].
    cbn [first_stream_info_only].
    destruct (is_stream_info block) eqn:Hblock; cbn [fold_left].
    + destruct block; try discriminate Hblock.
      apply later_stream_info_skipped, stream_info_installed.
    + apply IH.
Qed.

End ParserProperties.

(** ** Initialisation *)

Section InitProperties.
Context {E float32 : Type} (ext : Externals E float32).

Import FLACParser.

Abbreviation parser := (FLACParser.t (E := E)).

Lemma supported_bits_per_sample_iff bits :
  supported_bits_per_sample bits = true <-> bits ∈ supported_bit_depths.
Proof.
  unfold supported_bits_per_sample, supported_bit_depths.
  rewrite !orb_true_iff, !Z.eqb_eq, !elem_of_cons, elem_of_nil. tauto.
Qed.

Lemma supported_sample_rate_iff rate :
  supported_sample_rate rate = true <-> rate ∈ canonical_sample_rates.
Proof.
  unfold supported_sample_rate, canonical_sample_rates.
  rewrite !orb_true_iff, !Z.eqb_eq, !elem_of_cons, elem_of_nil. tauto.
Qed.

(** Lines 506-557 taken alone: the status is [NO_INIT] exactly for a
    rejected parser, and [OK] otherwise. *)
Lemma check_stream_info_status (p : parser) :
  ((check_stream_info p).1 = NO_INIT /\ rejected p)
  \/ ((check_stream_info p).1 = OK /\ ~ rejected p
      /\ (check_stream_info p).2
         = populate_file_metadata (populate_track_metadata p)).
Proof.
  unfold check_stream_info, rejected.
  destruct (mStreamInfoValid p) eqn:Hvalid; [|left; auto].
  destruct (getChannels p =? 0) eqn:Hzero; cbn [orb].
  { left. apply Z.eqb_eq in Hzero. auto. }
  destruct (getChannels p >? kMaxChannels) eqn:Hmany.
  { left. apply Z.gtb_gt in Hmany. unfold kMaxChannels, FCC_8 in Hmany.
    auto. }
  destruct (supported_bits_per_sample (getBitsPerSample p)) eqn:Hbits;
    cbn [negb].
  2:{ left. split; [done|]. right; right; right; left.
      rewrite <- supported_bits_per_sample_iff. congruence. }
  destruct (supported_sample_rate (getSampleRate p)) eqn:Hrate; cbn [negb].
  2:{ left. split; [done|]. right; right; right; right.
      rewrite <- supported_sample_rate_iff. congruence. }
  right. split; [done|]. split; [|done].
  apply Z.eqb_neq in Hzero.
  assert (~ getChannels p > 8).
  { intros Hgt. apply Z.gtb_gt in Hgt. unfold kMaxChannels, FCC_8 in Hmany.
    congruence. }
  apply supported_bits_per_sample_iff in Hbits.
  apply supported_sample_rate_iff in Hrate.
  intros [?|[?|[?|[?|?]]]]; done.
Qed.

(** [init] as a whole. *)
Lemma init_status (p : parser) :
  ((init ext p).1 = NO_INIT
   /\ ((parse_metadata ext p).1 = false \/ rejected (parse_metadata ext p).2))
  \/ ((init ext p).1 = OK
      /\ (parse_metadata ext p).1 = true
      /\ ~ rejected (parse_metadata ext p).2
      /\ (init ext p).2
         = populate_file_metadata
             (populate_track_metadata (parse_metadata ext p).2)).
Proof.
  unfold init. destruct (parse_metadata ext p) as [parsed q]; cbn [fst snd].
  destruct parsed; cbn [negb fst snd]; [|left; auto].
  destruct (check_stream_info_status q) as [[H1 H2]|(H1 & H2 & H3)];
    [left|right]; auto.
Qed.

(** The constructor turns the status into [initCheck], 0 for [OK] and 1 for
    [NO_INIT]. *)
Lemma new_initCheck ds outputFloat fm tm :
  let p0 := fresh ds outputFloat fm tm in
  (initCheck (new ext ds outputFloat fm tm) = 1
   /\ (init ext p0).1 = NO_INIT)
  \/ (initCheck (new ext ds outputFloat fm tm) = 0
      /\ (init ext p0).1 = OK
      /\ new ext ds outputFloat fm tm = set_mInitCheck false (init ext p0).2).
Proof.
  intros p0. unfold new. fold p0.
  destruct (init_status p0) as [[H _]|[H _]];
    destruct (init ext p0) as [status q]; cbn [fst snd] in *; subst status;
    [left|right]; done.
Qed.

(** The metadata phase leaves alone what the constructor was given. *)
Lemma parse_metadata_keeps (p : parser) :
  mOutputFloat (parse_metadata ext p).2 = mOutputFloat p
  /\ mTrackMetadata (parse_metadata ext p).2 = mTrackMetadata p
  /\ mGroup (parse_metadata ext p).2 = mGroup p.
Proof.
  unfold parse_metadata.
  destruct (FLAC__stream_decoder_new (engine ext)) as [d|]; [|done].
  destruct (FLAC__stream_decoder_init_stream _ _) as [initStatus d'].
  destruct initStatus; cbn [negb]; [|done].
  match goal with
  | |- context [run ext ?d ?q] =>
      pose proof (run_keeps_mode ext d q) as (H1 & _ & H3 & _ & H5);
      destruct (run ext d q) as [[ok e] q']
  end.
  cbn [fst snd] in *. destruct ok; cbn [negb fst snd]; done.
Qed.

(** The metadata phase fails when the engine cannot be created, cannot be
    initialised, or reports failure from its drive step. *)
Lemma parse_metadata_fails_iff (p : parser) :
  let eng := engine ext in
  let configured d :=
    FLAC__stream_decoder_set_metadata_respond eng
      (FLAC__stream_decoder_set_metadata_respond eng
         (FLAC__stream_decoder_set_metadata_respond eng
            (FLAC__stream_decoder_set_metadata_ignore_all eng
               (FLAC__stream_decoder_set_md5_checking eng d false))
            METADATA_STREAMINFO)
         METADATA_PICTURE)
      METADATA_VORBIS_COMMENT in
  (parse_metadata ext p).1 = false <->
  match FLAC__stream_decoder_new eng with
  | None => True
  | Some d =>
      let '(initStatus, d) :=
        FLAC__stream_decoder_init_stream eng (configured d) in
      initStatus = false
      \/ (run ext (FLAC__stream_decoder_process_until_end_of_metadata eng d)
             (set_mDecoder (Some d) p)).1.1 = false
  end.
Proof.
  intros eng configured. unfold parse_metadata. fold eng.
  destruct (FLAC__stream_decoder_new eng) as [d|]; [|done].
  fold (configured d).
  destruct (FLAC__stream_decoder_init_stream eng (configured d))
    as [initStatus d'].
  destruct initStatus; cbn [negb]; [|by intuition].
  destruct (run ext _ _) as [[ok e] q]. cbn [fst snd].
  destruct ok; cbn [negb fst snd]; intuition congruence.
Qed.

Lemma check_stream_info_keeps (p : parser) :
  mOutputFloat (check_stream_info p).2 = mOutputFloat p
  /\ mStreamInfo (check_stream_info p).2 = mStreamInfo p
  /\ mStreamInfoValid (check_stream_info p).2 = mStreamInfoValid p
  /\ mGroup (check_stream_info p).2 = mGroup p.
Proof.
  unfold check_stream_info.
  repeat match goal with
         | |- context [if ?b then _ else _] => destruct b eqn:?
         end; cbn [snd]; try done.
  unfold populate_file_metadata, populate_track_metadata.
  destruct (mTrackMetadata p); cbn; by destruct (mFileMetadata p).
Qed.

Lemma new_keeps_mode ds outputFloat fm tm :
  mOutputFloat (new ext ds outputFloat fm tm) = outputFloat
  /\ mGroup (new ext ds outputFloat fm tm) = None.
Proof.
  unfold new, init.
  pose proof (parse_metadata_keeps (fresh ds outputFloat fm tm))
    as (H1 & _ & H3).
  destruct (parse_metadata ext (fresh ds outputFloat fm tm)) as [parsed q].
  cbn [fst snd fresh mOutputFloat mGroup] in H1, H3.
  destruct parsed; cbn [negb]; [|done].
  pose proof (check_stream_info_keeps q) as (H1' & _ & _ & H3').
  destruct (check_stream_info q) as [status q']. cbn [fst snd] in *.
  cbn. split; congruence.
Qed.

(** The engine cannot tell apart two parsers on the same stream: it gets
    the same answers and leaves them on the same stream. *)
Lemma run_same_stream d (p q : parser) :
  same_stream p q ->
  (run ext d p).1.1 = (run ext d q).1.1
  /\ (run ext d p).1.2 = (run ext d q).1.2
  /\ same_stream (run ext d p).2 (run ext d q).2.
Proof.
  revert p q.
  induction d as [ok e|requested k IH|offset k IH|k IH|k IH|k IH
                 |frame buffer k IH|metadata k IH|status k IH];
    intros p q Hsame; cbn [run].
  - done.
  - unfold readCallback.
    destruct Hsame as (Hds & Hpos & Heof & Hsi & Hv & Hreq & Hc & Hh & Hb). rewrite Hds, Hpos.
    destruct (readAt (mDataSource q) (mCurrentPos q) requested)
      as [actual buf].
    destruct (0 >? actual); [apply IH; by repeat split|].
    destruct (0 =? actual); apply IH; by repeat split.
  - cbn [seekCallback]. apply IH.
    destruct Hsame as (Hds & Hpos & Heof & Hsi & Hv & Hreq & Hc & Hh & Hb). by repeat split.
  - unfold tellCallback.
    destruct Hsame as (Hds & Hpos & Heof & Hsi & Hv & Hreq & Hc & Hh & Hb). rewrite Hpos.
    apply IH. by repeat split.
  - unfold lengthCallback.
    destruct Hsame as (Hds & Hpos & Heof & Hsi & Hv & Hreq & Hc & Hh & Hb). rewrite Hds.
    destruct (getSize (mDataSource q)); apply IH; by repeat split.
  - unfold eofCallback.
    destruct Hsame as (Hds & Hpos & Heof & Hsi & Hv & Hreq & Hc & Hh & Hb). rewrite Heof.
    apply IH. by repeat split.
  - unfold writeCallback.
    destruct Hsame as (Hds & Hpos & Heof & Hsi & Hv & Hreq & Hc & Hh & Hb).
    rewrite Hreq. destruct (mWriteRequested q) eqn:Harmed; apply IH.
    + repeat split; try done. cbn. unfold getChannels. cbn. congruence.
    + repeat split; try done. congruence.
  - apply IH.
    destruct Hsame as (Hds & Hpos & Heof & Hsi & Hv & Hreq & Hc & Hh & Hb).
    assert (is_stream_info metadata = false ->
            same_stream (metadataCallback ext metadata p)
                        (metadataCallback ext metadata q)) as Hother.
    { intros Hm.
      destruct (metadataCallback_cases ext metadata p)
        as [(si & -> & _)|[m ->]]; [discriminate Hm|].
      destruct (metadataCallback_cases ext metadata q)
        as [(si & -> & _)|[m' ->]]; [discriminate Hm|].
      by repeat split. }
    destruct metadata as [si|comments|data len|type];
      try (by apply Hother).
    cbn [metadataCallback]. rewrite Hv.
    destruct (mStreamInfoValid q) eqn:Hq; cbn [negb]; repeat split;
      try done; congruence.
  - apply IH. destruct Hsame as (Hds & Hpos & Heof & Hsi & Hv & Hreq & Hc & Hh & Hb).
    by repeat split.
Qed.

Lemma parse_metadata_same_stream (p q : parser) :
  same_stream p q ->
  (parse_metadata ext p).1 = (parse_metadata ext q).1
  /\ same_stream (parse_metadata ext p).2 (parse_metadata ext q).2.
Proof.
  intros Hsame. unfold parse_metadata.
  destruct (FLAC__stream_decoder_new (engine ext)) as [d|].
  2:{ split; [done|]. destruct Hsame as (? & ? & ? & ? & ? & ? & ? & ? & ?). by repeat split. }
  destruct (FLAC__stream_decoder_init_stream _ _) as [initStatus d'].
  assert (same_stream (set_mDecoder (Some d') p) (set_mDecoder (Some d') q))
    as Hsame' by (destruct Hsame as (? & ? & ? & ? & ? & ? & ? & ? & ?); by repeat split).
  destruct initStatus; cbn [negb]; [|done].
  match goal with
  | |- context [run ext ?t (set_mDecoder (Some d') p)] =>
      pose proof (run_same_stream t _ _ Hsame') as (Hok & He & Hafter);
      destruct (run ext t (set_mDecoder (Some d') p)) as [[ok e] p'];
      destruct (run ext t (set_mDecoder (Some d') q)) as [[ok' e'] q']
  end.
  cbn [fst snd] in *. subst ok' e'.
  assert (same_stream (set_mDecoder (Some e) p') (set_mDecoder (Some e) q'))
    by (destruct Hafter as (? & ? & ? & ? & ? & ? & ? & ? & ?); by repeat split).
  by destruct ok.
Qed.

(** Two parsers constructed on the same data source initialise alike and
    hold the same stream parameters, whatever their output mode and
    metadata pointers. *)
Lemma new_same_stream ds outputFloat fm tm outputFloat' fm' tm' :
  initCheck (new ext ds outputFloat fm tm)
  = initCheck (new ext ds outputFloat' fm' tm')
  /\ mStreamInfo (new ext ds outputFloat fm tm)
     = mStreamInfo (new ext ds outputFloat' fm' tm').
Proof.
  assert (same_stream (fresh (E := E) ds outputFloat fm tm)
                      (fresh ds outputFloat' fm' tm')) as Hsame
    by (by repeat split).
  apply parse_metadata_same_stream in Hsame as [Hparsed Hsame].
  unfold new, init.
  destruct (parse_metadata ext (fresh ds outputFloat fm tm)) as [parsed p].
  destruct (parse_metadata ext (fresh ds outputFloat' fm' tm'))
    as [parsed' q].
  cbn [fst snd] in *. subst parsed'.
  destruct Hsame as (_ & _ & _ & Hsi & Hv & _).
  destruct parsed; cbn [negb]; [|done].
  pose proof (check_stream_info_keeps p) as (_ & Hp & _).
  pose proof (check_stream_info_keeps q) as (_ & Hq & _).
  assert ((check_stream_info p).1 = (check_stream_info q).1) as Hstatus.
  { unfold check_stream_info, getChannels, getBitsPerSample, getSampleRate.
    rewrite Hsi, Hv.
    repeat match goal with
           | |- context [if ?b then _ else _] => destruct b
           end; done. }
  destruct (check_stream_info p) as [status p'].
  destruct (check_stream_info q) as [status' q'].
  cbn [fst snd] in *. subst status'. split; [reflexivity|].
  change (mStreamInfo (set_mInitCheck ?b ?r)) with (mStreamInfo r).
  congruence.
Qed.

End InitProperties.

(** ** The container facade *)

Section ExtractorProperties.
Context {E float32 : Type} (ext : Externals E float32).

(** The parser of the extractor before and after the metadata phase. *)
Abbreviation fresh_parser ds :=
  (FLACParser.fresh (E := E) ds false
     (Some AMediaFormat_new) (Some AMediaFormat_new)).

Lemma countTracks_cases ds :
  let x := FLACExtractor.new ext ds in
  (FLACExtractor.countTracks x = 0
   /\ (FLACParser.init ext (fresh_parser ds)).1 = NO_INIT)
  \/ (FLACExtractor.countTracks x = 1
      /\ (FLACParser.init ext (fresh_parser ds)).1 = OK
      /\ FLACExtractor.mInitCheck x = OK
      /\ FLACExtractor.mParser x
         = FLACParser.set_mInitCheck false
             (FLACParser.init ext (fresh_parser ds)).2).
Proof.
  intros x. unfold FLACExtractor.countTracks. subst x. cbn [FLACExtractor.new
    FLACExtractor.mInitCheck FLACExtractor.mParser].
  destruct (new_initCheck ext ds false
              (Some AMediaFormat_new) (Some AMediaFormat_new))
    as [[H1 H2]|(H1 & H2 & H3)]; cbn zeta in *; rewrite H1.
  - left. done.
  - right. done.
Qed.

(** C3 (as amended).  Initialisation fails, and the extractor then reports
    zero tracks, exactly when the metadata phase itself fails (the engine
    cannot be created or initialised, or its drive step reports failure) or,
    after the metadata phase, the stream-parameters block is absent, or its
    channel count is 0 or above 8, or its bit depth is not 8, 16 or 24, or
    its sample rate is not one of the eleven canonical rates.  Otherwise
    exactly one track is reported. *)
Theorem initialization_fails_iff ds :
  let after := FLACParser.parse_metadata ext (fresh_parser ds) in
  let x := FLACExtractor.new ext ds in
  ((FLACParser.init ext (fresh_parser ds)).1 = NO_INIT
   <-> after.1 = false \/ rejected after.2)
  /\ (FLACExtractor.countTracks x = 0
      <-> after.1 = false \/ rejected after.2)
  /\ (FLACExtractor.countTracks x = 1
      <-> after.1 = true /\ ~ rejected after.2).
Proof.
  intros after x.
  destruct (countTracks_cases ds) as [[Hc Hi]|(Hc & Hi & _)];
    fold x in Hc; rewrite Hc, Hi;
    destruct (init_status ext (fresh_parser ds))
      as [[Hs Hr]|(Hs & Hp & Hr & _)];
    fold after in Hr; try fold after in Hp;
    try (rewrite Hi in Hs; discriminate Hs).
  - repeat split; try done. intros [Hp Hn]. destruct Hr; congruence.
  - repeat split; try done; intros [?|?]; congruence.
Qed.

(** An extractor whose initialisation succeeded holds accepted stream
    parameters and the track metadata filled in by [init]. *)
Lemma ready_extractor ds :
  let x := FLACExtractor.new ext ds in
  let q := (FLACParser.parse_metadata ext (fresh_parser ds)).2 in
  FLACExtractor.mInitCheck x = OK ->
  ~ rejected (FLACExtractor.mParser x)
  /\ FLACParser.mStreamInfo (FLACExtractor.mParser x)
     = FLACParser.mStreamInfo q
  /\ FLACExtractor.mTrackMetadata x
     = FLACParser.mTrackMetadata (FLACParser.populate_track_metadata q)
  /\ FLACParser.mTrackMetadata q = Some AMediaFormat_new.
Proof.
  intros x q Hok.
  destruct (countTracks_cases ds) as [[Hc _]|(_ & Hi & _ & Hparser)].
  { unfold FLACExtractor.countTracks in Hc. fold x in Hc.
    rewrite Hok in Hc. vm_compute in Hc. discriminate Hc. }
  fold x in Hparser.
  destruct (init_status ext (fresh_parser ds))
    as [[Hs _]|(_ & _ & Hr & Hinit)]; [rewrite Hi in Hs; done|].
  fold q in Hr, Hinit.
  assert (FLACParser.mTrackMetadata q = Some AMediaFormat_new) as Htm.
  { subst q. by rewrite (proj1 (proj2 (parse_metadata_keeps ext _))). }
  assert (FLACParser.mStreamInfo (FLACExtractor.mParser x)
          = FLACParser.mStreamInfo q
          /\ FLACParser.mStreamInfoValid (FLACExtractor.mParser x)
             = FLACParser.mStreamInfoValid q) as [Hsi Hv].
  { rewrite Hparser, Hinit.
    unfold FLACParser.populate_file_metadata,
      FLACParser.populate_track_metadata.
    rewrite Htm. cbn. by destruct (FLACParser.mFileMetadata q). }
  repeat split; try done.
  - unfold rejected, FLACParser.getChannels, FLACParser.getBitsPerSample,
      FLACParser.getSampleRate in *. by rewrite Hsi, Hv.
  - subst x. cbn [FLACExtractor.new FLACExtractor.mTrackMetadata].
    cbn [FLACExtractor.new FLACExtractor.mParser] in Hparser.
    rewrite Hparser, Hinit. unfold FLACParser.populate_file_metadata.
    by destruct (FLACParser.mFileMetadata _).
Qed.

Lemma duration_fits total rate :
  rate ∈ canonical_sample_rates ->
  int64 (uint64 (total * 1000000) / rate) = uint64 (total * 1000000) / rate.
Proof.
  intros Hrate. apply int64_small.
  pose proof (uint64_range (total * 1000000)) as Hu.
  assert (2 <= rate) as Hr.
  { unfold canonical_sample_rates in Hrate.
    rewrite !elem_of_cons, elem_of_nil in Hrate. lia. }
  split.
  - transitivity 0; [lia|]. apply Z.div_pos; lia.
  - apply Z.div_lt_upper_bound; lia.
Qed.

(** C2 (as amended).  When initialisation succeeds the track metadata holds
    the raw-audio mime type and the channel count, sample rate and bit depth
    of the stream-parameters block, and the duration
    [(totalSamples * 1_000_000 mod 2^64) / sampleRate]; this is
    [totalSamples * 1_000_000 / sampleRate], truncated, whenever the product
    is below [2^64], which includes every 36-bit sample count. *)
Theorem track_metadata_of_stream_info ds :
  let x := FLACExtractor.new ext ds in
  let si := FLACParser.mStreamInfo (FLACExtractor.mParser x) in
  StreamInfo.well_typed si ->
  FLACExtractor.countTracks x = 1 ->
  exists m,
    FLACExtractor.mTrackMetadata x = Some m
    /\ m !! AMEDIAFORMAT_KEY_MIME = Some (VString MEDIA_MIMETYPE_AUDIO_RAW)
    /\ m !! AMEDIAFORMAT_KEY_CHANNEL_COUNT
       = Some (VInt32 (StreamInfo.channels si))
    /\ m !! AMEDIAFORMAT_KEY_SAMPLE_RATE
       = Some (VInt32 (StreamInfo.sample_rate si))
    /\ m !! AMEDIAFORMAT_KEY_BITS_PER_SAMPLE
       = Some (VInt32 (StreamInfo.bits_per_sample si))
    /\ m !! AMEDIAFORMAT_KEY_DURATION
       = Some (VInt64 ((StreamInfo.total_samples si * 1000000) mod 2 ^ 64
                       / StreamInfo.sample_rate si))
    /\ (StreamInfo.total_samples si * 1000000 < 2 ^ 64 ->
        m !! AMEDIAFORMAT_KEY_DURATION
        = Some (VInt64 (StreamInfo.total_samples si * 1000000
                        / StreamInfo.sample_rate si))).
Proof.
  intros x si Htyped Hone.
  destruct (countTracks_cases ds) as [[Hc _]|(_ & Hi & _ & Hparser)];
    fold x in Hc || fold x in Hparser; [rewrite Hc in Hone; done|].
  destruct (init_status ext (fresh_parser ds))
    as [[Hs _]|(_ & _ & Hr & Hinit)]; [rewrite Hi in Hs; done|].
  set (q := (FLACParser.parse_metadata ext (fresh_parser ds)).2) in *.
  assert (FLACParser.mTrackMetadata q = Some AMediaFormat_new) as Htm.
  { subst q. by rewrite (proj1 (proj2 (parse_metadata_keeps ext _))). }
  assert (si = FLACParser.mStreamInfo q) as Hsi.
  { subst si. rewrite Hparser, Hinit.
    unfold FLACParser.populate_file_metadata,
      FLACParser.populate_track_metadata.
    rewrite Htm. cbn. by destruct (FLACParser.mFileMetadata q). }
  unfold rejected, FLACParser.getChannels, FLACParser.getBitsPerSample,
    FLACParser.getSampleRate in Hr. rewrite <- Hsi in Hr.
  assert (1 <= StreamInfo.channels si <= 8
          /\ StreamInfo.bits_per_sample si ∈ supported_bit_depths
          /\ StreamInfo.sample_rate si ∈ canonical_sample_rates)
    as (Hch & Hbits & Hrate).
  { destruct Htyped as (_ & _ & _ & _ & _ & Hch & _).
    split; [lia|]. split.
    - destruct (decide (StreamInfo.bits_per_sample si
                        ∈ supported_bit_depths)); tauto.
    - destruct (decide (StreamInfo.sample_rate si
                        ∈ canonical_sample_rates)); tauto. }
  assert (FLACExtractor.mTrackMetadata x
          = FLACParser.mTrackMetadata
              (FLACParser.populate_track_metadata q)) as Hx.
  { subst x. cbn [FLACExtractor.new FLACExtractor.mTrackMetadata].
    cbn [FLACExtractor.new FLACExtractor.mParser] in Hparser.
    rewrite Hparser, Hinit. unfold FLACParser.populate_file_metadata.
    by destruct (FLACParser.mFileMetadata _). }
  rewrite Hx. unfold FLACParser.populate_track_metadata. rewrite Htm.
  cbn [FLACParser.mTrackMetadata FLACParser.set_mTrackMetadata].
  eexists. split; [reflexivity|].
  unfold FLACParser.getChannels, FLACParser.getBitsPerSample,
    FLACParser.getSampleRate, FLACParser.getTotalSamples.
  rewrite <- Hsi.
  unfold AMediaFormat_setInt64, AMediaFormat_setInt32, AMediaFormat_setString.
  rewrite duration_fits by done.
  assert (0 <= StreamInfo.bits_per_sample si <= 24) as Hbits'.
  { unfold supported_bit_depths in Hbits.
    rewrite !elem_of_cons, elem_of_nil in Hbits. lia. }
  assert (0 <= StreamInfo.sample_rate si <= 96000) as Hrate'.
  { unfold canonical_sample_rates in Hrate.
    rewrite !elem_of_cons, elem_of_nil in Hrate. lia. }
  rewrite !int32_small by lia.
  assert (0 <= StreamInfo.total_samples si)
    by (unfold StreamInfo.well_typed in Htyped; lia).
  repeat split; try (intros Hfit; rewrite uint64_small by lia);
    by simplify_map_eq.
Qed.

Lemma accepted_bits_fit {E' : Type} (p : FLACParser.t (E := E')) :
  ~ rejected p ->
  int32 (FLACParser.getBitsPerSample p) = FLACParser.getBitsPerSample p.
Proof.
  intros Hr. apply int32_small.
  destruct (decide (FLACParser.getBitsPerSample p ∈ supported_bit_depths))
    as [Hbits|Hbits]; [|unfold rejected in Hr; tauto].
  unfold supported_bit_depths in Hbits.
  rewrite !elem_of_cons, elem_of_nil in Hbits. lia.
Qed.

(** C8.  A track is given 32-bit float output exactly when the bit depth of
    the stream exceeds 16 and the calling uid is the media uid; every other
    caller gets 16-bit output.  The parser of the track runs in that mode,
    and the PCM encoding reported by the track ([getFormat]) and by the
    extractor to the same caller ([getTrackMetaData]) is the float encoding
    in float mode and the 16-bit encoding otherwise. *)
Theorem float_output_policy ds callingUid track meta :
  let x := FLACExtractor.new ext ds in
  let bits := FLACParser.getBitsPerSample (FLACExtractor.mParser x) in
  let encoding :=
    if FLACSource.mOutputFloat track
    then kAudioEncodingPcmFloat else kAudioEncodingPcm16bit in
  FLACExtractor.getTrack ext callingUid 0 x = Some track ->
  (FLACSource.mOutputFloat track = true
   <-> bits > 16 /\ callingUid = AID_MEDIA)
  /\ (callingUid <> AID_MEDIA -> FLACSource.mOutputFloat track = false)
  /\ FLACParser.mOutputFloat (FLACSource.mParser track)
     = FLACSource.mOutputFloat track
  /\ (exists m,
        FLACSource.getFormat (Some meta) track = (AMEDIA_OK, Some m)
        /\ m !! AMEDIAFORMAT_KEY_PCM_ENCODING = Some (VInt32 encoding))
  /\ (exists m,
        FLACExtractor.getTrackMetaData callingUid (Some meta) 0 x
        = (AMEDIA_OK, Some m)
        /\ m !! AMEDIAFORMAT_KEY_PCM_ENCODING = Some (VInt32 encoding)).
Proof.
  intros x bits encoding Htrack.
  assert (x = FLACExtractor.new ext ds) as Hxdef by reflexivity.
  clearbody x.
  pose proof (ready_extractor ds) as Hready. cbn zeta in Hready.
  rewrite <- Hxdef in Hready.
  unfold FLACExtractor.getTrack in Htrack.
  destruct (FLACExtractor.mInitCheck x =? OK) eqn:Hok;
    cbn [negb orb] in Htrack; [|discriminate Htrack].
  destruct (Hready (proj1 (Z.eqb_eq _ _) Hok)) as (Hr & _ & Hx & Hq).
  change (0 >? 0) with false in Htrack. cbn iota in Htrack.
  rewrite (accepted_bits_fit _ Hr) in Htrack. fold bits in Htrack.
  assert (shouldExtractorOutputFloat callingUid bits = true
          <-> bits > 16 /\ callingUid = AID_MEDIA) as Hpolicy.
  { unfold shouldExtractorOutputFloat.
    rewrite andb_true_iff, Z.gtb_gt, Z.eqb_eq. tauto. }
  subst encoding. injection Htrack as <-.
  cbn [FLACSource.new FLACSource.mOutputFloat FLACSource.mParser].
  split; [exact Hpolicy|]. split.
  { intros Hne.
    destruct (shouldExtractorOutputFloat callingUid bits) eqn:Hf; [|done].
    destruct (proj1 Hpolicy eq_refl). contradiction. }
  split; [apply new_keeps_mode|].
  assert (exists tm, FLACExtractor.mTrackMetadata x = Some tm) as [tm Htm].
  { rewrite Hx. unfold FLACParser.populate_track_metadata. rewrite Hq.
    by eexists. }
  split.
  - unfold FLACSource.getFormat. cbn [FLACSource.new FLACSource.mOutputFloat
      FLACSource.mTrackMetadata]. rewrite Htm.
    cbn [AMediaFormat_copy].
    eexists. split; [reflexivity|]. unfold AMediaFormat_setInt32.
    rewrite lookup_insert_eq.
    by destruct (shouldExtractorOutputFloat callingUid bits).
  - unfold FLACExtractor.getTrackMetaData. rewrite Hok.
    change (0 >? 0) with false.
    cbn [negb orb]. rewrite Htm. cbn [AMediaFormat_copy].
    eexists. split; [reflexivity|]. unfold AMediaFormat_setInt32.
    rewrite lookup_insert_eq. rewrite (accepted_bits_fit _ Hr). fold bits.
    by destruct (shouldExtractorOutputFloat callingUid bits).
Qed.

(** X21.  The parser of a track, constructed once more on the same data
    source, initialises like the parser of the extractor and holds the same
    stream parameters; the track is handed out stopped. *)
Lemma track_parser_same_stream ds callingUid track :
  let x := FLACExtractor.new ext ds in
  FLACExtractor.getTrack ext callingUid 0 x = Some track ->
  FLACParser.mStreamInfo (FLACSource.mParser track)
  = FLACParser.mStreamInfo (FLACExtractor.mParser x)
  /\ FLACSource.mInitCheck track = false
  /\ FLACSource.mStarted track = false.
Proof.
  intros x Htrack. unfold FLACExtractor.getTrack in Htrack.
  destruct (FLACExtractor.mInitCheck x =? OK) eqn:Hok;
    cbn [negb orb] in Htrack; [|discriminate Htrack].
  change (0 >? 0) with false in Htrack. cbn iota in Htrack.
  injection Htrack as <-.
  cbn [FLACSource.new FLACSource.mParser FLACSource.mInitCheck
       FLACSource.mStarted].
  subst x. cbn [FLACExtractor.new FLACExtractor.mDataSource
                FLACExtractor.mParser FLACExtractor.mInitCheck] in *.
  match goal with
  | |- context [FLACParser.new ext ds ?o None None] =>
      destruct (new_same_stream ext ds o None None false
                  (Some AMediaFormat_new) (Some AMediaFormat_new))
        as [Hcheck Hsi]
  end.
  unfold OK in Hok. rewrite Hcheck, Hsi, Hok. done.
Qed.

End ExtractorProperties.

(** C3, as stated, fails: the engine delivers an acceptable block
    (44100 Hz, stereo, 16 bits) and then reports failure from the metadata
    drive step; no track is reported although the block is not rejected. *)
Lemma init_fails_with_accepted_block :
  let ext :=
    silent [FLAC__METADATA_TYPE_STREAMINFO (stream_info 44100 2 16 1000 4096)]
           false in
  let ds := memory_source [] in
  ~ (FLACExtractor.countTracks (FLACExtractor.new ext ds) = 0
     <-> rejected
           (FLACParser.parse_metadata ext
              (FLACParser.fresh ds false
                 (Some AMediaFormat_new) (Some AMediaFormat_new))).2).
Proof.
  intros ext ds [Hfail _]. specialize (Hfail eq_refl).
  destruct Hfail as [H|[H|[H|[H|H]]]]; vm_compute in H; try done.
  - apply H. unfold supported_bit_depths. set_solver.
  - apply H. unfold canonical_sample_rates. set_solver.
Qed.

(** C2, witness: mono, 44100 Hz, 16 bits, 1000 samples in total; the
    duration is 22675 microseconds. *)
Lemma track_metadata_of_stream_info_witness :
  let ext :=
    silent [FLAC__METADATA_TYPE_STREAMINFO (stream_info 44100 1 16 1000 4096)]
           true in
  let x := FLACExtractor.new ext (memory_source []) in
  let si := FLACParser.mStreamInfo (FLACExtractor.mParser x) in
  StreamInfo.well_typed si
  /\ FLACExtractor.countTracks x = 1
  /\ exists m,
       FLACExtractor.mTrackMetadata x = Some m
       /\ m !! AMEDIAFORMAT_KEY_DURATION = Some (VInt64 22675).
Proof.
  intros ext x si.
  assert (StreamInfo.well_typed si) as Htyped
    by (vm_compute; intuition discriminate).
  assert (FLACExtractor.countTracks x = 1) as Hone by reflexivity.
  split; [exact Htyped|]. split; [exact Hone|].
  destruct (track_metadata_of_stream_info ext (memory_source []) Htyped Hone)
    as (m & Hm & _ & _ & _ & _ & _ & Hd).
  exists m. split; [exact Hm|].
  rewrite Hd; [vm_compute; reflexivity|vm_compute; reflexivity].
Defined.

(** C2, as stated, fails on its own example: a mono 44100 Hz 16-bit stream
    of 1000 samples initialises and reports one track, and its duration is
    1000 * 1_000_000 / 44100 truncated, which is 22675 and not 22676. *)
Lemma duration_of_1000_samples_at_44100 :
  let ext :=
    silent [FLAC__METADATA_TYPE_STREAMINFO (stream_info 44100 1 16 1000 4096)]
           true in
  let x := FLACExtractor.new ext (memory_source []) in
  FLACExtractor.countTracks x = 1
  /\ FLACExtractor.mTrackMetadata x ≫= (.!! AMEDIAFORMAT_KEY_DURATION)
     = Some (VInt64 22675)
  /\ FLACExtractor.mTrackMetadata x ≫= (.!! AMEDIAFORMAT_KEY_DURATION)
     <> Some (VInt64 22676).
Proof.
  intros ext x. split; [reflexivity|].
  split; [vm_compute; reflexivity|vm_compute; discriminate].
Qed.

(** The product is formed in 64 unsigned bits: for a sample count whose
    product with 1_000_000 leaves 64 bits the duration wraps; [2^63] samples
    at 8000 Hz are reported with duration 0. *)
Lemma duration_wraps_at_64_bits :
  let ext :=
    silent [FLAC__METADATA_TYPE_STREAMINFO
              (stream_info 8000 1 16 (2 ^ 63) 4096)] true in
  let x := FLACExtractor.new ext (memory_source []) in
  let si := FLACParser.mStreamInfo (FLACExtractor.mParser x) in
  StreamInfo.well_typed si
  /\ FLACExtractor.countTracks x = 1
  /\ FLACExtractor.mTrackMetadata x ≫= (.!! AMEDIAFORMAT_KEY_DURATION)
     = Some (VInt64 0)
  /\ VInt64 0
     <> VInt64 (StreamInfo.total_samples si * 1000000
                / StreamInfo.sample_rate si).
Proof.
  intros ext x si. split; [vm_compute; intuition discriminate|].
  split; [reflexivity|]. split; [vm_compute; reflexivity|].
  vm_compute. discriminate.
Qed.

(** C4, witness: the second block of a phase finds the first installed and
    changes nothing. *)
Lemma duplicate_stream_info_ignored_witness :
  let ext := silent [] true in
  let p :=
    FLACParser.metadataCallback ext
      (FLAC__METADATA_TYPE_STREAMINFO (stream_info 44100 2 16 1000 4096))
      (FLACParser.fresh (memory_source []) false None None) in
  FLACParser.mStreamInfoValid p = true
  /\ FLACParser.metadataCallback ext
       (FLAC__METADATA_TYPE_STREAMINFO (stream_info 48000 1 24 5 16)) p = p.
Proof.
  intros ext p.
  assert (FLACParser.mStreamInfoValid p = true) as Hvalid by reflexivity.
  split; [exact Hvalid|].
  exact (proj1 (duplicate_stream_info_ignored ext)
           (stream_info 48000 1 24 5 16) p Hvalid).
Defined.

(** C4, as stated, fails: the metadata phase delivers two stream-parameters
    blocks; initialisation succeeds, one track is reported and the
    parameters are those of the first block. *)
Lemma duplicate_stream_info_one_track :
  let first := stream_info 44100 2 16 1000 4096 in
  let second := stream_info 48000 1 24 5 16 in
  let ext :=
    silent [FLAC__METADATA_TYPE_STREAMINFO first;
            FLAC__METADATA_TYPE_STREAMINFO second] true in
  let x := FLACExtractor.new ext (memory_source []) in
  FLACExtractor.countTracks x = 1
  /\ FLACExtractor.countTracks x <> 0
  /\ FLACParser.initCheck (FLACExtractor.mParser x) = OK
  /\ FLACParser.mStreamInfo (FLACExtractor.mParser x) = first.
Proof. intros first second ext x. repeat split. discriminate. Qed.

(** ** The sniffer *)

(** C9.  The stream is recognised exactly when the read of the first eight
    bytes yields eight bytes and these are the signature; the confidence is
    then set to one half, and left alone otherwise. *)
Theorem SniffFLAC_iff_signature (source : DataSourceHelper) (confidence : Q) :
  let n := (readAt source 0 8).1 in
  let header := (readAt source 0 8).2 in
  - 2 ^ 63 <= n < 2 ^ 63 ->
  ((SniffFLAC source confidence).1 = true
   <-> n = 8 /\ take 8 header = flac_signature)
  /\ ((SniffFLAC source confidence).1 = true ->
      (SniffFLAC source confidence).2 = 1 # 2)
  /\ ((SniffFLAC source confidence).1 = false ->
      (SniffFLAC source confidence).2 = confidence).
Proof.
  intros n header Hn. unfold SniffFLAC.
  change (4 + 4) with 8. change (4 + 4)%nat with 8%nat.
  subst n header. destruct (readAt source 0 8) as [n header].
  cbn [fst snd] in *. unfold memcmp_differs.
  pose proof (size_t_of_ssize_t n Hn) as Hsize.
  destruct (size_t n =? 8) eqn:Heq; cbn [negb orb].
  - apply Z.eqb_eq in Heq.
    case_bool_decide as Hcmp; cbn [negb fst snd];
      change (take 8 flac_signature) with flac_signature in Hcmp.
    + repeat split; try done. by apply Hsize.
    + repeat split; try done. intros [_ Hh]. congruence.
  - apply Z.eqb_neq in Heq. cbn [fst snd]. repeat split; try done.
    intros [Hh _]. apply Hsize in Hh. contradiction.
Qed.

(** For a stream held in memory: recognised exactly when it starts with the
    signature, whatever follows. *)
Lemma SniffFLAC_memory_source (bytes : list Z) (confidence : Q) :
  (SniffFLAC (memory_source bytes) confidence).1 = true
  <-> take 8 bytes = flac_signature.
Proof.
  unfold SniffFLAC, memory_source, memcmp_differs. cbn [readAt].
  change (4 + 4) with 8. change (4 + 4)%nat with 8%nat.
  change (Z.to_nat 8) with 8%nat.
  change (Z.to_nat 0) with 0%nat. rewrite drop_0.
  cbn [orb Z.ltb Z.compare]. rewrite take_take, Nat.min_id.
  change (take 8 flac_signature) with flac_signature.
  split.
  - destruct (size_t _ =? 8); cbn [negb orb]; [|discriminate].
    case_bool_decide; [done|discriminate].
  - intros Hsig. rewrite Hsig. reflexivity.
Qed.

(** C9, witness: the signature followed by other bytes. *)
Lemma SniffFLAC_iff_signature_witness :
  let source := memory_source (flac_signature ++ [1; 2; 3]) in
  - 2 ^ 63 <= (readAt source 0 8).1 < 2 ^ 63
  /\ SniffFLAC source 0 = (true, 1 # 2).
Proof.
  intros source.
  assert (- 2 ^ 63 <= (readAt source 0 8).1 < 2 ^ 63) as Hn
    by (vm_compute; split; [discriminate|reflexivity]).
  split; [exact Hn|].
  destruct (SniffFLAC_iff_signature source 0 Hn) as (Hiff & Hconf & _).
  assert ((SniffFLAC source 0).1 = true) as Hrec
    by (apply Hiff; split; reflexivity).
  specialize (Hconf Hrec).
  destruct (SniffFLAC source 0) as [recognised c]. cbn [fst snd] in *.
  by subst.
Defined.

(** ** Reading *)

Section ReadProperties.
Context {E float32 : Type} (ext : Externals E float32).

Import FLACParser.

Abbreviation parser := (FLACParser.t (E := E)).

(** An engine that gives up reports failure, whatever the callbacks do. *)
Lemma gives_up_run d (p : parser) : gives_up d -> (run ext d p).1.1 = false.
Proof.
  intros Hd. revert p.
  induction Hd as [e|requested k _ IH|offset k _ IH|k _ IH|k _ IH|k _ IH
                  |frame buffer k _ IH|metadata k _ IH|status k _ IH];
    intros p; cbn [run].
  - done.
  - destruct (readCallback requested p) as [[[status bytes] buffer] p'].
    apply IH.
  - destruct (seekCallback offset p) as [status p']. apply IH.
  - destruct (tellCallback p) as [status offset]. apply IH.
  - destruct (lengthCallback p) as [status len]. apply IH.
  - apply IH.
  - destruct (writeCallback frame buffer p) as [status p']. apply IH.
  - apply IH.
  - apply IH.
Qed.

(** With an engine that honours the contract, an abort answer of a callback
    makes the drive step fail. *)
Lemma abort_fails_drive d (p : parser) :
  honours_abort d ->
  existsb answered_abort (trace ext d p) = true ->
  (run ext d p).1.1 = false.
Proof.
  intros Hd. revert p.
  induction Hd as [ok e|requested k Habort _ IH|offset k _ IH|k _ IH|k _ IH
                  |k _ IH|frame buffer k Habort _ IH|metadata k _ IH
                  |status k _ IH];
    intros p; cbn [run trace].
  - discriminate.
  - destruct (readCallback requested p) as [[[status bytes] buffer] p'].
    cbn [existsb]. destruct status; cbn [answered_abort orb];
      try apply IH. intros _. apply gives_up_run, Habort.
  - destruct (seekCallback offset p) as [status p']. apply IH.
  - destruct (tellCallback p) as [status offset]. apply IH.
  - destruct (lengthCallback p) as [status len]. apply IH.
  - apply IH.
  - destruct (writeCallback frame buffer p) as [status p'].
    cbn [existsb]. destruct status; cbn [answered_abort orb];
      try apply IH. intros _. apply gives_up_run, Habort.
  - apply IH.
  - apply IH.
Qed.

(** A push that finds the flag clear is answered with abort. *)
Lemma unarmed_push_answers_abort d (p : parser) :
  existsb unarmed_push (trace ext d p) = true ->
  existsb answered_abort (trace ext d p) = true.
Proof.
  revert p.
  induction d as [ok e|requested k IH|offset k IH|k IH|k IH|k IH
                 |frame buffer k IH|metadata k IH|status k IH];
    intros p; cbn [trace].
  - done.
  - destruct (readCallback requested p) as [[[status bytes] buffer] p'].
    cbn [existsb unarmed_push orb]. intros H. rewrite IH by done.
    apply orb_true_r.
  - destruct (seekCallback offset p) as [status p']. apply IH.
  - destruct (tellCallback p) as [status offset]. apply IH.
  - destruct (lengthCallback p) as [status len]. apply IH.
  - apply IH.
  - unfold writeCallback. destruct (mWriteRequested p) eqn:Harmed.
    + cbn [existsb unarmed_push answered_abort orb]. apply IH.
    + done.
  - apply IH.
  - apply IH.
Qed.

(** The one-shot flags after a drive step that started armed: the push is
    completed exactly when the flag has been consumed. *)
Lemma one_shot_invariant d (p : parser) :
  mWriteCompleted p = negb (mWriteRequested p) ->
  mWriteCompleted (run ext d p).2 = negb (mWriteRequested (run ext d p).2).
Proof.
  apply (run_invariant ext
           (fun q => mWriteCompleted q = negb (mWriteRequested q))).
  - intros requested q HP.
    destruct (readCallback_cases requested q) as [->|[->|[pos ->]]]; done.
  - intros offset q HP. done.
  - intros frame buffer q HP. unfold writeCallback.
    destruct (mWriteRequested q) eqn:Harmed; cbn [snd]; [done|].
    by rewrite Harmed.
  - intros metadata q HP.
    destruct (metadataCallback_cases ext metadata q)
      as [(si & _ & _ & ->)|[m ->]]; done.
  - intros status q HP. done.
Qed.

(** [drive] in terms of the tree it runs. *)
Lemma drive_run doSeek sample (p : parser) d :
  mDecoder p = Some d ->
  let r := run ext (drive_tree ext doSeek sample d) (armed p) in
  drive ext doSeek sample p = (Some r.1.1, set_mDecoder (Some r.1.2) r.2).
Proof.
  intros Hd r. unfold drive.
  change (mDecoder (set_mWriteCompleted false (set_mWriteRequested true p)))
    with (mDecoder p).
  rewrite Hd.
  subst r. unfold drive_tree, armed.
  by destruct (run ext _ _) as [[ok e] q].
Qed.

(** The four ways in which [readBuffer] returns no buffer before it turns to
    the buffer group, and the remaining case. *)
Lemma readBuffer_cases doSeek sample (p : parser) d :
  mDecoder p = Some d ->
  let ok := (drive ext doSeek sample p).1 in
  let after := (drive ext doSeek sample p).2 in
  (readBuffer ext doSeek sample p).2 = after
  /\ ((ok = Some false
       /\ (readBuffer ext doSeek sample p).1 = Returns None)
      \/ (ok = Some true /\ mWriteCompleted after = false
          /\ (readBuffer ext doSeek sample p).1 = Returns None)
      \/ (ok = Some true /\ mWriteCompleted after = true
          /\ invalid_blocksize after = true
          /\ (readBuffer ext doSeek sample p).1 = Returns None)
      \/ (ok = Some true /\ mWriteCompleted after = true
          /\ invalid_blocksize after = false
          /\ changed_parameters after = true
          /\ (readBuffer ext doSeek sample p).1 = Returns None)
      \/ (ok = Some true /\ mWriteCompleted after = true
          /\ invalid_blocksize after = false
          /\ changed_parameters after = false
          /\ (readBuffer ext doSeek sample p).1 = fill_buffer ext after)).
Proof.
  intros Hd ok after. unfold readBuffer. subst ok after.
  rewrite (drive_run _ _ _ _ Hd). cbn [fst snd].
  destruct (run ext _ _) as [[ok e] q]. cbn [fst snd].
  destruct ok; cbn [negb]; [|by auto].
  destruct (mWriteCompleted (set_mDecoder (Some e) q)) eqn:Hc;
    cbn [negb]; [|by auto 10].
  destruct (invalid_blocksize (set_mDecoder (Some e) q)) eqn:Hb;
    [by auto 10|].
  destruct (changed_parameters (set_mDecoder (Some e) q)) eqn:Hp;
    by auto 10.
Qed.

(** The read callback answers abort exactly on an I/O error of the data
    source, a negative result of [readAt]. *)
Lemma readCallback_abort_iff requested (p : parser) :
  (readCallback requested p).1.1.1 = FLAC__STREAM_DECODER_READ_STATUS_ABORT
  <-> (readAt (mDataSource p) (mCurrentPos p) requested).1 < 0.
Proof.
  unfold readCallback.
  destruct (readAt (mDataSource p) (mCurrentPos p) requested) as [actual buf].
  cbn [fst]. destruct (0 >? actual) eqn:Hneg; cbn [fst].
  - apply Z.gtb_gt in Hneg. split; [lia|done].
  - assert (~ actual < 0).
    { intros Hlt. assert (0 > actual) as Hgt by lia.
      apply Z.gtb_gt in Hgt. congruence. }
    destruct (0 =? actual); cbn [fst]; split; (discriminate || lia).
Qed.

(** Past the validation, [readBuffer] returns when the buffers were
    allocated for the stream, the planes of the frame are there and long
    enough, a source of more than 16 bits is read in float mode, the frame
    is numbered by sample and the sample rate is not zero. *)
Lemma fill_buffer_returns (q : parser) group :
  let si := mStreamInfo q in
  let frame := mWriteHeader q in
  let blocksize := FrameHeader.blocksize frame in
  let channels := StreamInfo.channels si in
  let width := getOutputSampleSize q in
  mGroup q = Some group ->
  mMaxBufferSize q
  = size_t (uint32 (StreamInfo.max_blocksize si * channels) * width) ->
  0 <= blocksize <= StreamInfo.max_blocksize si ->
  0 <= channels ->
  StreamInfo.max_blocksize si * channels < 2 ^ 32 ->
  (Z.to_nat channels <= length (mWriteBuffer q))%nat ->
  Forall (fun p : plane => (Z.to_nat blocksize <= length p)%nat)
         (mWriteBuffer q) ->
  StreamInfo.bits_per_sample si ∈ supported_bit_depths ->
  (mOutputFloat q = false -> StreamInfo.bits_per_sample si <= 16) ->
  FrameHeader.number_type frame = FLAC__FRAME_NUMBER_TYPE_SAMPLE_NUMBER ->
  StreamInfo.sample_rate si <> 0 ->
  (acquire_buffer group <> OK /\ fill_buffer ext q = Returns None)
  \/ exists buffer,
      fill_buffer ext q = Returns (Some buffer)
      /\ range_length buffer = blocksize * channels * width
      /\ kKeyTime buffer
         = int64 (uint64 (1000000 * FrameHeader.number frame)
                  / StreamInfo.sample_rate si)
      /\ kKeyIsSyncFrame buffer = 1.
Proof.
  intros si frame blocksize channels width Hgroup Hmax Hbs Hch Hfit Hplanes
    Hlong Hbits Hmode Hnumber Hrate.
  unfold fill_buffer. rewrite Hgroup.
  destruct (acquire_buffer group =? OK) eqn:Hacquire; cbn [negb].
  2:{ left. by apply Z.eqb_neq in Hacquire. }
  right. fold frame blocksize. unfold getChannels, getBitsPerSample,
    getSampleRate. fold si channels width.
  assert (1 <= width <= 4) as Hwidth.
  { subst width. unfold getOutputSampleSize. destruct (mOutputFloat q); lia. }
  assert (0 <= blocksize * channels
          <= StreamInfo.max_blocksize si * channels) as Hprod by nia.
  assert (size_t (uint32 (blocksize * channels) * width)
          = blocksize * channels * width) as Hsize.
  { unfold size_t, uint32, wrap_unsigned.
    rewrite (Z.mod_small (blocksize * channels)) by lia.
    apply Z.mod_small. nia. }
  rewrite Hsize, Hmax.
  assert (size_t (uint32 (StreamInfo.max_blocksize si * channels) * width)
          = StreamInfo.max_blocksize si * channels * width) as Hsize'.
  { unfold size_t, uint32, wrap_unsigned.
    rewrite (Z.mod_small (StreamInfo.max_blocksize si * channels)) by lia.
    apply Z.mod_small. nia. }
  rewrite Hsize'.
  assert ((blocksize * channels * width
           <=? StreamInfo.max_blocksize si * channels * width) = true)
    as Hle by (apply Z.leb_le; nia).
  rewrite Hle. cbn [CHECK].
  assert (exists data,
             (if mOutputFloat q
              then PcmFloat <$>
                     copyToFloat (float_from_i32 ext) (mWriteBuffer q)
                       blocksize channels (StreamInfo.bits_per_sample si)
              else Pcm16 <$>
                     copyTo16Signed (mWriteBuffer q)
                       blocksize channels (StreamInfo.bits_per_sample si))
             = Some data) as [data Hdata].
  { destruct (mOutputFloat q) eqn:Hfloat.
    - destruct (copy_loop_defined
                  (fun v => float_from_i32 ext
                              <$> shl_int v
                                    (uint32
                                       (32 - StreamInfo.bits_per_sample si)))
                  (mWriteBuffer q) blocksize channels Hplanes Hlong)
        as [out Hout].
      { intros v. rewrite sample_to_float by done. by eexists. }
      exists (PcmFloat out). unfold copyToFloat. by rewrite Hout.
    - destruct (copy_loop_defined
                  (fun v => int16
                              <$> shl_int v
                                    (uint32
                                       (16 - StreamInfo.bits_per_sample si)))
                  (mWriteBuffer q) blocksize channels Hplanes Hlong)
        as [out Hout].
      { intros v. rewrite sample_to_16; [by eexists|].
        specialize (Hmode eq_refl). unfold supported_bit_depths in Hbits.
        rewrite !elem_of_cons, elem_of_nil in Hbits. lia. }
      exists (Pcm16 out). unfold copyTo16Signed. by rewrite Hout. }
  rewrite Hdata. cbn [defined obind]. rewrite Hnumber. cbn [CHECK].
  apply Z.eqb_neq in Hrate. rewrite Hrate.
  eexists. split; [reflexivity|]. done.
Qed.

(** A 24-bit stream in 16-bit mode: once a frame with samples has passed
    the validation and a buffer is at hand, the copy has no defined
    result. *)
Lemma fill_buffer_wide (q : parser) group :
  mOutputFloat q = false ->
  getBitsPerSample q = 24 ->
  mGroup q = Some group ->
  acquire_buffer group = OK ->
  size_t (uint32 (FrameHeader.blocksize (mWriteHeader q) * getChannels q)
          * getOutputSampleSize q) <= mMaxBufferSize q ->
  0 < FrameHeader.blocksize (mWriteHeader q) ->
  0 < getChannels q ->
  fill_buffer ext q = Undefined.
Proof.
  intros Hmode Hbits Hgroup Hacquire Hsize Hbs Hch.
  unfold fill_buffer. rewrite Hgroup, Hacquire. cbn [Z.eqb negb].
  apply Z.leb_le in Hsize. rewrite Hsize. cbn [CHECK].
  rewrite Hmode, Hbits, copyTo16Signed_wide by done. done.
Qed.

(** [memmove] of [n] plane pointers: the first [n] slots of the destination
    hold the planes of the source, the other slots keep theirs. *)
Lemma memmove_planes_lookup (dst src : list plane) n :
  (forall (c : nat) (samples : plane),
      (c < Z.to_nat n)%nat -> src !! c = Some samples ->
      memmove_planes dst src n !! c = Some samples)
  /\ ((Z.to_nat n <= length src)%nat ->
      forall c : nat,
        (Z.to_nat n <= c)%nat -> memmove_planes dst src n !! c = dst !! c).
Proof.
  unfold memmove_planes. split.
  - intros c samples Hc Hsrc. apply lookup_app_l_Some.
    rewrite lookup_take_lt by done. exact Hsrc.
  - intros Hlong c Hc.
    rewrite lookup_app_r by (rewrite length_take; lia).
    rewrite length_take, lookup_drop. f_equal. lia.
Qed.

(** C5.  The one-shot write protocol of a decode call.  A push that finds
    the flag clear is answered with abort and changes nothing; a push that
    finds it armed clears it, captures the frame header and the channel
    planes (slot [c] of [mWriteBuffer] holds plane [c] of the push for every
    channel [c] of the stream, the slots above the channel count keep what
    they held) and sets the completed flag.  After the drive step of
    [readBuffer] the completed flag is set exactly when the armed flag has
    been consumed.  With an engine that gives up on abort, a push that fires
    unarmed makes the drive step fail, and the call returns no buffer; and a
    drive step that ends without the completed flag makes the call return no
    buffer. *)
Theorem one_shot_write_protocol doSeek sample (p : parser) d :
  mDecoder p = Some d ->
  honours_abort (drive_tree ext doSeek sample d) ->
  let after := (drive ext doSeek sample p).2 in
  let answers := trace ext (drive_tree ext doSeek sample d) (armed p) in
  (forall frame buffer (q : parser),
      mWriteRequested q = false ->
      writeCallback frame buffer q
      = (FLAC__STREAM_DECODER_WRITE_STATUS_ABORT, q))
  /\ (forall frame buffer (q : parser),
        mWriteRequested q = true ->
        let q' := (writeCallback frame buffer q).2 in
        (writeCallback frame buffer q).1
        = FLAC__STREAM_DECODER_WRITE_STATUS_CONTINUE
        /\ mWriteRequested q' = false
        /\ mWriteHeader q' = header frame
        /\ (forall (c : nat) (samples : plane),
              (c < Z.to_nat (getChannels q))%nat ->
              buffer !! c = Some samples ->
              mWriteBuffer q' !! c = Some samples)
        /\ ((Z.to_nat (getChannels q) <= length buffer)%nat ->
            forall c : nat,
              (Z.to_nat (getChannels q) <= c)%nat ->
              mWriteBuffer q' !! c = mWriteBuffer q !! c)
        /\ mWriteCompleted q' = true)
  /\ mWriteCompleted after = negb (mWriteRequested after)
  /\ (existsb unarmed_push answers = true ->
      (drive ext doSeek sample p).1 = Some false
      /\ (readBuffer ext doSeek sample p).1 = Returns None)
  /\ (mWriteCompleted after = false ->
      (readBuffer ext doSeek sample p).1 = Returns None).
Proof.
  intros Hd Hengine after answers.
  pose proof (drive_run doSeek sample p d Hd) as Hdrive.
  cbn zeta in Hdrive.
  destruct (readBuffer_cases doSeek sample p d Hd) as [_ Hcases].
  cbn zeta in Hcases.
  split; [|split; [|split; [|split]]].
  - intros frame buffer q Hq. unfold writeCallback. by rewrite Hq.
  - intros frame buffer q Hq q'. subst q'. unfold writeCallback.
    rewrite Hq. cbn [fst snd].
    destruct (memmove_planes_lookup (mWriteBuffer q) buffer (getChannels q))
      as [Hcaptured Hkept].
    split; [done|]. split; [done|]. split; [done|].
    split; [exact Hcaptured|]. split; [exact Hkept|done].
  - subst after. rewrite Hdrive. cbn [snd].
    change (mWriteCompleted (set_mDecoder ?e ?q)) with (mWriteCompleted q).
    change (mWriteRequested (set_mDecoder ?e ?q)) with (mWriteRequested q).
    by apply one_shot_invariant.
  - intros Hpush. subst answers.
    apply unarmed_push_answers_abort, (abort_fails_drive _ _ Hengine) in Hpush.
    assert ((drive ext doSeek sample p).1 = Some false) as Hfail.
    { rewrite Hdrive. cbn [fst]. by rewrite Hpush. }
    split; [exact Hfail|].
    destruct Hcases as [[_ H]|[(H & _)|[(H & _)|[(H & _)|(H & _)]]]];
      [exact H|congruence..].
  - intros Hnone. fold after in Hcases.
    destruct Hcases as [[_ H]|[(_ & _ & H)|[(_ & H & _)|[(_ & H & _)
                                                        |(_ & H & _)]]]];
      [exact H|exact H|congruence..].
Qed.

(** C6.  After initialisation has installed the stream parameters, a decode
    call returns a buffer only when a frame push was completed and the
    captured frame has a block size above zero and at most the maximal block
    size, and the sample rate, channel count and bit depth of the stream;
    when the captured frame breaks any of this, the call returns no
    buffer. *)
Theorem frame_validation doSeek sample (p : parser) d :
  mDecoder p = Some d ->
  mStreamInfoValid p = true ->
  let result := (readBuffer ext doSeek sample p).1 in
  let after := (readBuffer ext doSeek sample p).2 in
  let frame := mWriteHeader after in
  let si := mStreamInfo p in
  let consistent :=
    0 < FrameHeader.blocksize frame <= StreamInfo.max_blocksize si
    /\ FrameHeader.sample_rate frame = StreamInfo.sample_rate si
    /\ FrameHeader.channels frame = StreamInfo.channels si
    /\ FrameHeader.bits_per_sample frame = StreamInfo.bits_per_sample si in
  0 <= FrameHeader.blocksize frame ->
  (forall buffer,
      result = Returns (Some buffer) ->
      mWriteCompleted after = true /\ consistent)
  /\ (~ consistent -> result = Returns None).
Proof.
  intros Hd Hvalid result after frame si consistent Htyped.
  destruct (readBuffer_cases doSeek sample p d Hd) as [Hafter Hcases].
  cbn zeta in Hafter, Hcases. fold after in Hafter. rewrite <- Hafter in Hcases.
  fold result in Hcases.
  assert (mStreamInfo after = si) as Hsi.
  { rewrite Hafter, (drive_run doSeek sample p d Hd). cbn [snd].
    change (mStreamInfo (set_mDecoder ?e ?q)) with (mStreamInfo q).
    by apply run_keeps_stream_info. }
  assert (forall b, invalid_blocksize after = b ->
                    changed_parameters after = false ->
                    b = false <-> consistent) as Hconsistent.
  { intros b Hb Hp. unfold invalid_blocksize, changed_parameters in Hb, Hp.
    unfold getMaxBlockSize, getSampleRate, getChannels, getBitsPerSample
      in Hb, Hp.
    rewrite Hsi in Hb, Hp. fold frame in Hb, Hp.
    apply orb_false_iff in Hp as [Hp Hbits].
    apply orb_false_iff in Hp as [Hrate Hch].
    apply negb_false_iff, Z.eqb_eq in Hrate, Hch, Hbits.
    subst b consistent. rewrite orb_false_iff, Z.eqb_neq.
    rewrite Z.gtb_ltb, Z.ltb_ge. intuition lia. }
  split.
  - intros buffer Hres.
    destruct Hcases as [[_ H]|[(_ & _ & H)|[(_ & _ & _ & H)
                       |[(_ & _ & _ & _ & H)|(_ & Hc & Hb & Hp & _)]]]];
      try congruence.
    split; [exact Hc|]. by apply (Hconsistent false).
  - intros Hbad.
    destruct Hcases as [[_ H]|[(_ & _ & H)|[(_ & _ & _ & H)
                       |[(_ & _ & _ & _ & H)|(_ & Hc & Hb & Hp & _)]]]];
      try exact H.
    destruct Hbad. by apply (Hconsistent false).
Qed.

Lemma io_error_answers_abort (answers : list callback_result) :
  existsb io_error answers = true -> existsb answered_abort answers = true.
Proof.
  rewrite !existsb_exists. intros (r & Hin & Hr). exists r. split; [done|].
  by destruct r as [[]| | | | | | | ].
Qed.

(** [FLACSource::read] in terms of the request it passes on. *)
Lemma read_request options (s : FLACSource.t) :
  let doSeek := (request options s).1 in
  let sample := (request options s).2 in
  let r := readBuffer ext doSeek sample (FLACSource.mParser s) in
  FLACSource.read ext options s
  = (obind r.1
       (fun buffer =>
          Returns (buffer,
                   match buffer with
                   | Some _ => AMEDIA_OK
                   | None => AMEDIA_ERROR_END_OF_STREAM
                   end)),
     FLACSource.set_mParser r.2 s).
Proof.
  unfold FLACSource.read, request.
  destruct (options ≫= getSeekTo) as [seekTimeUs|]; cbn [fst snd];
    by destruct (readBuffer ext _ _ _).
Qed.

(** The drive step leaves the buffer group alone. *)
Lemma drive_keeps_group doSeek sample (p : parser) :
  mGroup (drive ext doSeek sample p).2 = mGroup p.
Proof.
  unfold drive.
  change (mDecoder (set_mWriteCompleted false (set_mWriteRequested true p)))
    with (mDecoder p).
  destruct (mDecoder p) as [d|]; [|done].
  match goal with
  | |- context [run ext ?t ?q] =>
      pose proof (run_keeps_mode ext t q) as (_ & _ & Hg & _);
      destruct (run ext t q) as [[ok e] q']
  end.
  cbn [fst snd] in *. exact Hg.
Qed.

(** C10.  A call of [read] that returns gives a buffer with [AMEDIA_OK] or
    no buffer with [AMEDIA_ERROR_END_OF_STREAM], nothing else.  Each of the
    failure modes gives the second: a drive step that reports failure (how
    the engine reports a failed seek), an I/O error of the data source and a
    push that fires unarmed (both answered with abort, on which the engine
    gives up), a drive step without a completed push, an invalid block size,
    a changed stream parameter, and a buffer group that hands out no
    buffer. *)
Theorem read_outcomes options (s : FLACSource.t) d :
  let p := FLACSource.mParser s in
  let doSeek := (request options s).1 in
  let sample := (request options s).2 in
  let tree := drive_tree ext doSeek sample d in
  let after := (drive ext doSeek sample p).2 in
  let result := (FLACSource.read ext options s).1 in
  let end_of_stream := Returns (None, AMEDIA_ERROR_END_OF_STREAM) in
  mDecoder p = Some d ->
  (forall buffer status,
      result = Returns (buffer, status) ->
      (is_Some buffer /\ status = AMEDIA_OK)
      \/ (buffer = None /\ status = AMEDIA_ERROR_END_OF_STREAM))
  /\ ((drive ext doSeek sample p).1 = Some false -> result = end_of_stream)
  /\ (honours_abort tree ->
      existsb io_error (trace ext tree (armed p)) = true ->
      result = end_of_stream)
  /\ (honours_abort tree ->
      existsb unarmed_push (trace ext tree (armed p)) = true ->
      result = end_of_stream)
  /\ (mWriteCompleted after = false -> result = end_of_stream)
  /\ (invalid_blocksize after = true -> result = end_of_stream)
  /\ (changed_parameters after = true -> result = end_of_stream)
  /\ (forall group,
        mGroup p = Some group -> acquire_buffer group <> OK ->
        result = end_of_stream).
Proof.
  intros p doSeek sample tree after result end_of_stream Hd.
  pose proof (read_request options s) as Hread. cbn zeta in Hread.
  fold p doSeek sample in Hread.
  assert (result
          = obind (readBuffer ext doSeek sample p).1
              (fun buffer =>
                 Returns (buffer,
                          match buffer with
                          | Some _ => AMEDIA_OK
                          | None => AMEDIA_ERROR_END_OF_STREAM
                          end))) as Hresult.
  { subst result. by rewrite Hread. }
  assert ((readBuffer ext doSeek sample p).1 = Returns None ->
          result = end_of_stream) as Hnone.
  { intros H. by rewrite Hresult, H. }
  destruct (readBuffer_cases doSeek sample p d Hd) as [_ Hcases].
  cbn zeta in Hcases. fold after in Hcases.
  pose proof (drive_run doSeek sample p d Hd) as Hdrive.
  cbn zeta in Hdrive. fold tree in Hdrive.
  assert (existsb answered_abort (trace ext tree (armed p)) = true ->
          honours_abort tree ->
          (drive ext doSeek sample p).1 = Some false) as Habort.
  { intros Ha Hengine. rewrite Hdrive. cbn [fst].
    by rewrite (abort_fails_drive _ _ Hengine Ha). }
  assert ((drive ext doSeek sample p).1 = Some false ->
          result = end_of_stream) as Hfail.
  { intros Hf. apply Hnone.
    destruct Hcases as [[_ H]|[(H & _)|[(H & _)|[(H & _)|(H & _)]]]];
      [exact H|congruence..]. }
  split; [|split; [|split; [|split; [|split; [|split; [|split]]]]]].
  - intros buffer status. rewrite Hresult.
    destruct (readBuffer ext doSeek sample p).1 as [[b|]| |];
      cbn [obind]; intros [= <- <-]; [left|right]; done.
  - exact Hfail.
  - intros Hengine Hio. apply Hfail, Habort; [|done].
    by apply io_error_answers_abort.
  - intros Hengine Hpush. apply Hfail, Habort; [|done].
    by apply unarmed_push_answers_abort.
  - intros Hc. apply Hnone.
    destruct Hcases as [[_ H]|[(_ & _ & H)|[(_ & H & _)|[(_ & H & _)
                                                        |(_ & H & _)]]]];
      [exact H|exact H|congruence..].
  - intros Hb. apply Hnone.
    destruct Hcases as [[_ H]|[(_ & _ & H)|[(_ & _ & _ & H)
                       |[(_ & _ & H & _)|(_ & _ & H & _)]]]];
      [exact H|exact H|exact H|congruence..].
  - intros Hp. apply Hnone.
    destruct Hcases as [[_ H]|[(_ & _ & H)|[(_ & _ & _ & H)
                       |[(_ & _ & _ & _ & H)|(_ & _ & _ & H & _)]]]];
      [exact H|exact H|exact H|exact H|congruence].
  - intros group Hg Hacquire. apply Hnone.
    destruct Hcases as [[_ H]|[(_ & _ & H)|[(_ & _ & _ & H)
                       |[(_ & _ & _ & _ & H)|(_ & _ & _ & _ & H)]]]];
      try exact H.
    rewrite H. unfold fill_buffer. subst after.
    rewrite drive_keeps_group, Hg.
    apply Z.eqb_neq in Hacquire. by rewrite Hacquire.
Qed.

(** A call of [read] stops on a failed [CHECK] or runs into undefined
    behaviour only past every validation, when it turns to the buffer
    group. *)
Lemma read_stops_only_in_fill_buffer options (s : FLACSource.t) d :
  let p := FLACSource.mParser s in
  let doSeek := (request options s).1 in
  let sample := (request options s).2 in
  let after := (drive ext doSeek sample p).2 in
  let result := (FLACSource.read ext options s).1 in
  mDecoder p = Some d ->
  (forall r, result <> Returns r) ->
  (drive ext doSeek sample p).1 = Some true
  /\ mWriteCompleted after = true
  /\ invalid_blocksize after = false
  /\ changed_parameters after = false
  /\ (forall r, fill_buffer ext after <> Returns r).
Proof.
  intros p doSeek sample after result Hd Hstop.
  pose proof (read_request options s) as Hread. cbn zeta in Hread.
  fold p doSeek sample in Hread.
  assert (forall r, (readBuffer ext doSeek sample p).1 <> Returns r) as Hrb.
  { intros r Hr. subst result. rewrite Hread in Hstop. cbn [fst] in Hstop.
    rewrite Hr in Hstop. cbn [obind] in Hstop. by eapply Hstop. }
  destruct (readBuffer_cases doSeek sample p d Hd) as [_ Hcases].
  cbn zeta in Hcases. fold after in Hcases.
  destruct Hcases as [[_ H]|[(_ & _ & H)|[(_ & _ & _ & H)
                     |[(_ & _ & _ & _ & H)|(Ho & Hc & Hb & Hp & H)]]]];
    try (by apply Hrb in H).
  repeat split; try done. intros r Hr. apply (Hrb r). congruence.
Qed.

(** The sample of a seek request: zero for a time that is not positive;
    otherwise [seekTimeUs * sampleRate / 1_000_000], replaced by the total
    sample count when it reaches it, as long as the product fits in 64
    signed bits. *)
Lemma seek_sample_in_range seekTimeUs (s : FLACSource.t (E := E)) :
  let rate := getSampleRate (FLACSource.mParser s) in
  let total := getTotalSamples (FLACSource.mParser s) in
  (seekTimeUs <= 0 -> FLACSource.seek_sample seekTimeUs s = 0)
  /\ (0 < seekTimeUs -> 0 <= rate -> seekTimeUs * rate <= INT64_MAX ->
      FLACSource.seek_sample seekTimeUs s
      = if seekTimeUs * rate / 1000000 >=? total then total
        else seekTimeUs * rate / 1000000).
Proof.
  intros rate total. unfold FLACSource.seek_sample. fold rate total. split.
  - intros Hle. apply Z.leb_le in Hle. by rewrite Hle.
  - intros Hpos Hrate Hfit. unfold INT64_MAX in Hfit.
    destruct (seekTimeUs <=? 0) eqn:Hle; [apply Z.leb_le in Hle; lia|].
    assert (0 <= seekTimeUs * rate) by lia.
    rewrite int64_small by lia.
    rewrite Z.quot_div_nonneg by lia.
    assert (0 <= seekTimeUs * rate / 1000000 <= seekTimeUs * rate).
    { split; [apply Z.div_pos; lia|].
      apply Z.div_le_upper_bound; lia. }
    by rewrite uint64_small by lia.
Qed.

(** A seek request is passed on as [readBuffer (sample)]; when the engine
    fails the seek, the read reports end of stream. *)
Lemma read_seek_failed seekTimeUs (s : FLACSource.t (E := E)) d :
  let p := FLACSource.mParser s in
  let sample := FLACSource.seek_sample seekTimeUs s in
  mDecoder p = Some d ->
  (run ext (FLAC__stream_decoder_seek_absolute (engine ext) d sample)
     (armed p)).1.1 = false ->
  (FLACSource.read ext (Some {| getSeekTo := Some seekTimeUs |}) s).1
  = Returns (None, AMEDIA_ERROR_END_OF_STREAM).
Proof.
  intros p sample Hd Hfail.
  rewrite read_request.
  cbn [request mbind option_bind getSeekTo fst snd]. fold p sample.
  destruct (readBuffer_cases true sample p d Hd) as [_ Hcases].
  cbn zeta in Hcases. rewrite (drive_run true sample p d Hd) in Hcases.
  cbn [fst snd drive_tree] in Hcases. rewrite Hfail in Hcases.
  destruct Hcases as [[_ H]|[(H & _)|[(H & _)|[(H & _)|(H & _)]]]];
    [by rewrite H|discriminate H..].
Qed.

End ReadProperties.

(** ** Worked streams *)

(** C1, at the failing input.  A caller other than the media uid gets the
    16-bit path for a 24-bit stream; there the shift count is
    [(unsigned) (16 - 24) = 4294967288], for which the shift of a 32-bit
    sample has no defined result, so the copy, and with it the read, has
    none. *)
Theorem copyTo16Signed_24_bit_track :
  let si := stream_info 44100 1 24 1000 4096 in
  let ext := player si [[5; -5]] 2 in
  shouldExtractorOutputFloat 10001 24 = false
  /\ uint32 (16 - 24) = 4294967288
  /\ shl_int 5 (uint32 (16 - 24)) = None
  /\ copyTo16Signed [[5; -5]] 2 1 24 = None
  /\ exists started,
      open_track ext 10001 (memory_source []) = Some started
      /\ FLACSource.mOutputFloat started = false
      /\ FLACParser.getBitsPerSample (FLACSource.mParser started) = 24
      /\ (FLACSource.read ext None started).1 = Undefined.
Proof.
  intros si ext. repeat split; try reflexivity.
  eexists. split; [vm_compute; reflexivity|].
  repeat split; vm_compute; reflexivity.
Qed.

(** The same stream read by the media uid takes the float path, where the
    shift count is 8. *)
Example copyToFloat_24_bit_track :
  let si := stream_info 44100 1 24 1000 4096 in
  let ext := player si [[5; -5]] 2 in
  exists started buffer,
    open_track ext AID_MEDIA (memory_source []) = Some started
    /\ (FLACSource.read ext None started).1
       = Returns (Some buffer, AMEDIA_OK)
    /\ buffer_data buffer = PcmFloat [1280 # 2 ^ 31; -1280 # 2 ^ 31]
    /\ range_length buffer = 8.
Proof.
  intros si ext. do 2 eexists. split; [vm_compute; reflexivity|].
  split; [vm_compute; reflexivity|]. split; reflexivity.
Qed.

(** An 8-bit stereo stream on the 16-bit path. *)
Example copyTo16Signed_8_bit_track :
  let si := stream_info 8000 2 8 1000 4096 in
  let ext := player si [[1; -2; 3]; [10; 20; 30]] 3 in
  exists started buffer,
    open_track ext 10001 (memory_source []) = Some started
    /\ (FLACSource.read ext None started).1
       = Returns (Some buffer, AMEDIA_OK)
    /\ buffer_data buffer = Pcm16 [256; 2560; -512; 5120; 768; 7680]
    /\ range_length buffer = 12
    /\ kKeyIsSyncFrame buffer = 1.
Proof.
  intros si ext. do 2 eexists. split; [vm_compute; reflexivity|].
  split; [vm_compute; reflexivity|]. repeat split; reflexivity.
Qed.

(** C7, at the failing input.  A seek to 418293516410648 microseconds, far
    beyond the 22675 microseconds of a 44100 Hz stream of 1000 samples.  By
    the formula of the claim the target is sample 18446744073709, to be
    replaced by the total sample count, 1000.  In the code the product
    [seekTimeUs * sampleRate] leaves the 64 signed bits; the low 64 bits
    are 25184, and divided by 1_000_000, as a signed or as an unsigned
    number, they give sample 0.  The comparison with the total sample count
    does not fire, the parser seeks to sample 0 and the read returns the
    first frame with [AMEDIA_OK].  A seek to the total sample count itself
    ends the stream. *)
Theorem seek_far_beyond_duration :
  let si := stream_info 44100 1 16 1000 4096 in
  let ext := player si [[5; -5]] 2 in
  let seekTimeUs := 418293516410648 in
  exists started buffer,
    open_track ext 10001 (memory_source []) = Some started
    /\ FLACParser.getSampleRate (FLACSource.mParser started) = 44100
    /\ FLACParser.getTotalSamples (FLACSource.mParser started) = 1000
    /\ seekTimeUs * 44100 / 1000000 = 18446744073709
    /\ seek_overflows seekTimeUs started = true
    /\ int64 (seekTimeUs * 44100) = 25184
    /\ uint64 (seekTimeUs * 44100) = 25184
    /\ 25184 `quot` 1000000 = 0
    /\ 25184 / 1000000 = 0
    /\ FLACSource.seek_sample seekTimeUs started = 0
    /\ (FLACSource.read ext (seek_to seekTimeUs) started).1
       = Returns (Some buffer, AMEDIA_OK)
    /\ kKeyTime buffer = 0
    /\ (FLACParser.readBuffer ext true 1000
          (FLACSource.mParser started)).1 = Returns None.
Proof.
  intros si ext seekTimeUs. do 2 eexists.
  split; [vm_compute; reflexivity|].
  split; [vm_compute; reflexivity|]. split; [vm_compute; reflexivity|].
  split; [reflexivity|]. split; [vm_compute; reflexivity|].
  split; [reflexivity|]. split; [reflexivity|].
  split; [reflexivity|]. split; [reflexivity|].
  split; [vm_compute; reflexivity|].
  split; [vm_compute; reflexivity|]. split; [reflexivity|].
  vm_compute; reflexivity.
Qed.

(** A seek to one second in the same stream, whose duration is 22675
    microseconds, asks for the total sample count and ends the stream. *)
Example seek_beyond_duration :
  let si := stream_info 44100 1 16 1000 4096 in
  let ext := player si [[5; -5]] 2 in
  let started := the_track ext 10001 (memory_source []) in
  FLACSource.seek_sample 1000000 started = 1000
  /\ (FLACSource.read ext (seek_to 1000000) started).1
     = Returns (None, AMEDIA_ERROR_END_OF_STREAM).
Proof. intros si ext started. split; vm_compute; reflexivity. Qed.

(** C5, witness: a decode step that pushes two frames; the armed push
    captures the plane, the second push finds the flag clear, the engine
    gives up and the call returns no buffer. *)
Lemma one_shot_write_protocol_witness :
  let si := stream_info 44100 1 16 1000 4096 in
  let ext := stutterer si [[5; -5]] 2 in
  let p := FLACSource.mParser (the_track ext 10001 (memory_source [])) in
  FLACParser.mDecoder p = Some tt
  /\ honours_abort (FLACParser.drive_tree ext false 0 tt)
  /\ FLACParser.mWriteBuffer
       (FLACParser.writeCallback (frame_of si 2 0) [[5; -5]]
          (FLACParser.armed p)).2 !! 0%nat
     = Some [5; -5]
  /\ (FLACParser.drive ext false 0 p).1 = Some false
  /\ (FLACParser.readBuffer ext false 0 p).1 = Returns None.
Proof.
  intros si ext p.
  assert (FLACParser.mDecoder p = Some tt) as Hd by (vm_compute; reflexivity).
  assert (honours_abort (FLACParser.drive_tree ext false 0 tt)) as Hengine.
  { apply honours_Write; [apply gives_up_Finish|].
    intros [|]; [|apply honours_Finish].
    apply honours_Write; [apply gives_up_Finish|].
    intros [|]; apply honours_Finish. }
  split; [exact Hd|]. split; [exact Hengine|].
  destruct (one_shot_write_protocol ext false 0 p tt Hd Hengine)
    as (_ & Harmed & _ & Hunarmed & _).
  split.
  - destruct (Harmed (frame_of si 2 0) [[5; -5]] (FLACParser.armed p)
                eq_refl) as (_ & _ & _ & Hcaptured & _).
    apply Hcaptured; [vm_compute; lia|reflexivity].
  - apply Hunarmed. vm_compute. reflexivity.
Defined.

(** C6, witness: a frame that keeps the promises of the stream parameters
    is returned. *)
Lemma frame_validation_witness :
  let si := stream_info 44100 1 16 1000 4096 in
  let ext := player si [[5; -5]] 2 in
  let p := FLACSource.mParser (the_track ext 10001 (memory_source [])) in
  let after := (FLACParser.readBuffer ext false 0 p).2 in
  FLACParser.mDecoder p = Some tt
  /\ FLACParser.mStreamInfoValid p = true
  /\ 0 <= FrameHeader.blocksize (FLACParser.mWriteHeader after)
  /\ (exists buffer,
        (FLACParser.readBuffer ext false 0 p).1 = Returns (Some buffer))
  /\ FLACParser.mWriteCompleted after = true
  /\ 0 < FrameHeader.blocksize (FLACParser.mWriteHeader after) <= 4096.
Proof.
  intros si ext p after.
  assert (FLACParser.mDecoder p = Some tt) as Hd by (vm_compute; reflexivity).
  assert (FLACParser.mStreamInfoValid p = true) as Hvalid
    by (vm_compute; reflexivity).
  assert (0 <= FrameHeader.blocksize (FLACParser.mWriteHeader after))
    as Htyped by (vm_compute; discriminate).
  assert (exists buffer,
             (FLACParser.readBuffer ext false 0 p).1
             = Returns (Some buffer)) as [buffer Hbuffer]
    by (eexists; vm_compute; reflexivity).
  split; [exact Hd|]. split; [exact Hvalid|]. split; [exact Htyped|].
  split; [by exists buffer|].
  destruct (proj1 (frame_validation ext false 0 p tt Hd Hvalid Htyped)
              buffer Hbuffer) as (Hc & Hb & _).
  split; [exact Hc|exact Hb].
Defined.

(** C8, witness: a 24-bit stream opened by the media uid. *)
Lemma float_output_policy_witness :
  let si := stream_info 44100 1 24 1000 4096 in
  let ext := player si [[5; -5]] 2 in
  let ds := memory_source [] in
  exists track,
    FLACExtractor.getTrack ext AID_MEDIA 0 (FLACExtractor.new ext ds)
    = Some track
    /\ FLACSource.mOutputFloat track = true.
Proof.
  intros si ext ds. eexists.
  assert (FLACExtractor.getTrack ext AID_MEDIA 0 (FLACExtractor.new ext ds)
          = Some _) as Htrack by (vm_compute; reflexivity).
  split; [exact Htrack|].
  apply (proj1 (float_output_policy ext ds AID_MEDIA _ ∅ Htrack)).
  split; vm_compute; reflexivity.
Defined.

(** C10, witness: a read that returns a buffer. *)
Lemma read_outcomes_witness :
  let si := stream_info 44100 1 16 1000 4096 in
  let ext := player si [[5; -5]] 2 in
  let s := the_track ext 10001 (memory_source []) in
  FLACParser.mDecoder (FLACSource.mParser s) = Some tt
  /\ exists buffer,
      (FLACSource.read ext None s).1 = Returns (Some buffer, AMEDIA_OK).
Proof.
  intros si ext s.
  assert (FLACParser.mDecoder (FLACSource.mParser s) = Some tt) as Hd
    by (vm_compute; reflexivity).
  split; [exact Hd|].
  assert (exists buffer status,
             (FLACSource.read ext None s).1 = Returns (buffer, status))
    as (buffer & status & Hres) by (do 2 eexists; vm_compute; reflexivity).
  destruct (proj1 (read_outcomes ext None s tt Hd) buffer status Hres)
    as [[[b ->] ->]|[-> ->]].
  - by exists b.
  - exfalso. vm_compute in Hres. discriminate Hres.
Defined.

(** The three streams named in C3: nine channels, twelve bits, 3000 Hz.
    Each is rejected and no track is reported. *)
Example unsupported_streams_have_no_track :
  let tracks si :=
    FLACExtractor.countTracks
      (FLACExtractor.new (silent [FLAC__METADATA_TYPE_STREAMINFO si] true)
         (memory_source [])) in
  tracks (stream_info 44100 9 16 1000 4096) = 0
  /\ tracks (stream_info 44100 2 12 1000 4096) = 0
  /\ tracks (stream_info 3000 2 16 1000 4096) = 0
  /\ tracks (stream_info 44100 2 16 1000 4096) = 1.
Proof. intros tracks. repeat split. Qed.

(** * Further properties of the code *)

Lemma uint64_int64 x : 0 <= x < 2 ^ 64 -> uint64 (int64 x) = x.
Proof.
  intros Hx. unfold uint64, int64, wrap_unsigned, wrap_signed.
  rewrite Zminus_mod_idemp_l.
  replace (x + 2 ^ (64 - 1) - 2 ^ (64 - 1)) with x by lia.
  apply Z.mod_small. lia.
Qed.

(** ** Byte access *)

Section CursorProperties.
Context {E float32 : Type} (ext : Externals E float32).

Import FLACParser.

Abbreviation parser := (FLACParser.t (E := E)).

(** X1.  Seek and tell are a round trip over the whole range of byte
    offsets: after the seek callback was given an offset, the tell callback
    reports that offset, and the end-of-stream flag is clear. *)
Theorem seek_then_tell offset (p : parser) :
  0 <= offset < 2 ^ 64 ->
  let q := (seekCallback offset p).2 in
  (seekCallback offset p).1 = FLAC__STREAM_DECODER_SEEK_STATUS_OK
  /\ tellCallback q = (FLAC__STREAM_DECODER_TELL_STATUS_OK, offset)
  /\ eofCallback q = false.
Proof.
  intros Hoffset q. subst q. unfold seekCallback, tellCallback, eofCallback.
  cbn [fst snd mCurrentPos mEOF set_mCurrentPos set_mEOF].
  by rewrite uint64_int64.
Qed.

(** X2.  The end-of-stream flag after a drive step is decided by the answers
    given during the step alone: a read of zero bytes sets it, a seek clears
    it, and no other callback touches it. *)
Theorem eof_follows_answers d (p : parser) :
  eofCallback (run ext d p).2 = eof_after (trace ext d p) (mEOF p).
Proof.
  unfold eofCallback, eof_after. revert p.
  induction d as [ok e|requested k IH|offset k IH|k IH|k IH|k IH
                 |frame buffer k IH|metadata k IH|status k IH];
    intros p; cbn [run trace].
  - done.
  - unfold readCallback.
    destruct (readAt (mDataSource p) (mCurrentPos p) requested)
      as [actual buf].
    destruct (0 >? actual); [by rewrite IH|].
    destruct (0 =? actual); by rewrite IH.
  - cbn [seekCallback]. by rewrite IH.
  - destruct (tellCallback p) as [status offset]. by rewrite IH.
  - destruct (lengthCallback p) as [status len]. by rewrite IH.
  - by rewrite IH.
  - unfold writeCallback. destruct (mWriteRequested p); by rewrite IH.
  - rewrite IH. cbn [fold_left]. f_equal.
    destruct (metadataCallback_cases ext metadata p)
      as [(si & _ & _ & ->)|[m ->]]; done.
  - by rewrite IH.
Qed.

End CursorProperties.

(** X1, witness: an offset above [2^63]. *)
Lemma seek_then_tell_witness :
  let p :=
    FLACParser.fresh (E := unit) (memory_source []) false None None in
  0 <= 2 ^ 63 + 5 < 2 ^ 64
  /\ FLACParser.tellCallback (FLACParser.seekCallback (2 ^ 63 + 5) p).2
     = (FLAC__STREAM_DECODER_TELL_STATUS_OK, 2 ^ 63 + 5).
Proof.
  intros p.
  assert (0 <= 2 ^ 63 + 5 < 2 ^ 64) as Hoffset by (split; vm_compute; congruence).
  split; [exact Hoffset|].
  exact (proj1 (proj2 (seek_then_tell (2 ^ 63 + 5) p Hoffset))).
Defined.

(** ** One frame per decode call *)

Section PushProperties.
Context {E float32 : Type} (ext : Externals E float32).

Import FLACParser.

Abbreviation parser := (FLACParser.t (E := E)).

(** A drive step entered with the flag clear refuses every push and leaves
    the capture slot alone. *)
Lemma unarmed_run d (p : parser) :
  mWriteRequested p = false ->
  let q := (run ext d p).2 in
  mWriteRequested q = false
  /\ mWriteCompleted q = mWriteCompleted p
  /\ mWriteHeader q = mWriteHeader p
  /\ mWriteBuffer q = mWriteBuffer p
  /\ existsb accepted_push (trace ext d p) = false.
Proof.
  revert p.
  induction d as [ok e|requested k IH|offset k IH|k IH|k IH|k IH
                 |frame buffer k IH|metadata k IH|status k IH];
    intros p Hclear; cbn [run trace].
  - done.
  - pose proof (readCallback_cases requested p) as Hcases.
    destruct (readCallback requested p) as [[[status bytes] buffer] p'].
    cbn [snd] in Hcases.
    assert (existsb accepted_push
              (ReadResult status :: trace ext (k status bytes buffer) p')
            = existsb accepted_push (trace ext (k status bytes buffer) p'))
      as -> by (by destruct status).
    destruct (IH status bytes buffer p') as (H1 & H2 & H3 & H4 & H5).
    { by destruct Hcases as [->|[->|[pos ->]]]. }
    destruct Hcases as [->|[->|[pos ->]]]; done.
  - cbn [seekCallback existsb accepted_push orb].
    by destruct (IH FLAC__STREAM_DECODER_SEEK_STATUS_OK
                   (set_mEOF false (set_mCurrentPos (int64 offset) p))
                   Hclear) as (? & ? & ? & ? & ?).
  - destruct (tellCallback p) as [status offset].
    cbn [existsb accepted_push orb]. by apply IH.
  - destruct (lengthCallback p) as [status len].
    cbn [existsb accepted_push orb]. by apply IH.
  - cbn [existsb accepted_push orb]. by apply IH.
  - unfold writeCallback. rewrite Hclear.
    cbn [existsb accepted_push orb]. by apply IH.
  - cbn [existsb accepted_push orb].
    destruct (IH (metadataCallback ext metadata p)) as (H1 & H2 & H3 & H4 & H5).
    { destruct (metadataCallback_cases ext metadata p)
        as [(si & _ & _ & ->)|[m ->]]; done. }
    destruct (metadataCallback_cases ext metadata p)
      as [(si & _ & _ & Hq)|[m Hq]]; rewrite Hq in H1, H2, H3, H4, H5 |- *;
      repeat split; assumption.
  - cbn [existsb accepted_push orb].
    by destruct (IH (errorCallback status p) Hclear) as (? & ? & ? & ? & ?).
Qed.

(** X3.  A drive step that is entered with the one-shot flag clear, as the
    metadata phase of the constructor is, accepts no push and captures
    nothing: the flag stays clear and the completed flag, the captured
    header and the captured planes are as before. *)
Theorem unarmed_step_captures_nothing d (p : parser) :
  mWriteRequested p = false ->
  let q := (run ext d p).2 in
  existsb accepted_push (trace ext d p) = false
  /\ mWriteRequested q = false
  /\ mWriteCompleted q = mWriteCompleted p
  /\ mWriteHeader q = mWriteHeader p
  /\ mWriteBuffer q = mWriteBuffer p.
Proof.
  intros Hclear q. destruct (unarmed_run d p Hclear) as (? & ? & ? & ? & ?).
  done.
Qed.

Lemma no_accepted_push (answers : list callback_result) :
  existsb accepted_push answers = false ->
  filter (fun r => accepted_push r = true) answers = [].
Proof.
  induction answers as [|r answers IH]; [done|]. cbn [existsb].
  intros H. apply orb_false_iff in H as [Hr Hrest].
  rewrite filter_cons_False by (by rewrite Hr). by apply IH.
Qed.

(** From an armed parser: the first push is captured, and it is the only
    push accepted. *)
Lemma armed_run d (p : parser) :
  mWriteRequested p = true ->
  mWriteCompleted p = false ->
  let q := (run ext d p).2 in
  let answers := trace ext d p in
  match first_push answers with
  | Some frame =>
      mWriteRequested q = false /\ mWriteCompleted q = true
      /\ mWriteHeader q = header frame
      /\ length (filter (fun r => accepted_push r = true) answers) = 1%nat
  | None =>
      mWriteRequested q = true /\ mWriteCompleted q = false
      /\ mWriteHeader q = mWriteHeader p
      /\ mWriteBuffer q = mWriteBuffer p
      /\ length (filter (fun r => accepted_push r = true) answers) = 0%nat
  end.
Proof.
  revert p.
  induction d as [ok e|requested k IH|offset k IH|k IH|k IH|k IH
                 |frame buffer k IH|metadata k IH|status k IH];
    intros p Harmed Hnone; cbn [run trace].
  - done.
  - pose proof (readCallback_cases requested p) as Hcases.
    destruct (readCallback requested p) as [[[status bytes] buffer] p'].
    cbn [snd] in Hcases. cbn [first_push].
    rewrite filter_cons_False by (by destruct status).
    specialize (IH status bytes buffer p').
    destruct Hcases as [->|[->|[pos ->]]]; by apply IH.
  - cbn [seekCallback first_push]. rewrite filter_cons_False by done.
    by apply (IH _ (set_mEOF false (set_mCurrentPos _ p))).
  - destruct (tellCallback p) as [status offset]. cbn [first_push].
    rewrite filter_cons_False by done. by apply IH.
  - destruct (lengthCallback p) as [status len]. cbn [first_push].
    rewrite filter_cons_False by done. by apply IH.
  - cbn [first_push]. rewrite filter_cons_False by done. by apply IH.
  - unfold writeCallback. rewrite Harmed. cbn [first_push].
    rewrite filter_cons_True by done.
    match goal with
    | |- context [run ext ?t ?p'] =>
        destruct (unarmed_run t p' eq_refl) as (H1 & H2 & H3 & _ & H5)
    end.
    repeat split; try done. by rewrite (no_accepted_push _ H5).
  - cbn [first_push]. rewrite filter_cons_False by done.
    specialize (IH (metadataCallback ext metadata p)).
    destruct (metadataCallback_cases ext metadata p)
      as [(si & _ & _ & Hq)|[m Hq]]; rewrite Hq in IH |- *; by apply IH.
  - cbn [first_push]. rewrite filter_cons_False by done.
    by apply (IH (errorCallback status p)).
Qed.

(** The state [readBuffer] leaves is the one its drive step leaves. *)
Lemma readBuffer_state doSeek sample (p : parser) :
  (readBuffer ext doSeek sample p).2 = (drive ext doSeek sample p).2.
Proof.
  unfold readBuffer. destruct (drive ext doSeek sample p) as [[ok|] q];
    [|done].
  cbn [snd].
  repeat match goal with
         | |- context [if ?b then _ else _] => destruct b
         end; done.
Qed.

(** X4.  In one decode call the frame captured is the frame of the first
    push of the drive step, and no other push of that step is accepted;
    without a push the capture slot keeps its header and the completed flag
    stays clear. *)
Theorem first_push_is_captured doSeek sample (p : parser) d :
  mDecoder p = Some d ->
  let after := (readBuffer ext doSeek sample p).2 in
  let answers := trace ext (drive_tree ext doSeek sample d) (armed p) in
  (length (filter (fun r => accepted_push r = true) answers) <= 1)%nat
  /\ match first_push answers with
     | Some frame =>
         mWriteCompleted after = true /\ mWriteHeader after = header frame
     | None =>
         mWriteCompleted after = false
         /\ mWriteHeader after = mWriteHeader p
     end.
Proof.
  intros Hd after answers. subst after.
  rewrite readBuffer_state, (drive_run ext doSeek sample p d Hd). cbn [snd].
  change (mWriteCompleted (set_mDecoder ?e ?q)) with (mWriteCompleted q).
  change (mWriteHeader (set_mDecoder ?e ?q)) with (mWriteHeader q).
  pose proof (armed_run (drive_tree ext doSeek sample d) (armed p)
                eq_refl eq_refl) as Hrun.
  cbn zeta in Hrun. fold answers in Hrun.
  destruct (first_push answers) as [frame|].
  - destruct Hrun as (_ & Hc & Hh & Hn). rewrite Hn. done.
  - destruct Hrun as (_ & Hc & Hh & _ & Hn). rewrite Hn. split; [lia|done].
Qed.

(** What a decode call leaves alone. *)
Lemma readBuffer_keeps doSeek sample (p : parser) :
  let after := (readBuffer ext doSeek sample p).2 in
  mOutputFloat after = mOutputFloat p
  /\ mGroup after = mGroup p
  /\ mMaxBufferSize after = mMaxBufferSize p
  /\ (mStreamInfoValid p = true ->
      mStreamInfoValid after = true /\ mStreamInfo after = mStreamInfo p).
Proof.
  intros after. subst after. rewrite readBuffer_state. unfold drive.
  change (mDecoder (set_mWriteCompleted false (set_mWriteRequested true p)))
    with (mDecoder p).
  destruct (mDecoder p) as [d|]; [|done].
  match goal with
  | |- context [run ext ?t ?q] =>
      pose proof (run_keeps_mode ext t q) as (H1 & _ & H3 & H4 & _);
      pose proof (run_keeps_stream_info ext t q) as Hsi;
      destruct (run ext t q) as [[ok e] q']
  end.
  cbn [fst snd] in *. repeat split; try done; by apply Hsi.
Qed.

(** X5.  Reading never changes what the track is: over any series of
    reads, with or without seek requests, the stream parameters installed
    by the initialisation, the output mode, the buffer group and its size
    and the started flag stay as they were, and [getFormat] keeps giving
    the same answer. *)
Theorem reads_keep_the_track requests (s : FLACSource.t (E := E)) meta :
  mStreamInfoValid (FLACSource.mParser s) = true ->
  let s' := after_reads ext requests s in
  mStreamInfo (FLACSource.mParser s') = mStreamInfo (FLACSource.mParser s)
  /\ mStreamInfoValid (FLACSource.mParser s') = true
  /\ mOutputFloat (FLACSource.mParser s')
     = mOutputFloat (FLACSource.mParser s)
  /\ mGroup (FLACSource.mParser s') = mGroup (FLACSource.mParser s)
  /\ mMaxBufferSize (FLACSource.mParser s')
     = mMaxBufferSize (FLACSource.mParser s)
  /\ FLACSource.mStarted s' = FLACSource.mStarted s
  /\ FLACSource.getFormat meta s' = FLACSource.getFormat meta s.
Proof.
  unfold after_reads. revert s.
  induction requests as [|options requests IH]; intros s Hvalid; [done|].
  cbn [fold_left].
  pose proof (read_request ext options s) as Hread. cbn zeta in Hread.
  rewrite Hread. cbn [snd].
  match goal with
  | |- context [readBuffer ext ?b ?n (FLACSource.mParser s)] =>
      pose proof (readBuffer_keeps b n (FLACSource.mParser s))
        as (H1 & H2 & H3 & H4);
      set (q := (readBuffer ext b n (FLACSource.mParser s)).2) in *
  end.
  destruct (H4 Hvalid) as [Hv Hsi].
  destruct (IH (FLACSource.set_mParser q s)) as (I1 & I2 & I3 & I4 & I5 & I6 & I7);
    [exact Hv|].
  cbn [FLACSource.set_mParser FLACSource.mParser] in I1, I3, I4, I5.
  repeat split; try congruence; try done.
Qed.

(** The recorded error status is written and never read: a drive step runs
    alike whatever it holds. *)
Lemma metadataCallback_error metadata status (p : parser) :
  metadataCallback ext metadata (set_mErrorStatus status p)
  = set_mErrorStatus status (metadataCallback ext metadata p).
Proof.
  destruct metadata as [si|comments|data len|type]; cbn [metadataCallback].
  - change (mStreamInfoValid (set_mErrorStatus status p))
      with (mStreamInfoValid p).
    by destruct (mStreamInfoValid p).
  - revert p. induction comments as [|vce comments IH]; intros p; [done|].
    cbn [fold_left].
    change (mFileMetadata (set_mErrorStatus status p))
      with (mFileMetadata p).
    destruct (mFileMetadata p) as [m|];
      [destruct (VorbisComment_Entry.entry vce) as [e|]|]; try apply IH.
    rewrite <- IH. done.
  - change (mFileMetadata (set_mErrorStatus status p))
      with (mFileMetadata p).
    by destruct (mFileMetadata p).
  - done.
Qed.

Lemma run_error d status (p : parser) :
  exists status',
    run ext d (set_mErrorStatus status p)
    = ((run ext d p).1, set_mErrorStatus status' (run ext d p).2)
    /\ trace ext d (set_mErrorStatus status p) = trace ext d p.
Proof.
  revert p status.
  induction d as [ok e|requested k IH|offset k IH|k IH|k IH|k IH
                 |frame buffer k IH|metadata k IH|status0 k IH];
    intros p status; cbn [run trace].
  - by exists status.
  - unfold readCallback.
    change (mDataSource (set_mErrorStatus status p)) with (mDataSource p).
    change (mCurrentPos (set_mErrorStatus status p)) with (mCurrentPos p).
    destruct (readAt (mDataSource p) (mCurrentPos p) requested)
      as [actual buf].
    destruct (0 >? actual).
    { destruct (IH FLAC__STREAM_DECODER_READ_STATUS_ABORT 0 [] p status)
        as (s' & -> & ->). by exists s'. }
    destruct (0 =? actual).
    + destruct (IH FLAC__STREAM_DECODER_READ_STATUS_END_OF_STREAM 0 []
                  (set_mEOF true p) status) as (s' & Hrun & Htrace).
      exists s'. split; [exact Hrun|]. f_equal; exact Htrace.
    + destruct (IH FLAC__STREAM_DECODER_READ_STATUS_CONTINUE actual buf
                  (set_mCurrentPos (int64 (mCurrentPos p + actual)) p)
                  status) as (s' & Hrun & Htrace).
      exists s'. split; [exact Hrun|]. f_equal; exact Htrace.
  - cbn [seekCallback].
    destruct (IH FLAC__STREAM_DECODER_SEEK_STATUS_OK
                (set_mEOF false (set_mCurrentPos (int64 offset) p)) status)
      as (s' & Hrun & Htrace).
    exists s'. split; [exact Hrun|]. f_equal; exact Htrace.
  - unfold tellCallback.
    change (mCurrentPos (set_mErrorStatus status p)) with (mCurrentPos p).
    destruct (IH FLAC__STREAM_DECODER_TELL_STATUS_OK
                (uint64 (mCurrentPos p)) p status) as (s' & -> & ->).
    by exists s'.
  - unfold lengthCallback.
    change (mDataSource (set_mErrorStatus status p)) with (mDataSource p).
    destruct (getSize (mDataSource p)) as [size|].
    + destruct (IH FLAC__STREAM_DECODER_LENGTH_STATUS_OK
                  (Some (uint64 size)) p status) as (s' & -> & ->).
      by exists s'.
    + destruct (IH FLAC__STREAM_DECODER_LENGTH_STATUS_UNSUPPORTED None
                  p status) as (s' & -> & ->).
      by exists s'.
  - change (eofCallback (set_mErrorStatus status p)) with (eofCallback p).
    destruct (IH (eofCallback p) p status) as (s' & -> & ->). by exists s'.
  - unfold writeCallback.
    change (mWriteRequested (set_mErrorStatus status p))
      with (mWriteRequested p).
    destruct (mWriteRequested p).
    + match goal with
      | |- context [run ext ?t ?q] =>
          match q with
          | context [set_mErrorStatus status p] =>
              match goal with
              | |- context [(run ext t ?q0).1] =>
                  destruct (IH FLAC__STREAM_DECODER_WRITE_STATUS_CONTINUE
                              q0 status) as (s' & Hrun & Htrace)
              end
          end
      end.
      exists s'. split; [exact Hrun|]. f_equal; exact Htrace.
    + destruct (IH FLAC__STREAM_DECODER_WRITE_STATUS_ABORT p status)
        as (s' & -> & ->). by exists s'.
  - rewrite metadataCallback_error.
    destruct (IH (metadataCallback ext metadata p) status)
      as (s' & -> & ->). by exists s'.
  - destruct (IH (errorCallback status0 p) status0) as (s' & Hrun & Htrace).
    exists s'. split; [exact Hrun|]. f_equal; exact Htrace.
Qed.

(** X6.  An error reported by the engine is recorded and has no other
    effect: whatever status the error callback stored before a decode call,
    the engine is given the same answers during the call and the call has
    the same result. *)
Theorem error_status_is_not_read doSeek sample status (p : parser) d :
  mDecoder p = Some d ->
  errorCallback status p = set_mErrorStatus status p
  /\ trace ext (drive_tree ext doSeek sample d) (armed (errorCallback status p))
     = trace ext (drive_tree ext doSeek sample d) (armed p)
  /\ (readBuffer ext doSeek sample (errorCallback status p)).1
     = (readBuffer ext doSeek sample p).1.
Proof.
  intros Hd. split; [done|]. unfold errorCallback.
  destruct (run_error (drive_tree ext doSeek sample d) status (armed p))
    as (s' & Hrun & Htrace).
  split; [exact Htrace|].
  unfold readBuffer, drive.
  change (mDecoder (set_mWriteCompleted false
                      (set_mWriteRequested true
                         (set_mErrorStatus status p))))
    with (mDecoder p).
  change (mDecoder (set_mWriteCompleted false (set_mWriteRequested true p)))
    with (mDecoder p).
  rewrite Hd.
  change (set_mWriteCompleted false
            (set_mWriteRequested true (set_mErrorStatus status p)))
    with (set_mErrorStatus status (armed p)).
  change (set_mWriteCompleted false (set_mWriteRequested true p))
    with (armed p).
  fold (drive_tree ext doSeek sample d). rewrite Hrun.
  destruct (run ext (drive_tree ext doSeek sample d) (armed p))
    as [[ok e] q].
  cbn [fst snd]. destruct ok; cbn [negb]; [|done].
  change (mWriteCompleted (set_mDecoder (Some e) (set_mErrorStatus s' q)))
    with (mWriteCompleted (set_mDecoder (Some e) q)).
  destruct (mWriteCompleted (set_mDecoder (Some e) q)); cbn [negb]; [|done].
  change (invalid_blocksize (set_mDecoder (Some e) (set_mErrorStatus s' q)))
    with (invalid_blocksize (set_mDecoder (Some e) q)).
  destruct (invalid_blocksize (set_mDecoder (Some e) q)); [done|].
  change (changed_parameters
            (set_mDecoder (Some e) (set_mErrorStatus s' q)))
    with (changed_parameters (set_mDecoder (Some e) q)).
  destruct (changed_parameters (set_mDecoder (Some e) q)); [done|].
  done.
Qed.

End PushProperties.

(** ** The copy loops *)

Lemma copy_loop_length {A} (conv : Z -> option A) src nSamples nChannels out :
  copy_loop conv src nSamples nChannels = Some out ->
  length out = (Z.to_nat nSamples * Z.to_nat nChannels)%nat.
Proof.
  unfold copy_loop. intros Hcopy.
  apply fmap_Some in Hcopy as (rows & Hrows & ->).
  apply mapM_Some_1 in Hrows.
  assert (Forall (fun row : list A => length row = Z.to_nat nChannels) rows)
    as Hlen.
  { apply Forall_forall. intros row Hrow.
    apply list_elem_of_lookup in Hrow as [j Hj].
    destruct (Forall2_lookup_r _ _ _ _ _ Hrows Hj) as (j' & _ & Hrow).
    apply mapM_Some_1, Forall2_length in Hrow.
    by rewrite length_seq in Hrow. }
  apply Forall2_length in Hrows. rewrite length_seq in Hrows.
  rewrite length_join, (sum_list_fmap_same (Z.to_nat nChannels)) by done.
  by rewrite <- Hrows.
Qed.

Lemma shiftl_16_exact bits v :
  bits = 8 \/ bits = 16 ->
  - 2 ^ (bits - 1) <= v < 2 ^ (bits - 1) ->
  int16 (Z.shiftl v (16 - bits)) = v * 2 ^ (16 - bits).
Proof.
  intros [->| ->] Hv; rewrite Z.shiftl_mul_pow2 by lia;
    apply int16_small; lia.
Qed.

Lemma shiftl_32_exact bits v :
  bits ∈ supported_bit_depths ->
  - 2 ^ (bits - 1) <= v < 2 ^ (bits - 1) ->
  int32 (Z.shiftl v (32 - bits)) = v * 2 ^ (32 - bits).
Proof.
  unfold supported_bit_depths. rewrite !elem_of_cons, elem_of_nil.
  intros [->|[->|[->|[]]]] Hv; rewrite Z.shiftl_mul_pow2 by lia;
    apply int32_small; lia.
Qed.

(** X7.  The copy loops interleave by time, channel-minor: when they have a
    result it holds [nSamples * nChannels] samples, and the sample at index
    [i * nChannels + c] is the conversion of sample [i] of plane [c], which
    therefore exists.  (16-bit path for sources of 8 or 16 bits, float path
    for the three supported depths.) *)
Theorem copy_loops_interleave {float32 : Type}
    (float_from_i32 : Z -> float32) src nSamples nChannels bits :
  (bits = 8 \/ bits = 16 ->
   forall out,
     copyTo16Signed src nSamples nChannels bits = Some out ->
     length out = (Z.to_nat nSamples * Z.to_nat nChannels)%nat
     /\ forall i c : nat,
         (i < Z.to_nat nSamples)%nat -> (c < Z.to_nat nChannels)%nat ->
         exists v,
           src !! c ≫= (.!! i) = Some v
           /\ out !! (i * Z.to_nat nChannels + c)%nat
              = Some (int16 (Z.shiftl v (16 - bits))))
  /\ (bits ∈ supported_bit_depths ->
      forall out,
        copyToFloat float_from_i32 src nSamples nChannels bits = Some out ->
        length out = (Z.to_nat nSamples * Z.to_nat nChannels)%nat
        /\ forall i c : nat,
            (i < Z.to_nat nSamples)%nat -> (c < Z.to_nat nChannels)%nat ->
            exists v,
              src !! c ≫= (.!! i) = Some v
              /\ out !! (i * Z.to_nat nChannels + c)%nat
                 = Some (float_from_i32 (int32 (Z.shiftl v (32 - bits))))).
Proof.
  split; intros Hbits out Hcopy;
    (split; [by apply copy_loop_length in Hcopy|]); intros i c Hi Hc.
  - destruct (copyTo16Signed_lookup _ _ _ _ _ i c Hbits Hcopy Hi Hc)
      as (p & v & Hp & Hv & Hout).
    exists v. rewrite Hp. by split.
  - destruct (copyToFloat_lookup float_from_i32 _ _ _ _ _ i c Hbits Hcopy
                Hi Hc) as (p & v & Hp & Hv & Hout).
    exists v. rewrite Hp. by split.
Qed.

(** X8.  Samples that fit the declared bit depth are converted without
    loss: on the 16-bit path a sample [v] of a source of 8 or 16 bits
    becomes [v * 2^(16 - bits)], and on the float path the integer handed
    to the scaling is [v * 2^(32 - bits)] for each supported depth; nothing
    wraps. *)
Theorem in_range_samples_scale_exactly {float32 : Type}
    (float_from_i32 : Z -> float32) src nSamples nChannels bits
    (i c : nat) p v :
  (i < Z.to_nat nSamples)%nat -> (c < Z.to_nat nChannels)%nat ->
  src !! c = Some p -> p !! i = Some v ->
  - 2 ^ (bits - 1) <= v < 2 ^ (bits - 1) ->
  (bits = 8 \/ bits = 16 ->
   forall out,
     copyTo16Signed src nSamples nChannels bits = Some out ->
     out !! (i * Z.to_nat nChannels + c)%nat = Some (v * 2 ^ (16 - bits)))
  /\ (bits ∈ supported_bit_depths ->
      forall out,
        copyToFloat float_from_i32 src nSamples nChannels bits = Some out ->
        out !! (i * Z.to_nat nChannels + c)%nat
        = Some (float_from_i32 (v * 2 ^ (32 - bits)))).
Proof.
  intros Hi Hc Hp Hv Hrange. split; intros Hbits out Hcopy.
  - destruct (copyTo16Signed_lookup _ _ _ _ _ i c Hbits Hcopy Hi Hc)
      as (p' & v' & Hp' & Hv' & Hout).
    rewrite Hp in Hp'. injection Hp' as <-. rewrite Hv in Hv'.
    injection Hv' as <-. by rewrite Hout, shiftl_16_exact.
  - destruct (copyToFloat_lookup float_from_i32 _ _ _ _ _ i c Hbits Hcopy
                Hi Hc) as (p' & v' & Hp' & Hv' & Hout).
    rewrite Hp in Hp'. injection Hp' as <-. rewrite Hv in Hv'.
    injection Hv' as <-. by rewrite Hout, shiftl_32_exact.
Qed.

(** ** Returned buffers *)

Section BufferProperties.
Context {E float32 : Type} (ext : Externals E float32).

Import FLACParser.

Abbreviation parser := (FLACParser.t (E := E)).

(** Everything [readBuffer] did when it hands out a buffer. *)
Lemma fill_buffer_inv (q : parser) buffer :
  fill_buffer ext q = Returns (Some buffer) ->
  let blocksize := FrameHeader.blocksize (mWriteHeader q) in
  range_length buffer
  = size_t (uint32 (blocksize * getChannels q) * getOutputSampleSize q)
  /\ range_length buffer <= mMaxBufferSize q
  /\ getSampleRate q <> 0
  /\ kKeyTime buffer
     = int64 (uint64 (1000000 * FrameHeader.number (mWriteHeader q))
              / getSampleRate q)
  /\ kKeyIsSyncFrame buffer = 1
  /\ (exists group, mGroup q = Some group /\ acquire_buffer group = OK)
  /\ (if mOutputFloat q
      then exists out,
          copyToFloat (float_from_i32 ext) (mWriteBuffer q) blocksize
            (getChannels q) (getBitsPerSample q) = Some out
          /\ buffer_data buffer = PcmFloat out
      else exists out,
          copyTo16Signed (mWriteBuffer q) blocksize
            (getChannels q) (getBitsPerSample q) = Some out
          /\ buffer_data buffer = Pcm16 out).
Proof.
  intros Hfill. cbn zeta. unfold fill_buffer in Hfill.
  destruct (mGroup q) as [group|]; [|discriminate Hfill].
  destruct (acquire_buffer group =? OK) eqn:Hacquire; cbn [negb] in Hfill;
    [|discriminate Hfill].
  apply Z.eqb_eq in Hacquire.
  destruct (_ <=? mMaxBufferSize q) eqn:Hle; cbn [CHECK] in Hfill;
    [|discriminate Hfill].
  apply Z.leb_le in Hle.
  destruct (mOutputFloat q).
  - destruct (copyToFloat _ _ _ _ _) as [out|];
      cbn [fmap option_fmap option_map defined obind] in Hfill;
      [|discriminate Hfill].
    destruct (FrameHeader.number_type (mWriteHeader q));
      cbn [CHECK] in Hfill; [discriminate Hfill|].
    destruct (getSampleRate q =? 0) eqn:Hrate; [discriminate Hfill|].
    apply Z.eqb_neq in Hrate. injection Hfill as <-. cbn.
    repeat split; try done; by eexists.
  - destruct (copyTo16Signed _ _ _ _) as [out|];
      cbn [fmap option_fmap option_map defined obind] in Hfill;
      [|discriminate Hfill].
    destruct (FrameHeader.number_type (mWriteHeader q));
      cbn [CHECK] in Hfill; [discriminate Hfill|].
    destruct (getSampleRate q =? 0) eqn:Hrate; [discriminate Hfill|].
    apply Z.eqb_neq in Hrate. injection Hfill as <-. cbn.
    repeat split; try done; by eexists.
Qed.

(** A buffer comes out of [readBuffer] through [fill_buffer] only, after
    the validation. *)
Lemma readBuffer_buffer doSeek sample (p : parser) buffer :
  (readBuffer ext doSeek sample p).1 = Returns (Some buffer) ->
  let after := (readBuffer ext doSeek sample p).2 in
  fill_buffer ext after = Returns (Some buffer)
  /\ mWriteCompleted after = true
  /\ invalid_blocksize after = false
  /\ changed_parameters after = false.
Proof.
  intros Hres after. subst after. rewrite readBuffer_state.
  unfold readBuffer in Hres.
  destruct (drive ext doSeek sample p) as [[ok|] q]; cbn [fst snd] in *;
    [|discriminate Hres].
  destruct ok; cbn [negb] in Hres; [|discriminate Hres].
  destruct (mWriteCompleted q); cbn [negb] in Hres; [|discriminate Hres].
  destruct (invalid_blocksize q); [discriminate Hres|].
  destruct (changed_parameters q); [discriminate Hres|]. done.
Qed.

(** X9.  Every buffer a decode call returns is marked as a sync frame, is
    stamped with [1_000_000 * sampleNumber / sampleRate] (formed in 64
    unsigned bits) for the sample number of the captured frame, holds
    16-bit samples in 16-bit mode and float samples in float mode, and
    holds block size times channel count of them. *)
Theorem returned_buffer_shape doSeek sample (p : parser) buffer :
  (readBuffer ext doSeek sample p).1 = Returns (Some buffer) ->
  let after := (readBuffer ext doSeek sample p).2 in
  let frame := mWriteHeader after in
  kKeyIsSyncFrame buffer = 1
  /\ kKeyTime buffer
     = int64 (uint64 (1000000 * FrameHeader.number frame)
              / getSampleRate after)
  /\ pcm_width (buffer_data buffer) = getOutputSampleSize p
  /\ pcm_samples (buffer_data buffer)
     = (Z.to_nat (FrameHeader.blocksize frame)
        * Z.to_nat (getChannels after))%nat.
Proof.
  intros Hres after frame.
  destruct (readBuffer_buffer doSeek sample p buffer Hres) as (Hfill & _).
  fold after in Hfill.
  destruct (fill_buffer_inv after buffer Hfill)
    as (_ & _ & _ & Htime & Hsync & _ & Hdata).
  pose proof (readBuffer_keeps ext doSeek sample p) as (Hmode & _).
  fold after in Hmode.
  split; [exact Hsync|]. split; [exact Htime|].
  unfold getOutputSampleSize. rewrite <- Hmode.
  destruct (mOutputFloat after); destruct Hdata as (out & Hcopy & ->);
    (split; [done|]); cbn [pcm_samples];
    by apply copy_loop_length in Hcopy.
Qed.

(** X10.  The samples written fit the buffer.  For a parser whose group was
    allocated for the stream ([mMaxBufferSize] is the capacity) and whose
    stream parameters keep [max_blocksize * channels] below [2^32], as
    16-bit block sizes and at most eight channels do, the bytes of the
    samples of a returned buffer are exactly its logical length, and that
    is at most the capacity of the group's buffer. *)
Theorem returned_buffer_fits doSeek sample (p : parser) group buffer :
  mStreamInfoValid p = true ->
  mGroup p = Some group ->
  capacity group = mMaxBufferSize p ->
  0 <= StreamInfo.channels (mStreamInfo p) ->
  StreamInfo.max_blocksize (mStreamInfo p)
  * StreamInfo.channels (mStreamInfo p) < 2 ^ 32 ->
  0 <= FrameHeader.blocksize
         (mWriteHeader (readBuffer ext doSeek sample p).2) ->
  (readBuffer ext doSeek sample p).1 = Returns (Some buffer) ->
  Z.of_nat (pcm_samples (buffer_data buffer))
  * pcm_width (buffer_data buffer) = range_length buffer
  /\ range_length buffer <= capacity group.
Proof.
  intros Hvalid Hgroup Hcap Hch Hfit Htyped Hres.
  destruct (readBuffer_buffer doSeek sample p buffer Hres)
    as (Hfill & _ & Hbs & _).
  pose proof (readBuffer_keeps ext doSeek sample p)
    as (Hmode & _ & Hmax & Hsi).
  destruct (Hsi Hvalid) as [_ Hinfo].
  set (after := (readBuffer ext doSeek sample p).2) in *.
  destruct (fill_buffer_inv after buffer Hfill)
    as (Hlen & Hle & _ & _ & _ & _ & Hdata).
  unfold invalid_blocksize in Hbs. apply orb_false_iff in Hbs as [_ Hbs].
  rewrite Z.gtb_ltb, Z.ltb_ge in Hbs.
  unfold getChannels, getMaxBlockSize in *. rewrite Hinfo in *.
  set (blocksize := FrameHeader.blocksize (mWriteHeader after)) in *.
  set (channels := StreamInfo.channels (mStreamInfo p)) in *.
  assert (0 <= blocksize * channels < 2 ^ 32) as Hprod by nia.
  assert (Z.of_nat (pcm_samples (buffer_data buffer)) = blocksize * channels
          /\ pcm_width (buffer_data buffer) = getOutputSampleSize after)
    as [Hsamples Hwidth].
  { unfold getOutputSampleSize.
    destruct (mOutputFloat after); destruct Hdata as (out & Hcopy & ->);
      cbn [pcm_samples pcm_width]; apply copy_loop_length in Hcopy;
      rewrite Hcopy; split; try done; lia. }
  assert (1 <= getOutputSampleSize after <= 4) as Hw
    by (unfold getOutputSampleSize; destruct (mOutputFloat after); lia).
  rewrite Hlen in Hle |- *. split; [|by rewrite Hcap, <- Hmax].
  rewrite Hsamples, Hwidth. unfold size_t, uint32, wrap_unsigned.
  rewrite (Z.mod_small (blocksize * channels)) by lia.
  symmetry. apply Z.mod_small. nia.
Qed.

End BufferProperties.

(** ** Time stamps and seek targets *)

Section TimeProperties.
Context {E float32 : Type} (ext : Externals E float32).

Import FLACParser.

Abbreviation parser := (FLACParser.t (E := E)).

(** X11.  Seek targets are ordered like the requested times and stay inside
    the stream: for requests whose product with the sample rate fits in 64
    signed bits, an earlier time never asks for a later sample, and the
    sample asked for lies between 0 and the total sample count. *)
Theorem seek_targets_are_monotone t1 t2 (s : FLACSource.t (E := E)) :
  let rate := getSampleRate (FLACSource.mParser s) in
  let total := getTotalSamples (FLACSource.mParser s) in
  0 <= rate -> 0 <= total ->
  t1 <= t2 -> t2 * rate <= INT64_MAX ->
  0 <= FLACSource.seek_sample t1 s
  /\ FLACSource.seek_sample t1 s <= FLACSource.seek_sample t2 s
  /\ FLACSource.seek_sample t2 s <= total.
Proof.
  intros rate total Hrate Htotal Hle Hfit.
  destruct (seek_sample_in_range t1 s) as [Hneg1 Hpos1].
  destruct (seek_sample_in_range t2 s) as [Hneg2 Hpos2].
  fold rate total in Hpos1, Hpos2.
  assert (forall t, 0 < t -> t <= t2 ->
                    0 <= t * rate / 1000000
                    /\ t * rate / 1000000 <= t2 * rate / 1000000
                    /\ t * rate <= INT64_MAX) as Hdiv.
  { intros t Ht Htt. split; [apply Z.div_pos; nia|].
    split; [apply Z.div_le_mono; nia|nia]. }
  destruct (Z_le_gt_dec t1 0) as [H1|H1].
  - rewrite (Hneg1 H1). destruct (Z_le_gt_dec t2 0) as [H2|H2].
    + rewrite (Hneg2 H2). lia.
    + rewrite Hpos2 by lia. destruct (Hdiv t2) as (? & _); [lia..|].
      destruct (t2 * rate / 1000000 >=? total) eqn:Hc; cbv iota; [lia|].
      rewrite Z.geb_leb, Z.leb_gt in Hc. lia.
  - destruct (Hdiv t1) as (Ha & Hb & Hc); [lia..|].
    destruct (Hdiv t2) as (Ha' & _); [lia..|].
    rewrite Hpos1, Hpos2 by lia.
    destruct (t1 * rate / 1000000 >=? total) eqn:Hc1;
      destruct (t2 * rate / 1000000 >=? total) eqn:Hc2;
      cbv iota;
      rewrite ?Z.geb_leb, ?Z.leb_le, ?Z.leb_gt in Hc1, Hc2; lia.
Qed.

Lemma time_stamp_fits n rate :
  0 <= n -> 0 < rate -> 1000000 * n < 2 ^ 63 ->
  int64 (uint64 (1000000 * n) / rate) = 1000000 * n / rate
  /\ 0 <= 1000000 * n / rate <= 1000000 * n.
Proof.
  intros Hn Hrate Hfit. rewrite uint64_small by lia.
  assert (0 <= 1000000 * n / rate <= 1000000 * n) as Hq.
  { split; [apply Z.div_pos; lia|].
    apply Z.div_le_upper_bound; nia. }
  split; [|exact Hq]. apply int64_small. lia.
Qed.

(** X12.  Seeking to the time stamp of a returned buffer targets the first
    sample of its frame or the sample just before it, never anything
    further away.  This holds for a frame that starts inside a stream of
    known length, at a sample [n] with [0 <= n < totalSamples], for a
    sample rate of at most 1_000_000 Hz and for [1_000_000 * n] below
    [2^63]: the sample of a seek request for the buffer's time stamp is
    then [n] or [n - 1].  (A stream of unknown length has
    [totalSamples = 0], and every seek in it targets sample 0.) *)
Theorem seek_to_time_stamp doSeek sample (s : FLACSource.t (E := E)) buffer :
  let after := (readBuffer ext doSeek sample (FLACSource.mParser s)).2 in
  let s' := FLACSource.set_mParser after s in
  let n := FrameHeader.number (mWriteHeader after) in
  (readBuffer ext doSeek sample (FLACSource.mParser s)).1
  = Returns (Some buffer) ->
  0 <= n < getTotalSamples after ->
  0 < getSampleRate after <= 1000000 ->
  1000000 * n < 2 ^ 63 ->
  n - 1 <= FLACSource.seek_sample (kKeyTime buffer) s' <= n.
Proof.
  intros after s' n Hres Hn Hrate Hfit.
  destruct (readBuffer_buffer ext doSeek sample _ buffer Hres) as (Hfill & _).
  fold after in Hfill.
  destruct (fill_buffer_inv ext after buffer Hfill)
    as (_ & _ & _ & Htime & _).
  fold n in Htime.
  destruct (time_stamp_fits n (getSampleRate after)) as [Hstamp Hbound];
    [lia..|].
  rewrite Hstamp in Htime. rewrite Htime.
  set (rate := getSampleRate after) in *.
  set (t := 1000000 * n / rate) in *.
  assert (t * rate <= 1000000 * n) as Hup.
  { subst t. rewrite Z.mul_comm. apply Z.mul_div_le. lia. }
  assert (1000000 * n < t * rate + rate) as Hlow.
  { subst t. pose proof (Z.mod_pos_bound (1000000 * n) rate ltac:(lia)).
    pose proof (Z.div_mod (1000000 * n) rate ltac:(lia)). nia. }
  destruct (seek_sample_in_range t s') as [Hneg Hpos].
  cbn [FLACSource.set_mParser FLACSource.mParser] in Hneg, Hpos.
  fold rate in Hpos.
  destruct (Z_le_gt_dec t 0) as [Hzero|Hposit].
  - rewrite (Hneg Hzero). nia.
  - change (FLACSource.mParser s') with after in Hpos. fold rate in Hpos.
    rewrite Hpos by (unfold INT64_MAX; lia).
    assert (n - 1 <= t * rate / 1000000 <= n) as Hq.
    { split.
      - apply Z.div_le_lower_bound; lia.
      - apply Z.div_le_upper_bound; lia. }
    destruct (t * rate / 1000000 >=? getTotalSamples after) eqn:Hc;
      cbv iota; [|exact Hq].
    rewrite Z.geb_leb, Z.leb_le in Hc. lia.
Qed.

(** X13.  Time stamps follow the sample numbers and stay within the
    duration, as long as the products of the computation fit.  Of two
    buffers filled for the same stream parameters, with a positive sample
    rate, from frames that start at samples [n1 <= n2] with
    [1_000_000 * n2] below [2^63], the one whose frame starts later is not
    stamped earlier.  If moreover [n2] is at most the total sample count
    and [1_000_000 * totalSamples] is below [2^63], the later buffer is
    stamped with at most the duration that [init] reports.  (Beyond
    [2^63] the product wraps and the order is lost.) *)
Theorem time_stamps_are_monotone (q1 q2 : parser) buffer1 buffer2 :
  let n1 := FrameHeader.number (mWriteHeader q1) in
  let n2 := FrameHeader.number (mWriteHeader q2) in
  let total := getTotalSamples q2 in
  let duration := uint64 (total * 1000000) / getSampleRate q2 in
  fill_buffer ext q1 = Returns (Some buffer1) ->
  fill_buffer ext q2 = Returns (Some buffer2) ->
  mStreamInfo q1 = mStreamInfo q2 ->
  0 < getSampleRate q2 ->
  0 <= n1 <= n2 ->
  1000000 * n2 < 2 ^ 63 ->
  0 <= kKeyTime buffer1 <= kKeyTime buffer2
  /\ (n2 <= total -> 1000000 * total < 2 ^ 63 ->
      kKeyTime buffer2 <= duration).
Proof.
  intros n1 n2 total duration Hfill1 Hfill2 Hsame Hrate Hn Hfit.
  destruct (fill_buffer_inv ext q1 buffer1 Hfill1)
    as (_ & _ & _ & Htime1 & _).
  destruct (fill_buffer_inv ext q2 buffer2 Hfill2)
    as (_ & _ & _ & Htime2 & _).
  unfold getSampleRate in *. rewrite Hsame in Htime1.
  fold n1 in Htime1. fold n2 in Htime2.
  destruct (time_stamp_fits n1 _ ltac:(lia) Hrate ltac:(lia)) as [H1 H1'].
  destruct (time_stamp_fits n2 _ ltac:(lia) Hrate Hfit) as [H2 H2'].
  rewrite H1 in Htime1. rewrite H2 in Htime2. rewrite Htime1, Htime2.
  split.
  - split; [lia|]. apply Z.div_le_mono; lia.
  - intros Htotal Hfit'. subst duration.
    rewrite uint64_small by lia. apply Z.div_le_mono; lia.
Qed.

End TimeProperties.

(** ** Tracks and their life cycle *)

Section TrackProperties.
Context {E float32 : Type} (ext : Externals E float32).

Import FLACParser.

Abbreviation parser := (FLACParser.t (E := E)).

(** Comments and pictures leave a non-null file format non-null. *)
Lemma metadataCallback_file_metadata metadata (p : parser) :
  is_Some (mFileMetadata p) ->
  is_Some (mFileMetadata (metadataCallback ext metadata p)).
Proof.
  intros Hp.
  destruct metadata as [si|comments|data len|type]; cbn [metadataCallback].
  - by destruct (negb (mStreamInfoValid p)).
  - revert p Hp.
    induction comments as [|vce comments IH]; intros p Hp; cbn [fold_left];
      [done|].
    apply IH. destruct (mFileMetadata p) as [m|] eqn:Hm; [|by rewrite Hm].
    destruct (VorbisComment_Entry.entry vce); [by eexists|by rewrite Hm].
  - destruct Hp as [m Hm]. rewrite Hm. by eexists.
  - done.
Qed.

Lemma run_keeps_file_metadata d (p : parser) :
  is_Some (mFileMetadata p) -> is_Some (mFileMetadata (run ext d p).2).
Proof.
  apply (run_invariant ext (fun q => is_Some (mFileMetadata q))).
  - intros requested q HP.
    destruct (readCallback_cases requested q) as [->|[->|[pos ->]]]; done.
  - intros offset q HP. done.
  - intros frame buffer q HP. unfold writeCallback.
    destruct (mWriteRequested q); done.
  - intros metadata q HP. by apply metadataCallback_file_metadata.
  - intros status q HP. done.
Qed.

Lemma parse_metadata_file_metadata (p : parser) :
  is_Some (mFileMetadata p) ->
  is_Some (mFileMetadata (parse_metadata ext p).2).
Proof.
  intros Hp. unfold parse_metadata.
  destruct (FLAC__stream_decoder_new (engine ext)) as [d|]; [|done].
  destruct (FLAC__stream_decoder_init_stream _ _) as [initStatus d'].
  destruct initStatus; cbn [negb]; [|done].
  match goal with
  | |- context [run ext ?d ?q] =>
      pose proof (run_keeps_file_metadata d q Hp) as Hrun;
      destruct (run ext d q) as [[ok e] q']
  end.
  cbn [fst snd] in *. destruct ok; cbn [negb fst snd]; done.
Qed.

(** X14.  The file format of an extractor that reports a track says
    [audio/flac], whatever the comments and pictures of the stream put into
    it, and [getMetaData] hands out a copy of it to every caller that
    passes a format; a null format is refused and stays null. *)
Theorem file_mime_is_flac ds :
  let x := FLACExtractor.new ext ds in
  FLACExtractor.countTracks x = 1 ->
  exists m,
    FLACExtractor.mFileMetadata x = Some m
    /\ m !! AMEDIAFORMAT_KEY_MIME = Some (VString MEDIA_MIMETYPE_AUDIO_FLAC)
    /\ (forall to,
          FLACExtractor.getMetaData (Some to) x = (AMEDIA_OK, Some m))
    /\ FLACExtractor.getMetaData None x
       = (AMEDIA_ERROR_INVALID_PARAMETER, None).
Proof.
  intros x Hcount.
  destruct (countTracks_cases ext ds) as [[H0 _]|(_ & Hinit & _ & Hparser)];
    [fold x in H0; congruence|].
  set (p0 := fresh (E := E) ds false
               (Some AMediaFormat_new) (Some AMediaFormat_new)) in *.
  assert (FLACExtractor.mFileMetadata x = mFileMetadata (init ext p0).2)
    as Hfile.
  { unfold x in *.
    cbn [FLACExtractor.new FLACExtractor.mFileMetadata FLACExtractor.mParser]
      in Hparser |- *.
    by rewrite Hparser. }
  destruct (init_status ext p0) as [[Hno _]|(_ & _ & _ & Hafter)];
    [unfold OK, NO_INIT in *; congruence|].
  assert (is_Some (mFileMetadata
                     (populate_track_metadata (parse_metadata ext p0).2)))
    as [m Hm].
  { pose proof (parse_metadata_file_metadata p0) as Hq.
    unfold populate_track_metadata.
    destruct (mTrackMetadata (parse_metadata ext p0).2);
      apply Hq; by eexists. }
  rewrite Hafter in Hfile. unfold populate_file_metadata in Hfile.
  rewrite Hm in Hfile. cbn [mFileMetadata set_mFileMetadata] in Hfile.
  eexists. split; [exact Hfile|].
  split; [unfold AMediaFormat_setString; by rewrite lookup_insert_eq|].
  unfold FLACExtractor.getMetaData. rewrite Hfile. by split.
Qed.

(** X15.  Track enumeration and the two ways to ask for the track format
    agree.  A track exists for exactly the indices below [countTracks]; the
    format its [getFormat] fills in is, entry for entry and status for
    status, what [getTrackMetaData] of the extractor fills in for the same
    caller and index, also for a null format; and for an index without a
    track [getTrackMetaData] reports [AMEDIA_ERROR_UNKNOWN] and leaves the
    format as it was. *)
Theorem tracks_and_their_format callingUid index meta
    (x : FLACExtractor.t (E := E)) :
  0 <= index ->
  (is_Some (FLACExtractor.getTrack ext callingUid index x)
   <-> index < FLACExtractor.countTracks x)
  /\ match FLACExtractor.getTrack ext callingUid index x with
     | Some track =>
         FLACSource.getFormat meta track
         = FLACExtractor.getTrackMetaData callingUid meta index x
     | None =>
         FLACExtractor.getTrackMetaData callingUid meta index x
         = (AMEDIA_ERROR_UNKNOWN, meta)
     end.
Proof.
  intros Hindex.
  unfold FLACExtractor.getTrack, FLACExtractor.getTrackMetaData,
    FLACExtractor.countTracks.
  destruct (FLACExtractor.mInitCheck x =? OK) eqn:Hinit; cbn [negb orb].
  - destruct (index >? 0) eqn:Hpos.
    + split; [|done]. rewrite Z.gtb_ltb, Z.ltb_lt in Hpos.
      split; [by intros [? ?]|lia].
    + split; [|done]. rewrite Z.gtb_ltb, Z.ltb_ge in Hpos.
      split; [lia|by eexists].
  - split; [|done]. split; [by intros [? ?]|lia].
Qed.

(** X16.  The started flag of a track and the buffer group of its parser go
    together through the whole life of the track: they do for a new track,
    and [start], [stop] and [read] keep it so.  Under that invariant
    [start] fails its [CHECK] exactly on a started track and otherwise
    leaves a group whose buffer has the size recorded in [mMaxBufferSize],
    [stop] fails its [CHECK] exactly on a track that is not started, and the
    destructor never fails a [CHECK]. *)
Theorem track_life_cycle ds tm outputFloat acquire options :
  in_sync (FLACSource.new ext ds tm outputFloat)
  /\ forall s : FLACSource.t (E := E),
      in_sync s ->
      match FLACSource.start acquire s with
      | Returns (status, s') =>
          FLACSource.mStarted s = false /\ status = AMEDIA_OK
          /\ FLACSource.mStarted s' = true /\ in_sync s'
          /\ exists group,
              mGroup (FLACSource.mParser s') = Some group
              /\ capacity group = mMaxBufferSize (FLACSource.mParser s')
              /\ acquire_buffer group = acquire
      | CheckFailed => FLACSource.mStarted s = true
      | Undefined => False
      end
      /\ match FLACSource.stop s with
         | Returns (status, s') =>
             FLACSource.mStarted s = true /\ status = AMEDIA_OK
             /\ FLACSource.mStarted s' = false /\ in_sync s'
         | CheckFailed => FLACSource.mStarted s = false
         | Undefined => False
         end
      /\ in_sync (FLACSource.read ext options s).2
      /\ FLACSource.destructor s = Returns tt.
Proof.
  split.
  - unfold in_sync. cbn [FLACSource.new FLACSource.mStarted FLACSource.mParser].
    destruct (new_keeps_mode ext ds outputFloat None None) as [_ ->].
    split; [done|by intros [? ?]].
  - intros s Hsync.
    assert (in_sync (FLACSource.read ext options s).2) as Hread.
    { rewrite (read_request ext options s). cbn [snd]. unfold in_sync.
      cbn [FLACSource.set_mParser FLACSource.mStarted FLACSource.mParser].
      destruct (readBuffer_keeps ext (request options s).1
                  (request options s).2 (FLACSource.mParser s))
        as (_ & -> & _). exact Hsync. }
    destruct Hsync as [Hstart Hgroup].
    unfold FLACSource.destructor, FLACSource.start, FLACSource.stop,
      allocateBuffers, releaseBuffers, CHECK, obind.
    destruct (FLACSource.mStarted s) eqn:Hs; cbn [negb].
    + destruct (Hstart eq_refl) as [group Hg]. rewrite Hg.
      rewrite bool_decide_eq_false_2 by done. cbn [negb].
      cbn [FLACSource.set_mParser FLACSource.set_mStarted
             FLACSource.mStarted FLACSource.mParser mGroup set_mGroup].
      split_and!; try done. unfold in_sync.
      cbn [FLACSource.set_mParser FLACSource.set_mStarted
             FLACSource.mStarted FLACSource.mParser mGroup set_mGroup].
      split; [done|by intros [? ?]].
    + destruct (mGroup (FLACSource.mParser s)) as [group|] eqn:Hg.
      { exfalso. assert (false = true) by (apply Hgroup; by eexists). done. }
      rewrite bool_decide_eq_true_2 by done. cbn [negb].
      cbn [FLACSource.set_mParser FLACSource.set_mStarted
             FLACSource.mStarted FLACSource.mParser mGroup set_mGroup
             mMaxBufferSize set_mMaxBufferSize].
      split_and!; try done. by eexists.
Qed.

(** X17.  A read on a track that was never started returns no buffer.  It
    reports the end of the stream unless the engine delivered a frame that
    passes the checks of the block header, and in that case the process
    stops on the [CHECK] of the buffer group. *)
Theorem read_before_start options (s : FLACSource.t (E := E)) d :
  mDecoder (FLACSource.mParser s) = Some d ->
  mGroup (FLACSource.mParser s) = None ->
  let r := FLACSource.read ext options s in
  let after := FLACSource.mParser r.2 in
  let delivered :=
    (drive ext (request options s).1 (request options s).2
       (FLACSource.mParser s)).1 = Some true
    /\ mWriteCompleted after = true
    /\ invalid_blocksize after = false
    /\ changed_parameters after = false in
  (r.1 = CheckFailed \/ r.1 = Returns (None, AMEDIA_ERROR_END_OF_STREAM))
  /\ (r.1 = CheckFailed <-> delivered).
Proof.
  intros Hd Hgroup r after delivered. subst r after delivered.
  rewrite (read_request ext options s). cbn [fst snd FLACSource.set_mParser
                                              FLACSource.mParser].
  set (doSeek := (request options s).1).
  set (sample := (request options s).2).
  set (p := FLACSource.mParser s) in *.
  destruct (readBuffer_cases ext doSeek sample p d Hd) as [Hstate Hcases].
  destruct (readBuffer_keeps ext doSeek sample p) as (_ & Hg & _).
  rewrite Hgroup in Hg. rewrite Hstate in *.
  set (q := (drive ext doSeek sample p).2) in *.
  destruct Hcases
    as [[Hok ->]|[(Hok & Hc & ->)|[(Hok & Hc & Hb & ->)
       |[(Hok & Hc & Hb & Hp & ->)|(Hok & Hc & Hb & Hp & ->)]]]];
    cbn [obind].
  - split; [by right|]. split; [done|]. intros (Hok' & _). congruence.
  - split; [by right|]. split; [done|]. intros (_ & Hc' & _). congruence.
  - split; [by right|]. split; [done|]. intros (_ & _ & Hb' & _). congruence.
  - split; [by right|]. split; [done|]. intros (_ & _ & _ & Hp'). congruence.
  - unfold fill_buffer. rewrite Hg. cbn [obind]. split; [by left|]. done.
Qed.

(** X18.  The encoding that [getFormat] announces is the encoding of the
    buffers [read] returns: for a track whose parser runs in the mode of
    the track, as every track made by [getTrack] does, a read that returns
    a buffer returns [AMEDIA_OK], float samples when the format says float
    and 16-bit samples when it says 16 bits. *)
Theorem format_announces_buffers options (s : FLACSource.t (E := E))
    meta buffer status :
  mOutputFloat (FLACSource.mParser s) = FLACSource.mOutputFloat s ->
  is_Some (FLACSource.mTrackMetadata s) ->
  (FLACSource.read ext options s).1 = Returns (Some buffer, status) ->
  status = AMEDIA_OK
  /\ exists m,
      FLACSource.getFormat (Some meta) (FLACSource.read ext options s).2
      = (AMEDIA_OK, Some m)
      /\ m !! AMEDIAFORMAT_KEY_PCM_ENCODING
         = Some (VInt32 match buffer_data buffer with
                        | Pcm16 _ => kAudioEncodingPcm16bit
                        | PcmFloat _ => kAudioEncodingPcmFloat
                        end).
Proof.
  intros Hmode [tm Htm] Hres.
  rewrite (read_request ext options s) in Hres |- *. cbn [fst snd] in Hres |- *.
  set (doSeek := (request options s).1) in *.
  set (sample := (request options s).2) in *.
  destruct (readBuffer ext doSeek sample (FLACSource.mParser s)).1
    as [[b|]| |] eqn:Hbuf; cbn [obind] in Hres; try discriminate Hres.
  injection Hres as -> <-. split; [done|].
  destruct (readBuffer_buffer ext doSeek sample _ buffer Hbuf)
    as (Hfill & _).
  destruct (fill_buffer_inv ext _ buffer Hfill)
    as (_ & _ & _ & _ & _ & _ & Hdata).
  destruct (readBuffer_keeps ext doSeek sample (FLACSource.mParser s))
    as (Hfloat & _).
  rewrite Hfloat, Hmode in Hdata.
  unfold FLACSource.getFormat.
  cbn [FLACSource.set_mParser FLACSource.mTrackMetadata
         FLACSource.mOutputFloat].
  rewrite Htm. cbn [AMediaFormat_copy].
  eexists. split; [reflexivity|]. unfold AMediaFormat_setInt32.
  rewrite lookup_insert_eq.
  destruct (FLACSource.mOutputFloat s); destruct Hdata as (out & _ & ->);
    done.
Qed.

End TrackProperties.

(** ** Safety of the size check, album art *)

Section FurtherParserProperties.
Context {E float32 : Type} (ext : Externals E float32).

Import FLACParser.

Abbreviation parser := (FLACParser.t (E := E)).

(** X19.  On a started track the size check of a decode call cannot fail.
    For stream parameters that keep [max_blocksize * channels] below
    [2^32], a read on a track that [start] has just prepared stops on a
    [CHECK] only when the captured frame is numbered by frames instead of
    samples: the group is there, and the bytes of a validated frame never
    exceed the size computed by [allocateBuffers]. *)
Theorem started_read_passes_the_size_check acquire options
    (s s' : FLACSource.t (E := E)) status d :
  FLACSource.start acquire s = Returns (status, s') ->
  mDecoder (FLACSource.mParser s) = Some d ->
  mStreamInfoValid (FLACSource.mParser s) = true ->
  0 <= getChannels (FLACSource.mParser s) ->
  getMaxBlockSize (FLACSource.mParser s)
  * getChannels (FLACSource.mParser s) < 2 ^ 32 ->
  let r := FLACSource.read ext options s' in
  0 <= FrameHeader.blocksize (mWriteHeader (FLACSource.mParser r.2)) ->
  r.1 = CheckFailed ->
  FrameHeader.number_type (mWriteHeader (FLACSource.mParser r.2))
  = FLAC__FRAME_NUMBER_TYPE_FRAME_NUMBER.
Proof.
  intros Hstart Hd Hvalid Hch Hfit r. subst r.
  unfold FLACSource.start, allocateBuffers, CHECK in Hstart.
  destruct (FLACSource.mStarted s); cbn [negb] in Hstart; [done|].
  destruct (bool_decide (mGroup (FLACSource.mParser s) = None));
    cbn [obind] in Hstart; [|done].
  injection Hstart as _ <-.
  rewrite (read_request ext options _). cbn [fst snd].
  set (s' := FLACSource.set_mStarted true _).
  set (doSeek := (request options s').1).
  set (sample := (request options s').2).
  set (p := FLACSource.mParser s) in *.
  set (p' := FLACSource.mParser s').
  change (FLACSource.mParser (FLACSource.set_mParser ?q _)) with q.
  destruct (readBuffer_cases ext doSeek sample p' d Hd) as [Hstate Hcases].
  destruct (readBuffer_keeps ext doSeek sample p')
    as (Hmode & Hgroup & Hsize & Hinfo).
  destruct (Hinfo Hvalid) as [_ Hsi]. clear Hinfo.
  rewrite Hstate in *.
  set (q := (drive ext doSeek sample p').2) in *.
  intros Hbs Hres.
  destruct Hcases
    as [[_ H]|[(_ & _ & H)|[(_ & _ & _ & H)
       |[(_ & _ & _ & _ & H)|(_ & _ & Hvalidbs & _ & H)]]]];
    rewrite H in Hres; cbn [obind] in Hres; try discriminate Hres.
  unfold invalid_blocksize in Hvalidbs.
  apply orb_false_iff in Hvalidbs as [Hnz Hmax].
  apply Z.eqb_neq in Hnz. rewrite Z.gtb_ltb, Z.ltb_ge in Hmax.
  unfold fill_buffer in Hres. rewrite Hgroup, Hsize in Hres.
  cbn [FLACSource.mParser FLACSource.set_mStarted FLACSource.set_mParser
         mGroup mMaxBufferSize set_mGroup set_mMaxBufferSize
         acquire_buffer p' s'] in Hres.
  assert (getChannels q = getChannels p
          /\ getMaxBlockSize q = getMaxBlockSize p
          /\ getOutputSampleSize q = getOutputSampleSize p)
    as (Hc & Hm & Hw).
  { unfold getChannels, getMaxBlockSize, getOutputSampleSize.
    by rewrite Hsi, Hmode. }
  rewrite Hc, Hw in Hres. rewrite Hm in Hmax.
  assert (1 <= getOutputSampleSize p <= 4) as Hwidth.
  { unfold getOutputSampleSize. destruct (mOutputFloat p); lia. }
  set (blocksize := FrameHeader.blocksize (mWriteHeader q)) in *.
  set (channels := getChannels p) in *.
  set (width := getOutputSampleSize p) in *.
  set (max := getMaxBlockSize p) in *.
  assert (0 <= blocksize * channels <= max * channels) as Hprod by nia.
  assert (size_t (uint32 (blocksize * channels) * width)
          = blocksize * channels * width) as Hbytes.
  { unfold size_t, uint32, wrap_unsigned.
    rewrite (Z.mod_small (blocksize * channels)) by lia.
    apply Z.mod_small. nia. }
  assert (size_t (uint32 (max * channels) * width)
          = max * channels * width) as Hcapacity.
  { unfold size_t, uint32, wrap_unsigned.
    rewrite (Z.mod_small (max * channels)) by lia.
    apply Z.mod_small. nia. }
  assert ((blocksize * channels * width <=? max * channels * width) = true)
    as Hle by (apply Z.leb_le; nia).
  rewrite Hbytes, Hcapacity, Hle in Hres. cbn [CHECK] in Hres.
  destruct (acquire =? OK); cbn [negb obind] in Hres; [|discriminate Hres].
  match type of Hres with
  | obind (obind (defined ?copy) _) _ = _ => destruct copy as [data|]
  end; cbn [defined obind] in Hres; [|discriminate Hres].
  destruct (FrameHeader.number_type (mWriteHeader q)); [done|].
  cbn [CHECK] in Hres. destruct (getSampleRate q =? 0); discriminate Hres.
Qed.

(** Blocks that are neither comments nor pictures leave the file format
    alone. *)
Lemma other_blocks_keep_file_metadata blocks (p : parser) :
  Forall (fun block => touches_file_metadata block = false) blocks ->
  mFileMetadata
    (fold_left (fun q block => metadataCallback ext block q) blocks p)
  = mFileMetadata p.
Proof.
  intros Hblocks. revert p.
  induction Hblocks as [|block blocks Hblock _ IH]; intros p;
    cbn [fold_left]; [done|].
  rewrite IH.
  destruct block as [si|comments|data len|type]; try discriminate Hblock;
    cbn [metadataCallback]; [|done].
  by destruct (negb (mStreamInfoValid p)).
Qed.

Lemma blocks_keep_file_metadata blocks (p : parser) :
  is_Some (mFileMetadata p) ->
  is_Some (mFileMetadata
             (fold_left (fun q block => metadataCallback ext block q)
                blocks p)).
Proof.
  revert p. induction blocks as [|block blocks IH]; intros p Hp;
    cbn [fold_left]; [done|].
  apply IH. by apply metadataCallback_file_metadata.
Qed.

(** X20.  The album art of the file is the last picture of the stream.
    When the metadata blocks are handed to the callback in order and no
    comment or picture follows a picture block, the file format that
    [init] completes holds the first [data_length] bytes of that picture as
    album art, next to the mime type [audio/flac]; earlier pictures and
    comments do not matter. *)
Theorem last_picture_is_album_art before data data_length after
    (p : parser) :
  is_Some (mFileMetadata p) ->
  Forall (fun block => touches_file_metadata block = false) after ->
  let blocks :=
    before ++ FLAC__METADATA_TYPE_PICTURE data data_length :: after in
  let q := fold_left (fun q block => metadataCallback ext block q) blocks p in
  exists m,
    mFileMetadata (populate_file_metadata q) = Some m
    /\ m !! AMEDIAFORMAT_KEY_ALBUMART
       = Some (VBuffer (take (Z.to_nat data_length) data))
    /\ m !! AMEDIAFORMAT_KEY_MIME
       = Some (VString MEDIA_MIMETYPE_AUDIO_FLAC).
Proof.
  intros Hp Hafter blocks q. subst q blocks.
  rewrite fold_left_app. cbn [fold_left].
  destruct (blocks_keep_file_metadata before p Hp) as [m Hm].
  set (q := fold_left _ before p) in *.
  unfold populate_file_metadata.
  rewrite (other_blocks_keep_file_metadata after _ Hafter).
  cbn [metadataCallback]. rewrite Hm.
  cbn [mFileMetadata set_mFileMetadata].
  eexists. split; [reflexivity|].
  unfold AMediaFormat_setString, AMediaFormat_setBuffer.
  split; [|by rewrite lookup_insert_eq].
  rewrite lookup_insert_ne by done. by rewrite lookup_insert_eq.
Qed.

End FurtherParserProperties.

(** ** Witnesses of the further properties *)

(** X3, witness: a push during a step that was not armed. *)
Lemma unarmed_step_captures_nothing_witness :
  let si := stream_info 44100 1 16 1000 4096 in
  let ext := silent [] true in
  let p := FLACParser.fresh (E := unit) (memory_source []) false None None in
  let d := push_frame (frame_of si 2 0) [[5; -5]] in
  FLACParser.mWriteRequested p = false
  /\ FLACParser.mWriteCompleted (FLACParser.run ext d p).2 = false.
Proof.
  intros si ext p d.
  assert (FLACParser.mWriteRequested p = false) as Hclear by reflexivity.
  split; [exact Hclear|].
  destruct (unarmed_step_captures_nothing ext d p Hclear)
    as (_ & _ & Hcompleted & _).
  rewrite Hcompleted. reflexivity.
Defined.

(** X4, witness: a decode step that pushes twice. *)
Lemma first_push_is_captured_witness :
  let si := stream_info 44100 1 16 1000 4096 in
  let ext := stutterer si [[5; -5]] 2 in
  let p := FLACSource.mParser (the_track ext 10001 (memory_source [])) in
  let answers :=
    FLACParser.trace ext (FLACParser.drive_tree ext false 0 tt)
      (FLACParser.armed p) in
  FLACParser.mDecoder p = Some tt
  /\ (length (filter (fun r => accepted_push r = true) answers) <= 1)%nat.
Proof.
  intros si ext p answers.
  assert (FLACParser.mDecoder p = Some tt) as Hd by (vm_compute; reflexivity).
  split; [exact Hd|].
  exact (proj1 (first_push_is_captured ext false 0 p tt Hd)).
Defined.

(** X5, witness: three reads, one of them a seek. *)
Lemma reads_keep_the_track_witness :
  let si := stream_info 44100 1 16 1000 4096 in
  let ext := player si [[5; -5]] 2 in
  let s := the_track ext 10001 (memory_source []) in
  let s' := after_reads ext [None; seek_to 10000; None] s in
  FLACParser.mStreamInfoValid (FLACSource.mParser s) = true
  /\ FLACSource.mStarted s' = FLACSource.mStarted s.
Proof.
  intros si ext s s'.
  assert (FLACParser.mStreamInfoValid (FLACSource.mParser s) = true)
    as Hvalid by (vm_compute; reflexivity).
  split; [exact Hvalid|].
  destruct (reads_keep_the_track ext [None; seek_to 10000; None] s None
              Hvalid) as (_ & _ & _ & _ & _ & Hstarted & _).
  exact Hstarted.
Defined.

(** X6, witness: an error status stored before a read. *)
Lemma error_status_is_not_read_witness :
  let si := stream_info 44100 1 16 1000 4096 in
  let ext := player si [[5; -5]] 2 in
  let p := FLACSource.mParser (the_track ext 10001 (memory_source [])) in
  FLACParser.mDecoder p = Some tt
  /\ (FLACParser.readBuffer ext false 0 (FLACParser.errorCallback 2 p)).1
     = (FLACParser.readBuffer ext false 0 p).1.
Proof.
  intros si ext p.
  assert (FLACParser.mDecoder p = Some tt) as Hd by (vm_compute; reflexivity).
  split; [exact Hd|].
  exact (proj2 (proj2 (error_status_is_not_read ext false 0 2 p tt Hd))).
Defined.

(** X7, witness: two planes of two samples. *)
Lemma copy_loops_interleave_witness :
  exists out,
    copyTo16Signed [[1; 2]; [3; 4]] 2 2 16 = Some out
    /\ length out = 4%nat.
Proof.
  eexists.
  assert (copyTo16Signed [[1; 2]; [3; 4]] 2 2 16 = Some [1; 3; 2; 4])
    as Hcopy by (vm_compute; reflexivity).
  split; [exact Hcopy|].
  exact (proj1 (proj1 (copy_loops_interleave (fun i : Z => i)
                         [[1; 2]; [3; 4]] 2 2 16)
                  (or_intror eq_refl) _ Hcopy)).
Defined.

(** X8, witness: the second sample of the first plane of an 8-bit source. *)
Lemma in_range_samples_scale_exactly_witness :
  exists out,
    copyTo16Signed [[1; -2]; [3; 4]] 2 2 8 = Some out
    /\ out !! 2%nat = Some (-2 * 2 ^ 8).
Proof.
  eexists.
  assert (copyTo16Signed [[1; -2]; [3; 4]] 2 2 8
          = Some [256; 768; -512; 1024])
    as Hcopy by (vm_compute; reflexivity).
  split; [exact Hcopy|].
  assert (- 2 ^ (8 - 1) <= -2 < 2 ^ (8 - 1)) as Hrange
    by (split; vm_compute; congruence).
  exact (proj1 (in_range_samples_scale_exactly (fun i : Z => i)
                  [[1; -2]; [3; 4]] 2 2 8 1 0 [1; -2] (-2)
                  ltac:(vm_compute; lia) ltac:(vm_compute; lia)
                  eq_refl eq_refl Hrange)
           (or_introl eq_refl) _ Hcopy).
Defined.

(** X9, witness: the first buffer of a 16-bit stream. *)
Lemma returned_buffer_shape_witness :
  let si := stream_info 44100 1 16 1000 4096 in
  let ext := player si [[5; -5]] 2 in
  let p := FLACSource.mParser (the_track ext 10001 (memory_source [])) in
  exists buffer,
    (FLACParser.readBuffer ext false 0 p).1 = Returns (Some buffer)
    /\ kKeyIsSyncFrame buffer = 1.
Proof.
  intros si ext p. eexists.
  assert ((FLACParser.readBuffer ext false 0 p).1 = Returns (Some _))
    as Hres by (vm_compute; reflexivity).
  split; [exact Hres|].
  exact (proj1 (returned_buffer_shape ext false 0 p _ Hres)).
Defined.

(** X10, witness: the same buffer fits the group of the started track. *)
Lemma returned_buffer_fits_witness :
  let si := stream_info 44100 1 16 1000 4096 in
  let ext := player si [[5; -5]] 2 in
  let p := FLACSource.mParser (the_track ext 10001 (memory_source [])) in
  exists group buffer,
    FLACParser.mGroup p = Some group
    /\ (FLACParser.readBuffer ext false 0 p).1 = Returns (Some buffer)
    /\ range_length buffer <= capacity group.
Proof.
  intros si ext p. do 2 eexists.
  assert (FLACParser.mGroup p = Some _) as Hgroup
    by (vm_compute; reflexivity).
  assert ((FLACParser.readBuffer ext false 0 p).1 = Returns (Some _))
    as Hres by (vm_compute; reflexivity).
  split; [exact Hgroup|]. split; [exact Hres|].
  refine (proj2 (returned_buffer_fits ext false 0 p _ _ _ Hgroup _ _ _ _
                   Hres)).
  - vm_compute. reflexivity.
  - vm_compute. reflexivity.
  - vm_compute. congruence.
  - vm_compute. reflexivity.
  - vm_compute. congruence.
Defined.

(** X11, witness: two seek times on a stream of 1000 samples. *)
Lemma seek_targets_are_monotone_witness :
  let si := stream_info 44100 1 16 1000 4096 in
  let ext := player si [[5; -5]] 2 in
  let s := the_track ext 10001 (memory_source []) in
  FLACSource.seek_sample 10000 s <= FLACSource.seek_sample 20000 s.
Proof.
  intros si ext s.
  refine (proj1 (proj2 (seek_targets_are_monotone 10000 20000 s _ _ _ _))).
  - vm_compute. congruence.
  - vm_compute. congruence.
  - lia.
  - vm_compute. congruence.
Defined.

(** X12, witness: a seek to sample 441 and back to its time stamp. *)
Lemma seek_to_time_stamp_witness :
  let si := stream_info 44100 1 16 1000 4096 in
  let ext := player si [[5; -5]] 2 in
  let s := the_track ext 10001 (memory_source []) in
  let after :=
    (FLACParser.readBuffer ext true 441 (FLACSource.mParser s)).2 in
  exists buffer,
    (FLACParser.readBuffer ext true 441 (FLACSource.mParser s)).1
    = Returns (Some buffer)
    /\ 440 <= FLACSource.seek_sample (kKeyTime buffer)
                (FLACSource.set_mParser after s) <= 441.
Proof.
  intros si ext s after. eexists.
  assert ((FLACParser.readBuffer ext true 441 (FLACSource.mParser s)).1
          = Returns (Some _)) as Hres by (vm_compute; reflexivity).
  split; [exact Hres|].
  refine (seek_to_time_stamp ext true 441 s _ Hres _ _ _).
  - split; vm_compute; congruence.
  - split; vm_compute; congruence.
  - vm_compute. reflexivity.
Defined.

(** X13, witness: the buffers of samples 100 and 441. *)
Lemma time_stamps_are_monotone_witness :
  let si := stream_info 44100 1 16 1000 4096 in
  let ext := player si [[5; -5]] 2 in
  let p := FLACSource.mParser (the_track ext 10001 (memory_source [])) in
  let q1 := (FLACParser.readBuffer ext true 100 p).2 in
  let q2 := (FLACParser.readBuffer ext true 441 p).2 in
  exists buffer1 buffer2,
    FLACParser.fill_buffer ext q1 = Returns (Some buffer1)
    /\ FLACParser.fill_buffer ext q2 = Returns (Some buffer2)
    /\ kKeyTime buffer1 <= kKeyTime buffer2.
Proof.
  intros si ext p q1 q2. do 2 eexists.
  assert (FLACParser.fill_buffer ext q1 = Returns (Some _)) as H1
    by (vm_compute; reflexivity).
  assert (FLACParser.fill_buffer ext q2 = Returns (Some _)) as H2
    by (vm_compute; reflexivity).
  split; [exact H1|]. split; [exact H2|].
  refine (proj2 (proj1 (time_stamps_are_monotone ext q1 q2 _ _ H1 H2
                          _ _ _ _))).
  - vm_compute. reflexivity.
  - vm_compute. reflexivity.
  - split; vm_compute; congruence.
  - vm_compute. reflexivity.
Defined.

(** X14, witness: a stream with a picture. *)
Lemma file_mime_is_flac_witness :
  let si := stream_info 44100 2 16 1000 4096 in
  let ext :=
    silent [FLAC__METADATA_TYPE_PICTURE [1; 2; 3] 2;
            FLAC__METADATA_TYPE_STREAMINFO si] true in
  let x := FLACExtractor.new ext (memory_source []) in
  FLACExtractor.countTracks x = 1
  /\ exists m,
      FLACExtractor.getMetaData (Some ∅) x = (AMEDIA_OK, Some m)
      /\ m !! AMEDIAFORMAT_KEY_MIME
         = Some (VString MEDIA_MIMETYPE_AUDIO_FLAC).
Proof.
  intros si ext x.
  assert (FLACExtractor.countTracks x = 1) as Hcount
    by (vm_compute; reflexivity).
  split; [exact Hcount|].
  destruct (file_mime_is_flac ext (memory_source []) Hcount)
    as (m & _ & Hmime & Hcopy & _).
  exists m. split; [apply Hcopy|exact Hmime].
Defined.

(** X15, witness: the second index of a stream with one track. *)
Lemma tracks_and_their_format_witness :
  let si := stream_info 44100 2 16 1000 4096 in
  let ext := player si [[5; -5]; [6; -6]] 2 in
  let x := FLACExtractor.new ext (memory_source []) in
  0 <= 1
  /\ FLACExtractor.getTrackMetaData 10001 (Some ∅) 1 x
     = (AMEDIA_ERROR_UNKNOWN, Some ∅).
Proof.
  intros si ext x.
  assert (0 <= 1) as Hindex by lia.
  split; [exact Hindex|].
  exact (proj2 (tracks_and_their_format ext 10001 1 (Some ∅) x Hindex)).
Defined.

(** X16, witness: a new track can be destroyed at once. *)
Lemma track_life_cycle_witness :
  let si := stream_info 44100 1 16 1000 4096 in
  let ext := player si [[5; -5]] 2 in
  let s := FLACSource.new ext (memory_source []) None false in
  in_sync s /\ FLACSource.destructor s = Returns tt.
Proof.
  intros si ext s.
  destruct (track_life_cycle ext (memory_source []) None false OK None)
    as [Hnew Hlife].
  assert (forall track : FLACSource.t (E := unit),
             in_sync track -> FLACSource.destructor track = Returns tt)
    as Hdestructor.
  { intros track Htrack. exact (proj2 (proj2 (proj2 (Hlife track Htrack)))). }
  split; [exact Hnew|exact (Hdestructor s Hnew)].
Defined.

(** X17, witness: a read on a track that was not started. *)
Lemma read_before_start_witness :
  let si := stream_info 44100 1 16 1000 4096 in
  let ext := player si [[5; -5]] 2 in
  let s := FLACSource.new ext (memory_source []) None false in
  FLACParser.mDecoder (FLACSource.mParser s) = Some tt
  /\ FLACParser.mGroup (FLACSource.mParser s) = None
  /\ (FLACSource.read ext None s).1 = CheckFailed.
Proof.
  intros si ext s.
  assert (FLACParser.mDecoder (FLACSource.mParser s) = Some tt) as Hd
    by (vm_compute; reflexivity).
  assert (FLACParser.mGroup (FLACSource.mParser s) = None) as Hgroup
    by (vm_compute; reflexivity).
  split; [exact Hd|]. split; [exact Hgroup|].
  apply (proj2 (read_before_start ext None s tt Hd Hgroup)).
  repeat split; vm_compute; reflexivity.
Defined.

(** X18, witness: a 24-bit stream read by the media uid. *)
Lemma format_announces_buffers_witness :
  let si := stream_info 44100 1 24 1000 4096 in
  let ext := player si [[5; -5]] 2 in
  let s := the_track ext AID_MEDIA (memory_source []) in
  exists buffer m,
    (FLACSource.read ext None s).1 = Returns (Some buffer, AMEDIA_OK)
    /\ FLACSource.getFormat (Some ∅) (FLACSource.read ext None s).2
       = (AMEDIA_OK, Some m)
    /\ m !! AMEDIAFORMAT_KEY_PCM_ENCODING
       = Some (VInt32 kAudioEncodingPcmFloat).
Proof.
  intros si ext s. eexists.
  assert ((FLACSource.read ext None s).1 = Returns (Some _, AMEDIA_OK))
    as Hres by (vm_compute; reflexivity).
  assert (FLACParser.mOutputFloat (FLACSource.mParser s)
          = FLACSource.mOutputFloat s) as Hmode by (vm_compute; reflexivity).
  assert (is_Some (FLACSource.mTrackMetadata s)) as Htm
    by (apply (bool_decide_unpack _); vm_compute; reflexivity).
  destruct (format_announces_buffers ext None s ∅ _ _ Hmode Htm Hres)
    as (_ & m & Hformat & Hencoding).
  exists m. split; [exact Hres|]. split; [exact Hformat|exact Hencoding].
Defined.

(** X19, witness: a frame numbered by frames. *)
Lemma started_read_passes_the_size_check_witness :
  let si := stream_info 44100 1 16 1000 4096 in
  let frame :=
    {| header :=
         {| FrameHeader.blocksize := 2;
            FrameHeader.sample_rate := 44100;
            FrameHeader.channels := 1;
            FrameHeader.channel_assignment := 0;
            FrameHeader.bits_per_sample := 16;
            FrameHeader.number_type := FLAC__FRAME_NUMBER_TYPE_FRAME_NUMBER;
            FrameHeader.number := 0;
            FrameHeader.crc := 0 |} |} in
  let ext :=
    scripted
      (scripted_engine [FLAC__METADATA_TYPE_STREAMINFO si] true
         (push_frame frame [[5; -5]]) (fun _ => Finish false tt)) in
  let s := FLACSource.new ext (memory_source []) None false in
  let s' :=
    match FLACSource.start OK s with
    | Returns (_, started) => started
    | _ => s
    end in
  FLACSource.start OK s = Returns (AMEDIA_OK, s')
  /\ (FLACSource.read ext None s').1 = CheckFailed
  /\ FrameHeader.number_type
       (FLACParser.mWriteHeader
          (FLACSource.mParser (FLACSource.read ext None s').2))
     = FLAC__FRAME_NUMBER_TYPE_FRAME_NUMBER.
Proof.
  intros si frame ext s s'.
  assert (FLACSource.start OK s = Returns (AMEDIA_OK, s')) as Hstart
    by (vm_compute; reflexivity).
  assert ((FLACSource.read ext None s').1 = CheckFailed) as Hres
    by (vm_compute; reflexivity).
  split; [exact Hstart|]. split; [exact Hres|].
  refine (started_read_passes_the_size_check ext OK None s s' AMEDIA_OK tt
            Hstart _ _ _ _ _ Hres).
  - vm_compute. reflexivity.
  - vm_compute. reflexivity.
  - vm_compute. congruence.
  - vm_compute. reflexivity.
  - vm_compute. congruence.
Defined.

(** X20, witness: two pictures, then the stream parameters. *)
Lemma last_picture_is_album_art_witness :
  let si := stream_info 44100 2 16 1000 4096 in
  let ext := silent [] true in
  let p :=
    FLACParser.fresh (E := unit) (memory_source []) false (Some ∅) None in
  let blocks :=
    [FLAC__METADATA_TYPE_PICTURE [9; 9; 9] 3;
     FLAC__METADATA_TYPE_PICTURE [1; 2; 3] 2;
     FLAC__METADATA_TYPE_STREAMINFO si] in
  exists m,
    FLACParser.mFileMetadata
      (FLACParser.populate_file_metadata
         (fold_left (fun q block => FLACParser.metadataCallback ext block q)
            blocks p))
    = Some m
    /\ m !! AMEDIAFORMAT_KEY_ALBUMART = Some (VBuffer [1; 2]).
Proof.
  intros si ext p blocks.
  assert (is_Some (FLACParser.mFileMetadata p)) as Hfile by (by eexists).
  assert (Forall (fun block => touches_file_metadata block = false)
            [FLAC__METADATA_TYPE_STREAMINFO si]) as Hafter
    by (repeat constructor).
  destruct (last_picture_is_album_art ext
              [FLAC__METADATA_TYPE_PICTURE [9; 9; 9] 3] [1; 2; 3] 2
              [FLAC__METADATA_TYPE_STREAMINFO si] p Hfile Hafter)
    as (m & Hm & Hart & _).
  exists m. split; [exact Hm|exact Hart].
Defined.

(** X21, witness: the track of a stereo stream. *)
Lemma track_parser_same_stream_witness :
  let si := stream_info 44100 2 16 1000 4096 in
  let ext := player si [[5; -5]; [6; -6]] 2 in
  let ds := memory_source [] in
  exists track,
    FLACExtractor.getTrack ext 10001 0 (FLACExtractor.new ext ds) = Some track
    /\ FLACSource.mInitCheck track = false.
Proof.
  intros si ext ds. eexists.
  assert (FLACExtractor.getTrack ext 10001 0 (FLACExtractor.new ext ds)
          = Some _) as Htrack by (vm_compute; reflexivity).
  split; [exact Htrack|].
  exact (proj1 (proj2 (track_parser_same_stream ext ds 10001 _ Htrack))).
Defined.
